(** * The dashboard client of the UR client library

    A shallow embedding of [src/ur/dashboard_client.cpp]
    (class [urcl::DashboardClient]) and the properties of its version gate,
    its reply reader, its poll and retry loops and its connection set-up.

    Layout: the parts of the C++ standard library the client uses
    ([std::string], [std::istringstream], [std::stoi],
    [std::lexicographical_compare]); the client state and its monad; the
    transport the client inherits from; the client's member functions, in
    the order of the source file; then the theorems. *)

From Stdlib Require Import ZArith List String Ascii Bool Lia.
From Stdlib Require Import Floats.PrimFloat Numbers.Cyclic.Int63.PrimInt63.
Import ListNotations.

Local Open Scope string_scope.
Local Open Scope Z_scope.

(* ===================================================================== *)
(** ** Characters and [std::string] *)
(* ===================================================================== *)

Module Cxx.

Definition LF : ascii := "010"%char.
Definition HT : ascii := "009"%char.
Definition VT : ascii := "011"%char.
Definition FF : ascii := "012"%char.
Definition CR : ascii := "013"%char.
Definition SP : ascii := " "%char.

(** The string ["\n"]. *)
Definition endl : string := String LF EmptyString.

(** [std::isspace] in the "C" locale. *)
Definition isspace (c : ascii) : bool :=
  Ascii.eqb c SP || Ascii.eqb c HT || Ascii.eqb c LF
  || Ascii.eqb c VT || Ascii.eqb c FF || Ascii.eqb c CR.

Definition isdigit (c : ascii) : bool :=
  let n := N_of_ascii c in (48 <=? n)%N && (n <=? 57)%N.

Definition digit_value (c : ascii) : Z := Z.of_N (N_of_ascii c) - 48.

(** [size_t] is a 64-bit unsigned integer; arithmetic on it wraps. *)
Definition size_t_modulus : Z := 2 ^ 64.
Definition size_t_wrap (z : Z) : Z := z mod size_t_modulus.
Definition npos : Z := size_t_modulus - 1.

Definition size (s : string) : Z := Z.of_nat (String.length s).

(** [s.find(pat)]: the first position of [pat] in [s], or [npos]. *)
Definition find (s pat : string) : Z :=
  match String.index 0 pat s with
  | Some i => Z.of_nat i
  | None => npos
  end.

Fixpoint mem_char (c : ascii) (chars : string) : bool :=
  match chars with
  | EmptyString => false
  | String d chars' => Ascii.eqb c d || mem_char c chars'
  end.

(** [s.find_last_not_of(chars)], scanning [s] whose first character has
    index [i]: the last position holding a character outside [chars], or
    [npos]. *)
Fixpoint find_last_not_of_from (i : Z) (s chars : string) : Z :=
  match s with
  | EmptyString => npos
  | String c s' =>
      let later := find_last_not_of_from (i + 1) s' chars in
      if later =? npos then (if mem_char c chars then npos else i)
      else later
  end.

Definition find_last_not_of (s chars : string) : Z :=
  find_last_not_of_from 0 s chars.

(** [s.substr(pos, len)]: [None] stands for [std::out_of_range], thrown
    when [pos > size()]; the length is cut at the end of the string. *)
Definition substr (s : string) (pos len : Z) : option string :=
  if size s <? pos then None
  else Some (String.substring (Z.to_nat pos)
                              (Z.to_nat (Z.min len (size s - pos))) s).

(** [s.erase(pos)]: keeps the first [pos] characters ([None] for
    [std::out_of_range]). *)
Definition erase (s : string) (pos : Z) : option string :=
  if size s <? pos then None
  else Some (String.substring 0 (Z.to_nat pos) s).

(* ===================================================================== *)
(** ** [int], and reading integers from text *)
(* ===================================================================== *)

Definition INT_MAX : Z := 2 ^ 31 - 1.
Definition INT_MIN : Z := - 2 ^ 31.

Fixpoint skipws (l : list ascii) : list ascii :=
  match l with
  | c :: l' => if isspace c then skipws l' else l
  | [] => []
  end.

(** Accumulates the decimal digits in front of [l]: the value read, the
    number of digits, and what follows them. *)
Fixpoint scan_digits (l : list ascii) (acc : Z) (n : nat)
  : Z * nat * list ascii :=
  match l with
  | c :: l' =>
      if isdigit c then scan_digits l' (acc * 10 + digit_value c) (S n)
      else (acc, n, l)
  | [] => (acc, n, [])
  end.

(** An optional sign followed by decimal digits: the field [num_get]
    accepts for a signed integer in base 10.  Returns whether the sign was
    a minus, the magnitude, the number of digits and the rest. *)
Definition scan_int (l : list ascii) : bool * Z * nat * list ascii :=
  let '(neg, l1) :=
    match l with
    | c :: l' =>
        if Ascii.eqb c "-"%char then (true, l')
        else if Ascii.eqb c "+"%char then (false, l')
        else (false, l)
    | [] => (false, [])
    end in
  let '(acc, n, rest) := scan_digits l1 0 0 in
  (neg, acc, n, rest).

Definition is_nil {A} (l : list A) : bool :=
  match l with [] => true | _ => false end.

(** *** [std::istringstream]

    The characters not read yet, and the two state bits the client's
    parser can set.  A stream is [good] when neither is set. *)
Record istringstream : Type := mk_istringstream {
  buf : list ascii;
  eofbit : bool;
  failbit : bool
}.

Definition istringstream_of (s : string) : istringstream :=
  {| buf := list_ascii_of_string s; eofbit := false; failbit := false |}.

Definition good (s : istringstream) : bool :=
  negb (eofbit s) && negb (failbit s).

Definition setfail (s : istringstream) : istringstream :=
  {| buf := buf s; eofbit := eofbit s; failbit := true |}.

(** [parser.get()]: an unformatted input function.  Its sentry fails, and
    sets [failbit], on a stream that is not good; at the end of the input
    it sets [eofbit] and [failbit]. *)
Definition get (s : istringstream) : istringstream * option ascii :=
  if negb (good s) then (setfail s, None)
  else
    match buf s with
    | [] => ({| buf := []; eofbit := true; failbit := true |}, None)
    | c :: b => ({| buf := b; eofbit := false; failbit := false |}, Some c)
    end.

(** [parser >> v] for [int& v]: a formatted input function.

    - The sentry comes first.  On a stream that is not good it sets
      [failbit] and the operator returns without touching [v].  On a good
      stream it skips white space; when that reaches the end of the input
      it sets [eofbit] and [failbit], and again [v] is left as it was.
    - Otherwise [num_get] reads a sign and digits.  With no digit it sets
      [failbit] and stores 0; a value outside [int] sets [failbit] and
      stores the nearest bound; reaching the end of the input while
      scanning sets [eofbit].

    [v] is the value the variable holds before the call; the second
    component is the value it holds after. *)
Definition extract_int (s : istringstream) (v : Z) : istringstream * Z :=
  if negb (good s) then (setfail s, v)
  else
    match skipws (buf s) with
    | [] => ({| buf := []; eofbit := true; failbit := true |}, v)
    | b =>
        let '(neg, acc, n, rest) := scan_int b in
        let eof := is_nil rest in
        let x := if neg then - acc else acc in
        if Nat.eqb n 0 then
          ({| buf := rest; eofbit := eof; failbit := true |}, 0)
        else if x <? INT_MIN then
          ({| buf := rest; eofbit := eof; failbit := true |}, INT_MIN)
        else if INT_MAX <? x then
          ({| buf := rest; eofbit := eof; failbit := true |}, INT_MAX)
        else
          ({| buf := rest; eofbit := eof; failbit := false |}, x)
    end.

(** *** [std::stoi]

    [strtol] in base 10 on the whole string: white space, a sign, digits.
    No digit is [std::invalid_argument]; a value outside [int] is
    [std::out_of_range]. *)
Inductive stoi_result : Type :=
| StoiValue (n : Z)
| StoiInvalidArgument
| StoiOutOfRange.

Definition stoi (s : string) : stoi_result :=
  let '(neg, acc, n, _) := scan_int (skipws (list_ascii_of_string s)) in
  let x := if neg then - acc else acc in
  if Nat.eqb n 0 then StoiInvalidArgument
  else if (x <? INT_MIN) || (INT_MAX <? x) then StoiOutOfRange
  else StoiValue x.

(** *** [std::lexicographical_compare] with [operator<] on two ranges. *)
Fixpoint lexicographical_compare (r1 r2 : list Z) : bool :=
  match r1, r2 with
  | x :: r1', y :: r2' =>
      if x <? y then true
      else if y <? x then false
      else lexicographical_compare r1' r2'
  | [], _ :: _ => true
  | _, [] => false
  end.

End Cxx.

(* ===================================================================== *)
(** ** Arrays of four [int] *)
(* ===================================================================== *)

(** [int result[4]].  A freshly declared local array holds whatever its
    storage held before; [junk4] names those four values. *)
Definition junk4 : Type := (Z * Z * Z * Z)%type.

Definition array4 (j : junk4) : list Z :=
  let '(a, b, c, d) := j in [a; b; c; d].

Fixpoint store (l : list Z) (idx : nat) (v : Z) : list Z :=
  match l, idx with
  | [], _ => []
  | _ :: l', O => v :: l'
  | x :: l', S i => x :: store l' i v
  end.

Definition load (l : list Z) (idx : nat) : Z := nth idx l 0.

(* ===================================================================== *)
(** ** [DashboardClient::parseSWVersion] *)
(* ===================================================================== *)

(** [result] is the array as the caller passes it in; the function returns
    the array as it leaves it.  A component the stream does not deliver is
    not written: [operator>>] on a stream that is no longer good returns
    at its sentry. *)
Definition parseSWVersion (result : list Z) (input : string) : list Z :=
  let parser := Cxx.istringstream_of input in
  let '(parser, v) := Cxx.extract_int parser (load result 0) in
  let result := store result 0 v in
  snd (fold_left
         (fun (acc : Cxx.istringstream * list Z) (idx : nat) =>
            let '(parser, result) := acc in
            let '(parser, _) := Cxx.get parser in       (* skip period *)
            let '(parser, v) := Cxx.extract_int parser (load result idx) in
            (parser, store result idx v))
         [1; 2; 3]%nat (parser, result)).

(* ===================================================================== *)
(** ** Exceptions, outcomes and the client state *)
(* ===================================================================== *)

(** [struct timeval]. *)
Record timeval : Type := mk_timeval { tv_sec : Z; tv_usec : Z }.

(** Modelled from the spec: the connection state of the transport
    ([comm::SocketState], declared in [tcp_socket.h], which is not among
    the sources).  The spec's ConnectionState is {Disconnected, Connected}. *)
Inductive SocketState : Type := Disconnected | Connected.

Definition SocketState_eqb (a b : SocketState) : bool :=
  match a, b with
  | Disconnected, Disconnected | Connected, Connected => true
  | _, _ => false
  end.

(** What the client throws, or lets through from the standard library. *)
Inductive exception : Type :=
| UrException (what : string)
| TimeoutException (what : string) (timeout : timeval)
| std_invalid_argument
| std_out_of_range
| std_regex_error.

(** How a call ends: it returns, it throws, it dereferences the unset
    [recv_timeout_], or the model's fuel for its loops is used up. *)
Inductive outcome (A : Type) : Type :=
| Ok (a : A)
| Throw (e : exception)
| Undefined
| OutOfFuel.

Arguments Ok {A} a.
Arguments Throw {A} e.
Arguments Undefined {A}.
Arguments OutOfFuel {A}.

Section Client.

(** The dashboard server at the other end of the connection: its state,
    its answer to the bytes of one write ([None]: the write fails), and
    what it does when a connection is opened ([None]: the connection is
    refused; otherwise the bytes it sends unasked, its greeting). *)
Variable Srv : Type.
Variable respond : Srv -> string -> option (Srv * list ascii).
Variable accept : Srv -> option (Srv * list ascii).

(** [std::regex(pattern)], then [std::regex_match(response, _)]:
    [None] when the pattern is not a regular expression
    ([std::regex_error]). *)
Variable std_regex : string -> option (string -> bool).

(** The object and its connection.

    - [state_] and [recv_timeout_] belong to the base class [TCPSocket];
      [recv_timeout_] is a pointer, unset until [setReceiveTimeout].
    - [e_series_] and [polyscope_version_] are the client's own members
      (the constructor initialises neither; [host_] and [port_] select the
      peer, which is [peer] here).
    - [peer] is the server, [rx] the bytes it has sent that the client has
      not read yet, [tx] the writes that reached it, oldest first.
    - [junk] is what the storage of [parsedRef] and of [parsedC] holds
      when [lessThanVersion] declares them.  The code gives these values
      no meaning: they are indeterminate at every call.  The field fixes
      them for one state of the client, so a statement about one call
      that quantifies over the field holds whatever the storage held; a
      statement that relates two calls may not rest on both reading the
      same values. *)
Record DashboardClient : Type := mk_client {
  state_ : SocketState;
  recv_timeout_ : option timeval;
  e_series_ : bool;
  polyscope_version_ : string;
  peer : Srv;
  rx : list ascii;
  tx : list string;
  junk : junk4 * junk4
}.

Definition M (A : Type) : Type := DashboardClient -> outcome A * DashboardClient.

Definition ret {A} (a : A) : M A := fun c => (Ok a, c).

Definition bind {A B} (m : M A) (k : A -> M B) : M B :=
  fun c =>
    match m c with
    | (Ok a, c') => k a c'
    | (Throw e, c') => (Throw e, c')
    | (Undefined, c') => (Undefined, c')
    | (OutOfFuel, c') => (OutOfFuel, c')
    end.

Definition throw {A} (e : exception) : M A := fun c => (Throw e, c).
Definition undefined {A} : M A := fun c => (Undefined, c).
Definition out_of_fuel {A} : M A := fun c => (OutOfFuel, c).
Definition gets {A} (f : DashboardClient -> A) : M A := fun c => (Ok (f c), c).
Definition modify (f : DashboardClient -> DashboardClient) : M unit :=
  fun c => (Ok tt, f c).

Notation "x <- m ;; k" := (bind m (fun x => k))
  (at level 61, m at next level, right associativity).
Notation "m ;;; k" := (bind m (fun _ => k))
  (at level 61, right associativity).

Definition set_state (s : SocketState) (c : DashboardClient) : DashboardClient :=
  mk_client s (recv_timeout_ c) (e_series_ c) (polyscope_version_ c)
            (peer c) (rx c) (tx c) (junk c).
Definition set_recv_timeout (t : option timeval) (c : DashboardClient) :=
  mk_client (state_ c) t (e_series_ c) (polyscope_version_ c)
            (peer c) (rx c) (tx c) (junk c).
Definition set_e_series (b : bool) (c : DashboardClient) :=
  mk_client (state_ c) (recv_timeout_ c) b (polyscope_version_ c)
            (peer c) (rx c) (tx c) (junk c).
Definition set_polyscope_version (v : string) (c : DashboardClient) :=
  mk_client (state_ c) (recv_timeout_ c) (e_series_ c) v
            (peer c) (rx c) (tx c) (junk c).
Definition set_rx (l : list ascii) (c : DashboardClient) :=
  mk_client (state_ c) (recv_timeout_ c) (e_series_ c) (polyscope_version_ c)
            (peer c) l (tx c) (junk c).
Definition set_wire (p : Srv) (l : list ascii) (t : list string)
           (c : DashboardClient) :=
  mk_client (state_ c) (recv_timeout_ c) (e_series_ c) (polyscope_version_ c)
            p l t (junk c).

(* ===================================================================== *)
(** ** The transport: [comm::TCPSocket] *)
(* ===================================================================== *)

(** [tcp_socket.cpp] and [tcp_socket.h] are not among the sources; the
    members of [TCPSocket] the client calls follow the spec's
    TransportChannel, which "opens a TCP stream to a fixed host/port,
    performs blocking byte reads with a configurable read timeout, writes
    raw bytes, and reports connection state". *)

(** Modelled from the spec: [TCPSocket::getState], which "reports
    connection state". *)
Definition getState : M SocketState := gets state_.

(** Modelled from the spec: [TCPSocket::setReceiveTimeout], the
    "configurable read timeout"; it sets [recv_timeout_]. *)
Definition setReceiveTimeout (tv : timeval) : M unit :=
  modify (set_recv_timeout (Some tv)).

(** Modelled from the spec: [TCPSocket::close], "Connected ->
    Disconnected on explicit close". *)
Definition TCPSocket_close : M unit := modify (set_state Disconnected).

(** Modelled from the spec: [TCPSocket::setup], "Disconnected ->
    Connected on successful transport setup".  A new connection starts a
    new byte stream, which the server opens with its greeting. *)
Definition TCPSocket_setup : M bool :=
  fun c =>
    match state_ c with
    | Connected => (Ok false, c)
    | Disconnected =>
        match accept (peer c) with
        | Some (p, greeting) =>
            (Ok true, set_state Connected (set_wire p greeting (tx c) c))
        | None => (Ok false, c)
        end
    end.

(** Modelled from the spec: [TCPSocket::write], "ConnectionError - write
    failed, or an operation was attempted while not connected".  A write
    that succeeds reaches the server, whose answer is queued behind the
    unread bytes. *)
Definition TCPSocket_write (data : string) : M bool :=
  fun c =>
    match state_ c with
    | Disconnected => (Ok false, c)
    | Connected =>
        match respond (peer c) data with
        | Some (p, answer) =>
            (Ok true, set_wire p (rx c ++ answer)%list (tx c ++ [data])%list c)
        | None => (Ok false, c)
        end
    end.

(** Modelled from the spec: [TCPSocket::read] into a buffer of one byte,
    a blocking read under the read timeout.  It fails when the client is
    not connected and when no byte arrives in time; on success it
    delivers the byte and reports the number of bytes read, 1.  On
    failure the byte is not written (["000"] is a placeholder) and the
    count is 0. *)
Definition TCPSocket_read : M (bool * ascii * Z) :=
  fun c =>
    match state_ c, rx c with
    | Connected, b :: l => (Ok (true, b, 1), set_rx l c)
    | _, _ => (Ok (false, "000"%char, 0), c)
    end.

(* ===================================================================== *)
(** ** The member functions of [DashboardClient] *)
(* ===================================================================== *)

(** [rtrim(str, chars)]: [str.erase(str.find_last_not_of(chars) + 1)];
    the sum is a [size_t], so [npos + 1] is 0. *)
Definition rtrim_chars : string :=
  String Cxx.HT (String Cxx.LF (String Cxx.VT (String Cxx.FF
    (String Cxx.CR (String Cxx.SP EmptyString))))).

Definition rtrim (str chars : string) : M string :=
  match Cxx.erase str (Cxx.size_t_wrap (Cxx.find_last_not_of str chars + 1)) with
  | Some s => ret s
  | None => throw std_out_of_range
  end.

Definition disconnect : M unit := TCPSocket_close.

Definition send (text : string) : M bool := TCPSocket_write text.

Definition read_timeout_what : string :=
  "Did not receive answer from dashboard server in time. Disconnecting from dashboard server.".

(** The loop of [read].  [read_chars] starts at 99 and is overwritten by
    every transport read with the number of bytes that read delivered;
    [fuel] bounds the iterations of the model. *)
Fixpoint read_loop (fuel : nat) (result : string) (read_chars : Z) : M string :=
  if 0 <? read_chars then
    match fuel with
    | O => out_of_fuel
    | S fuel' =>
        r <- TCPSocket_read ;;
        let '(ok, character, read_chars) := r in
        if negb ok then
          disconnect ;;;
          t <- gets recv_timeout_ ;;
          match t with
          | Some tv => throw (TimeoutException read_timeout_what tv)
          | None => undefined
          end
        else
          let result := result ++ String character EmptyString in
          if Ascii.eqb character Cxx.LF then ret result
          else read_loop fuel' result read_chars
    end
  else ret result.

(** Every iteration that goes on consumes one unread byte, so one more
    iteration than there are unread bytes is enough. *)
Definition read : M string :=
  fun c => read_loop (S (List.length (rx c))) "" 99 c.

Definition send_failed_what : string :=
  "Failed to send request to dashboard server. Are you connected to the Dashboard Server?".

(** [sendAndReceive] holds [write_mutex_] from before the write until it
    returns or throws; with one caller the lock has no effect. *)
Definition sendAndReceive (text : string) : M string :=
  ok <- send text ;;
  response <- (if ok then read else throw (UrException send_failed_what)) ;;
  rtrim response rtrim_chars.

Definition regex (pattern : string) : M (string -> bool) :=
  match std_regex pattern with
  | Some m => ret m
  | None => throw std_regex_error
  end.

Definition mismatch_what (expected response : string) : string :=
  "Expected: " ++ expected ++ ", but received: " ++ response.

Definition sendRequest (command expected : string) : M bool :=
  response <- sendAndReceive (command ++ Cxx.endl) ;;
  m <- regex expected ;;
  let ret_ := m response in
  if negb ret_ then throw (UrException (mismatch_what expected response))
  else ret ret_.

Definition sendRequestString (command expected : string) : M string :=
  response <- sendAndReceive (command ++ Cxx.endl) ;;
  m <- regex expected ;;
  let ret_ := m response in
  if negb ret_ then throw (UrException (mismatch_what expected response))
  else ret response.

(** [waitForReply]: [count] and [timeout] are [double]; the step is the
    product [0.000001 * TIME_STEP_SIZE_US], computed in [double]
    ([0x1.0c6f7a0b5ed8dp-20] is the [double] the literal [0.000001]
    denotes).  The loop has no bound of its own: with a [timeout] that
    [count] never reaches it ends only on a matching reply or an
    exception, hence the [fuel]. *)
Definition TIME_STEP_SIZE_US : PrimInt63.int := 100000%uint63.

Definition time_step : float :=
  PrimFloat.mul 0x1.0c6f7a0b5ed8dp-20%float (PrimFloat.of_uint63 TIME_STEP_SIZE_US).

Fixpoint waitForReply_loop (fuel : nat) (command expected : string)
         (timeout count : float) : M bool :=
  match fuel with
  | O => out_of_fuel
  | S fuel' =>
      if PrimFloat.ltb count timeout then
        response <- sendAndReceive (command ++ Cxx.endl) ;;
        m <- regex expected ;;
        if m response then ret true
        else
          (* usleep(TIME_STEP_SIZE_US) *)
          waitForReply_loop fuel' command expected timeout
                            (PrimFloat.add count time_step)
      else ret false
  end.

Definition waitForReply (fuel : nat) (command expected : string)
           (timeout : float) : M bool :=
  waitForReply_loop fuel command expected timeout 0%float.


(** [retryCommand]: a [do ... while (count < timeout)] loop; [count] and
    [timeout] are [unsigned int]. *)
Definition UINT_modulus : Z := 2 ^ 32.
Definition RETRY_EVERY_SECOND : float := 1%float.

Fixpoint retryCommand_loop (fuel : nat)
         (requestCommand requestExpectedResponse : string)
         (waitRequest waitExpectedResponse : string)
         (timeout count : Z) : M bool :=
  match fuel with
  | O => out_of_fuel
  | S fuel' =>
      sendRequest requestCommand requestExpectedResponse ;;;
      let count := (count + 1) mod UINT_modulus in
      ok <- waitForReply fuel' waitRequest waitExpectedResponse
                         RETRY_EVERY_SECOND ;;
      if ok then ret true
      else if count <? timeout then
        retryCommand_loop fuel' requestCommand requestExpectedResponse
                          waitRequest waitExpectedResponse timeout count
      else ret false
  end.

Definition retryCommand (fuel : nat)
           (requestCommand requestExpectedResponse : string)
           (waitRequest waitExpectedResponse : string)
           (timeout : Z) : M bool :=
  retryCommand_loop fuel requestCommand requestExpectedResponse
                    waitRequest waitExpectedResponse timeout 0.

(** [lessThanVersion(a, b, c)]. *)
Definition version_what (ref c : string) : string :=
  "Polyscope software version required is: " ++ ref
  ++ ", but actual version is: " ++ c.

Definition lessThanVersion (a b c : string) : M bool :=
  e <- gets e_series_ ;;
  let ref := if Bool.eqb e true then a else b in
  j <- gets junk ;;
  let parsedRef := parseSWVersion (array4 (fst j)) ref in
  let parsedC := parseSWVersion (array4 (snd j)) c in
  let ret_ := Cxx.lexicographical_compare parsedRef parsedC in
  if negb ret_ then throw (UrException (version_what ref c))
  else ret ret_.

(** The first two statements of every gated command:
    [if (!lessThanVersion(a, b, polyscope_version_)) return false;].
    [no] is what the command then returns. *)
Definition gated {A} (a b : string) (no : A) (body : M A) : M A :=
  c <- gets polyscope_version_ ;;
  ok <- lessThanVersion a b c ;;
  if negb ok then ret no else body.

Definition and_then (m1 m2 : M bool) : M bool :=
  b <- m1 ;; if b then m2 else ret false.

(** The default [timeout] of [waitForReply]. *)
Definition default_timeout : float := 30%float.

Definition only_e_series : string := "10. Only available on e-series robot".
Definition only_cb3 : string := "10. Only available on CB3 robot".

Definition commandPowerOff (fuel : nat) : M bool :=
  gated "5.0.0" "3.0" false
    (and_then (sendRequest "power off" "Powering off")
              (waitForReply fuel "robotmode" "Robotmode: POWER_OFF" default_timeout)).

Definition commandPowerOn (fuel : nat) (timeout : Z) : M bool :=
  gated "5.0.0" "3.0" false
    (retryCommand fuel "power on" "Powering on" "robotmode" "Robotmode: IDLE" timeout).

Definition commandBrakeRelease (fuel : nat) : M bool :=
  gated "5.0.0" "3.0" false
    (and_then (sendRequest "brake release" "Brake releasing")
              (waitForReply fuel "robotmode" "Robotmode: RUNNING" default_timeout)).

Definition commandLoadProgram (fuel : nat) (program_file_name : string) : M bool :=
  gated "5.0.0" "1.4" false
    (and_then (sendRequest ("load " ++ program_file_name ++ "")
                 ("(?:Loading program: ).*(?:" ++ program_file_name ++ ").*"))
              (waitForReply fuel "programState" ("STOPPED " ++ program_file_name)
                            default_timeout)).

Definition commandLoadInstallation (installation_file_name : string) : M bool :=
  gated "5.0.0" "3.2" false
    (sendRequest ("load installation " ++ installation_file_name)
       ("(?:Loading installation: ).*(?:" ++ installation_file_name ++ ").*")).

Definition commandPlay (fuel : nat) : M bool :=
  gated "5.0.0" "1.4" false
    (and_then (sendRequest "play" "Starting program")
              (waitForReply fuel "programState" "(?:PLAYING ).*" default_timeout)).

Definition commandPause (fuel : nat) : M bool :=
  gated "5.0.0" "1.4" false
    (and_then (sendRequest "pause" "Pausing program")
              (waitForReply fuel "programState" "(?:PAUSED ).*" default_timeout)).

Definition commandStop (fuel : nat) : M bool :=
  gated "5.0.0" "1.4" false
    (and_then (sendRequest "stop" "Stopped")
              (waitForReply fuel "programState" "(?:STOPPED ).*" default_timeout)).

Definition commandClosePopup : M bool :=
  gated "5.0.0" "1.6" false (sendRequest "close popup" "closing popup").

Definition commandCloseSafetyPopup : M bool :=
  gated "5.0.0" "3.1" false (sendRequest "close safety popup" "closing safety popup").

Definition commandRestartSafety (fuel : nat) : M bool :=
  gated "5.1.0" "3.7" false
    (and_then (sendRequest "restart safety" "Restarting safety")
              (waitForReply fuel "robotmode" "Robotmode: POWER_OFF" default_timeout)).

Definition commandUnlockProtectiveStop : M bool :=
  gated "5.0.0" "3.1" false
    (sendRequest "unlock protective stop" "Protective stop releasing").

Definition commandShutdown : M bool :=
  gated "5.0.0" "1.4" false (sendRequest "shutdown" "Shutting down").

Definition commandQuit : M bool :=
  gated "5.0.0" "1.4" false (sendRequest "quit" "Disconnected").

Definition commandRunning : M bool :=
  gated "5.0.0" "1.6" false (sendRequest "running" "Program running: true").

Definition commandIsProgramSaved : M bool :=
  gated "5.0.0" "1.8" false (sendRequest "isProgramSaved" "(?:true ).*").

Definition commandIsInRemoteControl : M bool :=
  gated "5.6.0" only_e_series false
    (response <- sendAndReceive ("is in remote control" ++ Cxx.endl) ;;
     m <- regex "true" ;;
     ret (m response)).

Definition commandPopup (popup_text : string) : M bool :=
  gated "5.0.0" "1.6" false (sendRequest ("popup " ++ popup_text) "showing popup").

Definition commandAddToLog (log_text : string) : M bool :=
  gated "5.0.0" "1.8" false (sendRequest ("addToLog " ++ log_text) "Added log message").

(** [commandPolyscopeVersion]: not gated.  It caches the text between the
    first space and the first [" ("] of the reply, and derives the variant
    from the first character of that text.  The two arguments of [substr]
    are [size_t] expressions. *)
Definition substr_or_throw (s : string) (pos len : Z) : M string :=
  match Cxx.substr s pos len with
  | Some r => ret r
  | None => throw std_out_of_range
  end.

Definition stoi_or_throw (s : string) : M Z :=
  match Cxx.stoi s with
  | Cxx.StoiValue n => ret n
  | Cxx.StoiInvalidArgument => throw std_invalid_argument
  | Cxx.StoiOutOfRange => throw std_out_of_range
  end.

(** The reference parameters of the "get" commands are passed in as the
    caller's string and returned next to the result. *)
Definition commandPolyscopeVersion (polyscope_version : string) : M (bool * string) :=
  let expected := "(?:URSoftware ).*" in
  polyscope_version <- sendRequestString "PolyscopeVersion" expected ;;
  v <- substr_or_throw polyscope_version
         (Cxx.size_t_wrap (Cxx.find polyscope_version " " + 1))
         (Cxx.size_t_wrap (Cxx.find polyscope_version " ("
                           - Cxx.find polyscope_version " " - 1)) ;;
  modify (set_polyscope_version v) ;;;
  first_char <- substr_or_throw v 0 1 ;;
  major <- stoi_or_throw first_char ;;
  modify (set_e_series (5 <=? major)) ;;;
  m <- regex expected ;;
  ret (m polyscope_version, polyscope_version).

(** The body shared by the gated "get" commands whose result is the match
    of the reply against the pattern it was requested with. *)
Definition get_matching (command expected : string) : M (bool * string) :=
  r <- sendRequestString command expected ;;
  m <- regex expected ;;
  ret (m r, r).

(** The body of the gated "get" commands that accept any reply but
    "could not understand". *)
Definition get_understood (command : string) : M (bool * string) :=
  r <- sendRequestString command "(?:).*" ;;
  m <- regex "(?:could not understand).*" ;;
  ret (negb (m r), r).

Definition commandGetRobotModel (robot_model : string) : M (bool * string) :=
  gated "5.6.0" "3.12" (false, robot_model)
    (get_matching "get robot model" "(?:UR).*").

Definition commandGetSerialNumber (serial_number : string) : M (bool * string) :=
  gated "5.6.0" "3.12" (false, serial_number)
    (get_matching "get serial number" "(?:20).*").

Definition commandRobotMode (robot_mode : string) : M (bool * string) :=
  gated "5.0.0" "1.6" (false, robot_mode)
    (get_matching "robotmode" "(?:Robotmode: ).*").

Definition commandGetLoadedProgram (loaded_program : string) : M (bool * string) :=
  gated "5.0.0" "1.6" (false, loaded_program)
    (get_matching "get loaded program" "(?:Loaded program: ).*").

Definition commandSafetyMode (safety_mode : string) : M (bool * string) :=
  gated "5.0.0" "3.0" (false, safety_mode)
    (get_matching "safetymode" "(?:Safetymode: ).*").

Definition commandSafetyStatus (safety_status : string) : M (bool * string) :=
  gated "5.4.0" "3.11" (false, safety_status)
    (get_matching "safetystatus" "(?:Safetystatus: ).*").

Definition commandProgramState (program_state : string) : M (bool * string) :=
  gated "5.0.0" "1.8" (false, program_state) (get_understood "programState").

Definition commandGetOperationalMode (operational_mode : string) : M (bool * string) :=
  gated "5.6.0" only_e_series (false, operational_mode)
    (get_understood "get operational mode").

Definition commandSetOperationalMode (operational_mode : string) : M bool :=
  gated "5.0.0" only_e_series false
    (sendRequest ("set operational mode " ++ operational_mode)
       ("(?:Operational mode ).*(?:" ++ operational_mode ++ ").*")).

Definition commandClearOperationalMode : M bool :=
  gated "5.0.0" only_e_series false
    (sendRequest "clear operational mode"
       "(?:No longer controlling the operational mode. ).*").

Definition commandSetUserRole (user_role : string) : M bool :=
  gated only_cb3 "1.8" false
    (sendRequest ("setUserRole " ++ user_role) "(?:Setting user role: ).*").

Definition commandGetUserRole (user_role : string) : M (bool * string) :=
  gated only_cb3 "1.8" (false, user_role) (get_understood "getUserRole").

(** The two report commands: a long read timeout around one exchange. *)
Definition standard_timeout : timeval := {| tv_sec := 1; tv_usec := 0 |}.

Definition commandGenerateFlightReport (report_type : string) : M bool :=
  gated "5.8.0" "3.13" false
    (setReceiveTimeout {| tv_sec := 180; tv_usec := 0 |} ;;;
     ret_ <- sendRequest ("generate flight report " ++ report_type)
                         "(?:Flight Report generated with id:).*" ;;
     setReceiveTimeout {| tv_sec := 1; tv_usec := 0 |} ;;;   (* reset *)
     ret ret_).

Definition commandGenerateSupportFile (dir_path : string) : M bool :=
  gated "5.8.0" "3.13" false
    (setReceiveTimeout {| tv_sec := 600; tv_usec := 0 |} ;;;
     ret_ <- sendRequest ("generate support file " ++ dir_path)
                         "(?:Completed successfully:).*" ;;
     setReceiveTimeout {| tv_sec := 1; tv_usec := 0 |} ;;;   (* reset *)
     ret ret_).

(** [connect]. *)
Definition connect : M bool :=
  s <- getState ;;
  if SocketState_eqb s Connected then ret false
  else
    ok <- TCPSocket_setup ;;
    ret_val <- (if ok then read ;;; ret true else ret false) ;;
    setReceiveTimeout {| tv_sec := 1; tv_usec := 0 |} ;;;
    commandPolyscopeVersion "" ;;;
    ret ret_val.

End Client.

Arguments mk_client {Srv}.
Arguments state_ {Srv}.
Arguments recv_timeout_ {Srv}.
Arguments e_series_ {Srv}.
Arguments polyscope_version_ {Srv}.
Arguments peer {Srv}.
Arguments rx {Srv}.
Arguments tx {Srv}.
Arguments junk {Srv}.

(* ===================================================================== *)
(** ** The spec's version order *)
(* ===================================================================== *)

(** SoftwareVersion: "an ordered 4-tuple of integers (major, minor, patch,
    build) ...; comparison is lexicographic over the tuple". *)
Definition SoftwareVersion : Type := (Z * Z * Z * Z)%type.

Definition version_lt (u v : SoftwareVersion) : Prop :=
  let '(u0, u1, u2, u3) := u in
  let '(v0, v1, v2, v3) := v in
  u0 < v0 \/ (u0 = v0 /\ (u1 < v1 \/ (u1 = v1 /\ (u2 < v2 \/ (u2 = v2 /\ u3 < v3))))).

Definition version_ge (u v : SoftwareVersion) : Prop := u = v \/ version_lt v u.

(** The 4-tuple an array of four [int] holds. *)
Definition tuple4 (l : list Z) : SoftwareVersion :=
  (load l 0, load l 1, load l 2, load l 3).

(** The threshold [lessThanVersion] picks for the client's variant, and
    the two tuples it compares: the parsed threshold and the parsed
    version. *)
Definition threshold {Srv} (a b : string) (c : DashboardClient Srv) : string :=
  if e_series_ c then a else b.
Definition required {Srv} (a b : string) (c : DashboardClient Srv)
  : SoftwareVersion :=
  tuple4 (parseSWVersion (array4 (fst (junk c))) (threshold a b c)).
Definition actual {Srv} (v : string) (c : DashboardClient Srv)
  : SoftwareVersion :=
  tuple4 (parseSWVersion (array4 (snd (junk c))) v).

(** A non-empty string of decimal digits, and the number it denotes. *)
Definition is_number (s : string) : bool :=
  negb (Cxx.is_nil (list_ascii_of_string s))
  && forallb Cxx.isdigit (list_ascii_of_string s).

Definition number_of (s : string) : Z :=
  fold_left (fun acc c => acc * 10 + Cxx.digit_value c) (list_ascii_of_string s) 0.

(** Whether the digits of a number end where [rest] starts. *)
Definition no_digit_ahead (rest : list ascii) : bool :=
  match rest with
  | [] => true
  | c :: _ => negb (Cxx.isdigit c)
  end.

(** The dotted string of four components. *)
Definition dotted (s0 s1 s2 s3 : string) : string :=
  s0 ++ "." ++ s1 ++ "." ++ s2 ++ "." ++ s3.

(** How often [x] occurs in a list of writes. *)
Definition occurrences (x : string) (l : list string) : nat :=
  count_occ string_dec l x.

(* ===================================================================== *)
(** ** A matcher for the patterns of the catalog *)
(* ===================================================================== *)

(** An instance for [std_regex], used where a property is evaluated on a
    concrete exchange: the fragment of the ECMAScript grammar the fixed
    patterns of the catalog are written in (literal characters, [.], a
    postfix [*], and the non-capturing group), matched by derivatives.
    A pattern outside the fragment is not accepted. *)
Module Pattern.

Inductive re : Type :=
| Nul                      (* matches nothing *)
| Eps                      (* matches the empty string *)
| Chr (c : ascii)
| Dot                      (* any character but a line terminator *)
| Cat (r1 r2 : re)
| Star (r : re).

Definition special (c : ascii) : bool :=
  Cxx.mem_char c "\^$.|?*+()[]{}".

(** [parse_seq fuel l] reads a sequence of starred atoms up to a closing
    parenthesis or the end. *)
Fixpoint stars (r : re) (l : list ascii) : re * list ascii :=
  match l with
  | c :: l' => if Ascii.eqb c "*"%char then stars (Star r) l' else (r, l)
  | [] => (r, [])
  end.

Fixpoint parse_seq (fuel : nat) (l : list ascii) : option (re * list ascii) :=
  match fuel with
  | O => None
  | S fuel' =>
      match l with
      | [] => Some (Eps, [])
      | c :: l' =>
          if Ascii.eqb c ")"%char then Some (Eps, l)
          else
            let atom :=
              if Ascii.eqb c "("%char then
                match l' with
                | q :: k :: l'' =>
                    if Ascii.eqb q "?"%char && Ascii.eqb k ":"%char then
                      match parse_seq fuel' l'' with
                      | Some (r, p :: rest) =>
                          if Ascii.eqb p ")"%char then Some (r, rest) else None
                      | _ => None
                      end
                    else None
                | _ => None
                end
              else if Ascii.eqb c "."%char then Some (Dot, l')
              else if special c then None
              else Some (Chr c, l') in
            match atom with
            | Some (r, rest) =>
                let '(r, rest) := stars r rest in
                match parse_seq fuel' rest with
                | Some (r2, rest2) => Some (Cat r r2, rest2)
                | None => None
                end
            | None => None
            end
      end
  end.

Definition parse (pattern : string) : option re :=
  let l := list_ascii_of_string pattern in
  match parse_seq (S (List.length l)) l with
  | Some (r, []) => Some r
  | _ => None
  end.

Fixpoint nullable (r : re) : bool :=
  match r with
  | Nul | Chr _ | Dot => false
  | Eps | Star _ => true
  | Cat r1 r2 => nullable r1 && nullable r2
  end.

(** The union the derivative of a concatenation needs is kept as a list
    of alternatives. *)
Fixpoint deriv (c : ascii) (r : re) : list re :=
  match r with
  | Nul | Eps => []
  | Chr d => if Ascii.eqb c d then [Eps] else []
  | Dot => if Ascii.eqb c Cxx.LF || Ascii.eqb c Cxx.CR then [] else [Eps]
  | Cat r1 r2 =>
      (map (fun r1' => Cat r1' r2) (deriv c r1)
       ++ (if nullable r1 then deriv c r2 else []))%list
  | Star r1 => map (fun r1' => Cat r1' (Star r1)) (deriv c r1)
  end.

Fixpoint matches (rs : list re) (s : string) : bool :=
  match s with
  | EmptyString => existsb nullable rs
  | String c s' => matches (flat_map (deriv c) rs) s'
  end.

Definition regex (pattern : string) : option (string -> bool) :=
  match parse pattern with
  | Some r => Some (matches [r])
  | None => None
  end.

End Pattern.

(* ===================================================================== *)
(** ** Servers for concrete exchanges *)
(* ===================================================================== *)

Definition line (s : string) : list ascii :=
  (list_ascii_of_string s ++ [Cxx.LF])%list.

(** A server whose answer is a function of the request: [None] is a
    request it stays silent on.  It accepts every connection and greets. *)
Module TableServer.
Definition Srv : Type := unit.
Definition respond (answer : string -> option string)
           (_ : Srv) (request : string) : option (Srv * list ascii) :=
  match answer request with
  | Some a => Some (tt, line a)
  | None => Some (tt, [])
  end.
Definition greeting : string := "Connected: Universal Robots Dashboard Server".
Definition accept (_ : Srv) : option (Srv * list ascii) :=
  Some (tt, line greeting).
Definition refuse (_ : Srv) : option (Srv * list ascii) := None.
End TableServer.

(** The answers of a sample server: a controller that reports version
    10.0.0.0, cannot produce the two reports, and never leaves the
    powered-off mode.  It stays silent on any other request. *)
Definition sample_answers (request : string) : option string :=
  if String.eqb request ("PolyscopeVersion" ++ Cxx.endl)
  then Some "URSoftware 10.0.0.0 (Jan 01 2030)"
  else if String.eqb request ("generate flight report system" ++ Cxx.endl)
  then Some "Could not generate flight report"
  else if String.eqb request ("generate support file /programs" ++ Cxx.endl)
  then Some "Could not generate support file"
  else if String.eqb request ("running" ++ Cxx.endl)
  then Some "Program running: true"
  else if String.eqb request ("power on" ++ Cxx.endl)
  then Some "Powering on"
  else if String.eqb request ("robotmode" ++ Cxx.endl)
  then Some "Robotmode: POWER_OFF"
  else None.

(** A connected client with the standard timeout, nothing unread and
    nothing written. *)
Definition connected_client (e_series : bool) (version : string)
           (j : junk4 * junk4) : DashboardClient unit :=
  mk_client Connected (Some standard_timeout) e_series version tt [] [] j.

(** A client before [connect]. *)
Definition fresh_client (e_series : bool) (j : junk4 * junk4)
  : DashboardClient unit :=
  mk_client Disconnected None e_series "" tt [] [] j.

(* ===================================================================== *)
(** ** Exchanges with a server that answers in lines *)
(* ===================================================================== *)

(** What [rtrim] leaves of a reply. *)
Definition trimmed (str : string) : string :=
  match Cxx.erase str
          (Cxx.size_t_wrap (Cxx.find_last_not_of str rtrim_chars + 1)) with
  | Some s => s
  | None => str
  end.

(** The client is connected and has read everything the server sent. *)
Definition quiescent {Srv} (c : DashboardClient Srv) : Prop :=
  state_ c = Connected /\ rx c = [].

(** Whatever its state, the server answers [request] with one line, and
    the line, trimmed, satisfies [P]. *)
Definition answers_line {Srv} (respond : Srv -> string -> option (Srv * list ascii))
           (request : string) (P : string -> bool) : Prop :=
  forall p, exists p' a,
    respond p request = Some (p', line a)
    /\ ~ In Cxx.LF (list_ascii_of_string a)
    /\ Cxx.size a + 1 < Cxx.npos
    /\ P (trimmed (a ++ Cxx.endl)) = true.

(** The value of [count] in [waitForReply] after [k] steps. *)
Definition count_after (k : nat) : float :=
  Nat.iter k (fun x => PrimFloat.add x time_step) 0%float.

(* ===================================================================== *)
(** ** Observations of a run *)
(* ===================================================================== *)

(** A computation leaves the observation [f] of the client as it was,
    however it ends. *)
Definition keeps {Srv A X} (f : DashboardClient Srv -> X) (m : M Srv A) : Prop :=
  forall c, f (snd (m c)) = f c.

(* ===================================================================== *)
(** ** Several callers on one client *)
(* ===================================================================== *)

(** [sendAndReceive] takes [write_mutex_] in a [std::lock_guard] before
    it writes, and the guard releases it when the function returns or
    throws.  Every exchange of every command goes through
    [sendAndReceive].  The callers of one client are modelled as
    interleaved runs of [sendAndReceive], one transport operation at a
    time; which caller moves next, and whether a read that is waiting for
    a byte runs into the receive timeout, is decided by a schedule. *)
Section Callers.

Variable Srv : Type.
Variable respond : Srv -> string -> option (Srv * list ascii).

(** Where a caller is in [sendAndReceive]: outside of it; holding the
    mutex, about to write [text]; or in the loop of [read], with [result]
    read so far.  [answer] records the bytes the server queued in answer
    to this caller's write; the code does not have it. *)
Inductive phase : Type :=
| Outside
| HoldingLock (text : string)
| Receiving (text : string) (answer : list ascii) (result : string).

(** A caller: the texts it still has to exchange, where it is, and for
    every call it has finished the text, the server's answer to it and
    how the call ended. *)
Record caller : Type := mk_caller {
  todo : list string;
  position : phase;
  finished : list (string * list ascii * outcome string)
}.

Record system : Type := mk_system {
  client : DashboardClient Srv;
  write_mutex_ : option nat;
  callers : list caller
}.

Definition idle : caller := mk_caller [] Outside [].

Definition caller_of (s : system) (i : nat) : caller := nth i (callers s) idle.

Fixpoint set_caller (i : nat) (t : caller) (l : list caller) : list caller :=
  match l, i with
  | [], _ => []
  | _ :: l', O => t :: l'
  | x :: l', S i' => x :: set_caller i' t l'
  end.

(** What [read] does when the transport read fails. *)
Definition read_gives_up : M Srv string :=
  bind Srv (disconnect Srv) (fun _ =>
  bind Srv (gets Srv recv_timeout_) (fun t =>
  match t with
  | Some tv => throw Srv (TimeoutException read_timeout_what tv)
  | None => undefined Srv
  end)).

(** The call of caller [i] ends as [r] says: the guard releases the
    mutex, and the call is entered in the caller's record. *)
Definition leave (i : nat) (text : string) (answer : list ascii)
           (r : outcome string * DashboardClient Srv) (s : system) : system :=
  let t := caller_of s i in
  mk_system (snd r) None
            (set_caller i (mk_caller (todo t) Outside
                                     (finished t ++ [(text, answer, fst r)])%list)
                        (callers s)).

Definition move (i : nat) (ph : phase) (c : DashboardClient Srv) (s : system)
  : system :=
  let t := caller_of s i in
  mk_system c (write_mutex_ s)
            (set_caller i (mk_caller (todo t) ph (finished t)) (callers s)).

Inductive event : Type :=
| Runs (i : nat)        (* caller [i] performs its next operation *)
| TimesOut (i : nat).   (* the read caller [i] is blocked in times out *)

Definition next (e : event) (s : system) : system :=
  match e with
  | Runs i =>
      let t := caller_of s i in
      match position t with
      | Outside =>
          match todo t, write_mutex_ s with
          | text :: rest, None =>
              mk_system (client s) (Some i)
                        (set_caller i (mk_caller rest (HoldingLock text) (finished t))
                                    (callers s))
          | _, _ => s            (* nothing to do, or blocked on the mutex *)
          end
      | HoldingLock text =>
          match send Srv respond text (client s) with
          | (Ok true, c') =>
              move i (Receiving text
                        (skipn (List.length (rx (client s))) (rx c')) "") c' s
          | (_, c') =>
              leave i text [] (throw Srv (UrException send_failed_what) c') s
          end
      | Receiving text answer result =>
          match TCPSocket_read Srv (client s) with
          | (Ok (true, character, _), c') =>
              let result := result ++ String character EmptyString in
              if Ascii.eqb character Cxx.LF
              then leave i text answer (rtrim Srv result rtrim_chars c') s
              else move i (Receiving text answer result) c' s
          | (_, c') => leave i text answer (read_gives_up c') s
          end
      end
  | TimesOut i =>
      match position (caller_of s i) with
      | Receiving text answer result =>
          leave i text answer (read_gives_up (client s)) s
      | _ => s
      end
  end.

Definition run (schedule : list event) (s : system) : system :=
  fold_left (fun s e => next e s) schedule s.

(** The callers before any of them has called, each with its texts. *)
Definition start (c : DashboardClient Srv) (programs : list (list string))
  : system :=
  mk_system c None (map (fun texts => mk_caller texts Outside []) programs).

(** The server sends at most one line in answer to a write: nothing
    follows a newline. *)
Definition answers_at_most_one_line : Prop :=
  forall p text p' answer pre post,
    respond p text = Some (p', answer) ->
    answer = (pre ++ Cxx.LF :: post)%list ->
    post = [].

(** Caller [i] is inside [sendAndReceive]. *)
Definition inside (s : system) (i : nat) : Prop :=
  position (caller_of s i) <> Outside.

(** A reply has not been read to its end: some caller is in [read]. *)
Definition reply_pending (s : system) : Prop :=
  exists i text answer result,
    position (caller_of s i) = Receiving text answer result.

(** The event is a write to the transport, by caller [i]. *)
Definition is_write (s : system) (e : event) (i : nat) : Prop :=
  e = Runs i /\ exists text, position (caller_of s i) = HoldingLock text.

(** The record of a call is right: a response that was returned is the
    line the server sent in answer to the call's own text, trimmed. *)
Definition attributed (entry : string * list ascii * outcome string) : Prop :=
  forall response, snd entry = Ok response ->
    exists p p' a,
      respond p (fst (fst entry)) = Some (p', snd (fst entry))
      /\ snd (fst entry) = line a
      /\ response = trimmed (a ++ Cxx.endl).

(** A connected client has read all that was sent. *)
Definition settled (c : DashboardClient Srv) : Prop :=
  state_ c = Connected -> rx c = [].

(** What holds of the system between any two events. *)
Definition consistent (s : system) : Prop :=
  (forall i entry, In entry (finished (caller_of s i)) -> attributed entry)
  /\ match write_mutex_ s with
     | None =>
         (forall j, position (caller_of s j) = Outside) /\ settled (client s)
     | Some i =>
         (forall j, j <> i -> position (caller_of s j) = Outside)
         /\ match position (caller_of s i) with
            | Outside => False
            | HoldingLock text => settled (client s)
            | Receiving text answer result =>
                state_ (client s) = Connected
                /\ (exists p p', respond p text = Some (p', answer))
                /\ (list_ascii_of_string result ++ rx (client s))%list = answer
            end
     end.

End Callers.

(** Two callers of one client: one asks for the robot mode, the other
    whether a program is running. *)
Definition two_callers : list (list string) :=
  [["robotmode" ++ Cxx.endl]; ["running" ++ Cxx.endl]].

(** The two take turns, fifty times each. *)
Definition taking_turns : list event :=
  flat_map (fun _ => [Runs 0; Runs 1]) (seq 0 50).

(* ===================================================================== *)
(** ** Notions for the further properties *)
(* ===================================================================== *)

(** Four components with one character between each two. *)
Definition separated (s0 : string) (p1 : ascii) (s1 : string) (p2 : ascii)
           (s2 : string) (p3 : ascii) (s3 : string) : string :=
  s0 ++ String p1 (s1 ++ String p2 (s2 ++ String p3 s3)).

(** The numbers of four components. *)
Definition numbers (s0 s1 s2 s3 : string) : SoftwareVersion :=
  (number_of s0, number_of s1, number_of s2, number_of s3).

(** A component the parser can read into an [int]. *)
Definition is_int (s : string) : bool :=
  is_number s && (number_of s <=? Cxx.INT_MAX).

(** [timeout] lets [waitForReply] poll exactly [k] times: [count] is
    below it after each of the first [k] steps but not after the [k]-th. *)
Definition polls (timeout : float) (k : nat) : bool :=
  forallb (fun i => PrimFloat.ltb (count_after i) timeout) (seq 0 k)
  && negb (PrimFloat.ltb (count_after k) timeout).

(** Every character of [s] is one of [chars]. *)
Fixpoint all_in (chars : string) (s : string) : bool :=
  match s with
  | EmptyString => true
  | String ch s' => Cxx.mem_char ch chars && all_in chars s'
  end.

(** The last character of [s], if any, is none of [chars]. *)
Fixpoint ends_outside (chars : string) (s : string) : bool :=
  match s with
  | EmptyString => true
  | String ch EmptyString => negb (Cxx.mem_char ch chars)
  | String _ s' => ends_outside chars s'
  end.

(** No character of [s] is a space. *)
Fixpoint no_space (s : string) : bool :=
  match s with
  | EmptyString => true
  | String ch s' => negb (Ascii.eqb ch " "%char) && no_space s'
  end.

(** The answers of a controller that produces both reports. *)
Definition report_answers (request : string) : option string :=
  if String.eqb request ("generate flight report system" ++ Cxx.endl)
  then Some "Flight Report generated with id:1a2b"
  else if String.eqb request ("generate support file /programs" ++ Cxx.endl)
  then Some "Completed successfully: /programs/ur_support.zip"
  else None.

(** The answers of a controller that powers off at once. *)
Definition power_off_answers (request : string) : option string :=
  if String.eqb request ("power off" ++ Cxx.endl)
  then Some "Powering off"
  else if String.eqb request ("robotmode" ++ Cxx.endl)
  then Some "Robotmode: POWER_OFF"
  else None.

(** The answers of a controller that is under local control. *)
Definition local_control_answers (request : string) : option string :=
  if String.eqb request ("is in remote control" ++ Cxx.endl)
  then Some "false"
  else None.

(** The two settings a client caches from the version query. *)
Definition cached {Srv} (c : DashboardClient Srv) : string * bool :=
  (polyscope_version_ c, e_series_ c).

(** The cached settings together with the receive timeout. *)
Definition settings {Srv} (c : DashboardClient Srv)
  : string * bool * option timeval :=
  (polyscope_version_ c, e_series_ c, recv_timeout_ c).

(* ===================================================================== *)
(** * Properties *)
(* ===================================================================== *)

(** ** Reading numbers *)

Lemma isdigit_plain (c : ascii) :
  Cxx.isdigit c = true ->
  Cxx.isspace c = false /\ Ascii.eqb c "-"%char = false
  /\ Ascii.eqb c "+"%char = false /\ 0 <= Cxx.digit_value c <= 9.
Proof.
  destruct c as [[] [] [] [] [] [] [] []]; vm_compute;
    intuition congruence.
Qed.

Lemma list_ascii_of_string_app (s t : string) :
  list_ascii_of_string (s ++ t)
  = (list_ascii_of_string s ++ list_ascii_of_string t)%list.
Proof.
  induction s as [|c s IH]; simpl; [reflexivity | now rewrite IH].
Qed.

Lemma digits_fold_nonneg (ds : list ascii) :
  forallb Cxx.isdigit ds = true ->
  forall acc, 0 <= acc ->
  0 <= fold_left (fun a c => a * 10 + Cxx.digit_value c) ds acc.
Proof.
  induction ds as [|c ds IH]; simpl; intros Hd acc Hacc; [exact Hacc|].
  apply andb_prop in Hd as [Hc Hds].
  apply IH; [exact Hds|].
  destruct (isdigit_plain c Hc) as (_ & _ & _ & Hv). lia.
Qed.

Lemma number_of_nonneg (s : string) : is_number s = true -> 0 <= number_of s.
Proof.
  unfold is_number, number_of. intros H.
  apply andb_prop in H as [_ H]. apply digits_fold_nonneg; [exact H | lia].
Qed.

Lemma scan_digits_app (ds rest : list ascii) :
  forallb Cxx.isdigit ds = true ->
  no_digit_ahead rest = true ->
  forall acc n,
    Cxx.scan_digits (ds ++ rest)%list acc n
    = (fold_left (fun a c => a * 10 + Cxx.digit_value c) ds acc,
       (n + List.length ds)%nat, rest).
Proof.
  intros Hds Hrest. induction ds as [|c ds IH]; intros acc n.
  - simpl. rewrite Nat.add_0_r. destruct rest as [|r rest]; [reflexivity|].
    simpl in *. destruct (Cxx.isdigit r); [discriminate | reflexivity].
  - simpl in Hds. apply andb_prop in Hds as [Hc Hds].
    simpl. rewrite Hc, (IH Hds). f_equal. f_equal. lia.
Qed.

(** [parser >> v] on a good stream that starts with a number in the range
    of [int]: the number is stored, the stream stays good unless the
    number ends the input. *)
Lemma extract_int_number (s : string) (rest : list ascii) (v : Z) :
  is_number s = true ->
  number_of s <= Cxx.INT_MAX ->
  no_digit_ahead rest = true ->
  Cxx.extract_int
    {| Cxx.buf := (list_ascii_of_string s ++ rest)%list;
       Cxx.eofbit := false; Cxx.failbit := false |} v
  = ({| Cxx.buf := rest; Cxx.eofbit := Cxx.is_nil rest; Cxx.failbit := false |},
     number_of s).
Proof.
  intros Hnum Hmax Hrest.
  pose proof (number_of_nonneg s Hnum) as Hnn.
  unfold is_number in Hnum. apply andb_prop in Hnum as [Hne Hds].
  unfold number_of in *.
  destruct (list_ascii_of_string s) as [|c ds] eqn:El; [discriminate|].
  pose proof Hds as Hds'. simpl in Hds'. apply andb_prop in Hds' as [Hc _].
  destruct (isdigit_plain c Hc) as (Hsp & Hm & Hp & _).
  unfold Cxx.extract_int. cbn [Cxx.good Cxx.eofbit Cxx.failbit Cxx.buf negb andb].
  change ((c :: ds) ++ rest)%list with (c :: (ds ++ rest))%list.
  cbn [Cxx.skipws]. rewrite Hsp.
  unfold Cxx.scan_int. rewrite Hm, Hp.
  change (c :: (ds ++ rest))%list with ((c :: ds) ++ rest)%list.
  rewrite (scan_digits_app (c :: ds) rest Hds Hrest).
  cbn [Nat.add List.length Nat.eqb].
  assert (H1 : (fold_left (fun a c0 => a * 10 + Cxx.digit_value c0) (c :: ds) 0
                <? Cxx.INT_MIN) = false)
    by (apply Z.ltb_ge; unfold Cxx.INT_MIN; lia).
  assert (H2 : (Cxx.INT_MAX
                <? fold_left (fun a c0 => a * 10 + Cxx.digit_value c0) (c :: ds) 0)
               = false)
    by (apply Z.ltb_ge; lia).
  rewrite H1, H2. reflexivity.
Qed.

Lemma get_period (rest : list ascii) :
  Cxx.get {| Cxx.buf := "."%char :: rest; Cxx.eofbit := false; Cxx.failbit := false |}
  = ({| Cxx.buf := rest; Cxx.eofbit := false; Cxx.failbit := false |}, Some "."%char).
Proof. reflexivity. Qed.

(** A version string of four numbers parses to the four numbers, whatever
    the array held before. *)
Lemma parseSWVersion_dotted (j : junk4) (s0 s1 s2 s3 : string) :
  is_number s0 = true -> is_number s1 = true ->
  is_number s2 = true -> is_number s3 = true ->
  number_of s0 <= Cxx.INT_MAX -> number_of s1 <= Cxx.INT_MAX ->
  number_of s2 <= Cxx.INT_MAX -> number_of s3 <= Cxx.INT_MAX ->
  parseSWVersion (array4 j) (dotted s0 s1 s2 s3)
  = [number_of s0; number_of s1; number_of s2; number_of s3].
Proof.
  intros N0 N1 N2 N3 M0 M1 M2 M3.
  destruct j as [[[a b] c] d].
  unfold parseSWVersion, dotted, Cxx.istringstream_of.
  repeat rewrite list_ascii_of_string_app.
  change (list_ascii_of_string ".") with ["."%char].
  cbn [app].
  rewrite (extract_int_number s0) by first [assumption | reflexivity].
  cbn [fold_left Cxx.is_nil array4 store load nth].
  rewrite get_period.
  rewrite (extract_int_number s1) by first [assumption | reflexivity].
  cbn [Cxx.is_nil store load nth].
  rewrite get_period.
  rewrite (extract_int_number s2) by first [assumption | reflexivity].
  cbn [Cxx.is_nil store load nth].
  rewrite get_period.
  rewrite <- (app_nil_r (list_ascii_of_string s3)).
  rewrite (extract_int_number s3 []) by first [assumption | reflexivity].
  reflexivity.
Qed.

Lemma parseSWVersion_dotted_witness :
  parseSWVersion (array4 (7, 7, 7, 7)) (dotted "5" "9" "4" "1031232")
  = [number_of "5"; number_of "9"; number_of "4"; number_of "1031232"].
Proof.
  apply parseSWVersion_dotted; try reflexivity; vm_compute; discriminate.
Defined.

Example parse_full : forall j,
  parseSWVersion (array4 j) "5.9.4.1031232" = [5; 9; 4; 1031232].
Proof. intros [[[a b] c] d]. reflexivity. Qed.

(** A component the string does not have leaves its slot as it was. *)
Example parse_short : forall a b c d,
  parseSWVersion (array4 (a, b, c, d)) "3.9" = [3; 9; c; d].
Proof. intros. reflexivity. Qed.

Example parse_sentinel : forall a b c d,
  parseSWVersion (array4 (a, b, c, d)) only_e_series = [10; 0; c; d].
Proof. intros. reflexivity. Qed.

Example parse_empty : forall a b c d,
  parseSWVersion (array4 (a, b, c, d)) "" = [a; b; c; d].
Proof. intros. reflexivity. Qed.

Lemma store_length (l : list Z) (i : nat) (v : Z) :
  List.length (store l i v) = List.length l.
Proof.
  revert i. induction l as [|x l IH]; intros [|i]; simpl; auto.
Qed.

Lemma parseSWVersion_length (l : list Z) (s : string) :
  List.length (parseSWVersion l s) = List.length l.
Proof.
  unfold parseSWVersion.
  destruct (Cxx.extract_int _ _) as [p v]. cbn [fold_left].
  repeat (destruct (Cxx.get _) as [? ?]; destruct (Cxx.extract_int _ _) as [? ?]).
  cbn [snd]. now rewrite !store_length.
Qed.

Lemma parseSWVersion_tuple (j : junk4) (s : string) :
  parseSWVersion (array4 j) s
  = let '(v0, v1, v2, v3) := tuple4 (parseSWVersion (array4 j) s) in
    [v0; v1; v2; v3].
Proof.
  pose proof (parseSWVersion_length (array4 j) s) as H.
  destruct j as [[[a b] c] d]. cbn [array4 List.length] in H.
  destruct (parseSWVersion _ s) as [|v0 [|v1 [|v2 [|v3 [|v4 l]]]]];
    try discriminate.
  reflexivity.
Qed.

(** [std::lexicographical_compare] on two arrays of four is the spec's
    strict order on 4-tuples. *)
Lemma lexicographical_compare_4 (u0 u1 u2 u3 v0 v1 v2 v3 : Z) :
  Cxx.lexicographical_compare [u0; u1; u2; u3] [v0; v1; v2; v3] = true
  <-> version_lt (u0, u1, u2, u3) (v0, v1, v2, v3).
Proof.
  cbn [Cxx.lexicographical_compare version_lt].
  destruct (Z.ltb_spec u0 v0); [intuition lia|].
  destruct (Z.ltb_spec v0 u0); [intuition (discriminate || lia)|].
  destruct (Z.ltb_spec u1 v1); [intuition lia|].
  destruct (Z.ltb_spec v1 u1); [intuition (discriminate || lia)|].
  destruct (Z.ltb_spec u2 v2); [intuition lia|].
  destruct (Z.ltb_spec v2 u2); [intuition (discriminate || lia)|].
  destruct (Z.ltb_spec u3 v3); [intuition lia|].
  destruct (Z.ltb_spec v3 u3); intuition (discriminate || lia).
Qed.

Lemma lexicographical_compare_parsed (jr jc : junk4) (ref c : string) :
  Cxx.lexicographical_compare (parseSWVersion (array4 jr) ref)
                              (parseSWVersion (array4 jc) c) = true
  <-> version_lt (tuple4 (parseSWVersion (array4 jr) ref))
                 (tuple4 (parseSWVersion (array4 jc) c)).
Proof.
  rewrite (parseSWVersion_tuple jr ref) at 1.
  rewrite (parseSWVersion_tuple jc c) at 1.
  destruct (tuple4 (parseSWVersion (array4 jr) ref)) as [[[u0 u1] u2] u3].
  destruct (tuple4 (parseSWVersion (array4 jc) c)) as [[[v0 v1] v2] v3].
  apply lexicographical_compare_4.
Qed.

Lemma version_lt_irrefl (u : SoftwareVersion) : ~ version_lt u u.
Proof. destruct u as [[[u0 u1] u2] u3]. cbn. lia. Qed.

Section Gate.

Variable Srv : Type.
Implicit Type c : DashboardClient Srv.


Lemma lessThanVersion_passes (a b v : string) c :
  version_lt (required a b c) (actual v c) ->
  lessThanVersion Srv a b v c = (Ok true, c).
Proof.
  intros H. apply lexicographical_compare_parsed in H.
  unfold lessThanVersion, bind, gets.
  replace (Bool.eqb (e_series_ c) true) with (e_series_ c)
    by (destruct (e_series_ c); reflexivity).
  fold (threshold a b c). rewrite H. reflexivity.
Qed.

Lemma lessThanVersion_throws (a b v : string) c :
  ~ version_lt (required a b c) (actual v c) ->
  lessThanVersion Srv a b v c
  = (Throw (UrException (version_what (threshold a b c) v)), c).
Proof.
  intros H. unfold required, actual in H.
  rewrite <- lexicographical_compare_parsed in H.
  apply not_true_is_false in H.
  unfold lessThanVersion, bind, gets.
  replace (Bool.eqb (e_series_ c) true) with (e_series_ c)
    by (destruct (e_series_ c); reflexivity).
  fold (threshold a b c). rewrite H. reflexivity.
Qed.

Lemma version_lt_dec (a b v : string) c :
  version_lt (required a b c) (actual v c)
  \/ ~ version_lt (required a b c) (actual v c).
Proof.
  unfold required, actual. rewrite <- lexicographical_compare_parsed.
  destruct (Cxx.lexicographical_compare _ _); [left | right]; congruence.
Qed.

(** The gate has two ways to end, and returning [false] is not one. *)
Lemma lessThanVersion_never_false (a b v : string) c :
  lessThanVersion Srv a b v c = (Ok true, c)
  \/ lessThanVersion Srv a b v c
     = (Throw (UrException (version_what (threshold a b c) v)), c).
Proof.
  destruct (version_lt_dec a b v c) as [D|D];
    [left; now apply lessThanVersion_passes
    | right; now apply lessThanVersion_throws].
Qed.

(** The outcome of one call of [lessThanVersion] in terms of the two
    arrays it compares, as [parseSWVersion] leaves them: it passes
    exactly when the array of the threshold is strictly below the array
    of the version, and throws otherwise.  The slots a string has no
    component for enter the comparison with what they held. *)
Lemma gate_outcome_by_arrays (a b v : string) c :
  (lessThanVersion Srv a b v c = (Ok true, c)
   <-> version_lt (required a b c) (actual v c))
  /\ (lessThanVersion Srv a b v c
      = (Throw (UrException (version_what (threshold a b c) v)), c)
      <-> ~ version_lt (required a b c) (actual v c))
  /\ (required a b c = actual v c ->
      lessThanVersion Srv a b v c
      = (Throw (UrException (version_what (threshold a b c) v)), c)).
Proof.
  pose proof (version_lt_dec a b v c) as D.
  repeat split.
  - intros E. destruct D as [D|D]; [exact D|].
    rewrite (lessThanVersion_throws _ _ _ _ D) in E. discriminate.
  - apply lessThanVersion_passes.
  - intros E D'. rewrite (lessThanVersion_passes _ _ _ _ D') in E. discriminate.
  - apply lessThanVersion_throws.
  - intros E. apply lessThanVersion_throws. rewrite E. apply version_lt_irrefl.
Qed.

End Gate.

(** A threshold of three components against a version of four: the
    fourth slot of the threshold's array is never written, so the outcome
    follows what that slot held. *)
Example gate_outcome_follows_unwritten_slot :
  let below := connected_client true "5.0.0.1234" ((0, 0, 0, 0), (0, 0, 0, 0)) in
  let above := connected_client true "5.0.0.1234" ((0, 0, 0, 9999), (0, 0, 0, 0)) in
  lessThanVersion unit "5.0.0" "3.0" "5.0.0.1234" below = (Ok true, below)
  /\ lessThanVersion unit "5.0.0" "3.0" "5.0.0.1234" above
     = (Throw (UrException (version_what "5.0.0" "5.0.0.1234")), above).
Proof. split; reflexivity. Qed.

(** ** Version ordering *)

(** Under the comparison of the gate "3.9" is strictly less than "3.10":
    [parseSWVersion] reads the components the strings have as integers,
    major 3 and minor 9 and 10, and the lexicographic comparison is
    decided numerically at the minor component, whatever the arrays held
    before.  As character strings the two compare the other way round. *)
Lemma version_3_9_below_3_10 (jr jc : junk4) :
  load (parseSWVersion (array4 jr) "3.9") 0 = 3
  /\ load (parseSWVersion (array4 jr) "3.9") 1 = 9
  /\ load (parseSWVersion (array4 jc) "3.10") 0 = 3
  /\ load (parseSWVersion (array4 jc) "3.10") 1 = 10
  /\ Cxx.lexicographical_compare (parseSWVersion (array4 jr) "3.9")
                                 (parseSWVersion (array4 jc) "3.10") = true
  /\ Cxx.lexicographical_compare (parseSWVersion (array4 jc) "3.10")
                                 (parseSWVersion (array4 jr) "3.9") = false
  /\ String.ltb "3.10" "3.9" = true.
Proof.
  destruct jr as [[[a b] c] d], jc as [[[a' b'] c'] d'].
  repeat split; reflexivity.
Qed.

(** C5, on the code.  The components "3.9" and "3.10" do not have are
    not set to 0: [parseSWVersion] writes the major and the minor and
    leaves the last two slots of the array as they were, and
    [lessThanVersion] hands it arrays it has not initialised.  On an
    array that held 7 in every slot "3.9" gives (3, 9, 7, 7) and "3.10"
    gives (3, 10, 7, 7), not (3, 9, 0, 0) and (3, 10, 0, 0). *)
Theorem absent_components_keep_old_value (a b c d : Z) :
  parseSWVersion (array4 (a, b, c, d)) "3.9" = [3; 9; c; d]
  /\ parseSWVersion (array4 (a, b, c, d)) "3.10" = [3; 10; c; d]
  /\ parseSWVersion (array4 (7, 7, 7, 7)) "3.9" = [3; 9; 7; 7]
  /\ parseSWVersion (array4 (7, 7, 7, 7)) "3.9" <> [3; 9; 0; 0]
  /\ parseSWVersion (array4 (7, 7, 7, 7)) "3.10" = [3; 10; 7; 7]
  /\ parseSWVersion (array4 (7, 7, 7, 7)) "3.10" <> [3; 10; 0; 0].
Proof.
  repeat match goal with |- _ /\ _ => split end;
    try reflexivity; discriminate.
Qed.

(* ===================================================================== *)
(** ** The reply reader *)
(* ===================================================================== *)

Lemma append_assoc (s t u : string) : (s ++ t) ++ u = s ++ (t ++ u).
Proof. induction s as [|c s IH]; simpl; [reflexivity | now rewrite IH]. Qed.

Lemma length_append (s t : string) :
  String.length (s ++ t) = (String.length s + String.length t)%nat.
Proof. induction s as [|c s IH]; simpl; [reflexivity | now rewrite IH]. Qed.

Lemma length_string_of_list_ascii (l : list ascii) :
  String.length (string_of_list_ascii l) = List.length l.
Proof. induction l as [|c l IH]; simpl; [reflexivity | now rewrite IH]. Qed.

Section Reader.

Variable Srv : Type.
Implicit Type c : DashboardClient Srv.

(** The reply is there: the bytes up to and including the first newline
    are returned, the bytes behind it stay unread. *)
Lemma read_loop_line (pre rest : list ascii) :
  ~ In Cxx.LF pre ->
  forall fuel result n c,
    state_ c = Connected ->
    rx c = (pre ++ Cxx.LF :: rest)%list ->
    (List.length pre < fuel)%nat ->
    0 < n ->
    read_loop Srv fuel result n c
    = (Ok (result ++ string_of_list_ascii pre ++ Cxx.endl), set_rx Srv rest c).
Proof.
  induction pre as [|b pre IH]; intros Hnl fuel result n c Hst Hrx Hfuel Hn.
  - destruct fuel as [|fuel]; [simpl in Hfuel; lia|].
    cbn [read_loop]. apply Z.ltb_lt in Hn. rewrite Hn.
    unfold bind at 1. unfold TCPSocket_read. rewrite Hst, Hrx.
    cbn [app negb]. rewrite Ascii.eqb_refl. reflexivity.
  - destruct fuel as [|fuel]; [simpl in Hfuel; lia|].
    cbn [read_loop]. apply Z.ltb_lt in Hn. rewrite Hn.
    unfold bind at 1. unfold TCPSocket_read. rewrite Hst, Hrx.
    cbn [app negb].
    assert (Hb : Ascii.eqb b Cxx.LF = false).
    { apply Ascii.eqb_neq. intros ->. apply Hnl. now left. }
    rewrite Hb.
    rewrite (IH (fun H => Hnl (or_intror H)) fuel _ 1 (set_rx Srv (pre ++ Cxx.LF :: rest) c));
      [ | exact Hst | reflexivity | simpl in Hfuel; lia | lia ].
    rewrite append_assoc. reflexivity.
Qed.

(** The reply stalls: the client is connected and the bytes that arrive
    hold no newline.  The client closes the connection and throws
    [TimeoutException] with the value of [recv_timeout_]. *)
Lemma read_loop_stall (pending : list ascii) :
  ~ In Cxx.LF pending ->
  forall fuel result n c tv,
    state_ c = Connected ->
    rx c = pending ->
    recv_timeout_ c = Some tv ->
    (List.length pending < fuel)%nat ->
    0 < n ->
    read_loop Srv fuel result n c
    = (Throw (TimeoutException read_timeout_what tv),
       set_state Srv Disconnected (set_rx Srv [] c)).
Proof.
  induction pending as [|b pending IH]; intros Hnl fuel result n c tv Hst Hrx Htv Hfuel Hn.
  - destruct fuel as [|fuel]; [simpl in Hfuel; lia|].
    cbn [read_loop]. apply Z.ltb_lt in Hn. rewrite Hn.
    unfold bind, TCPSocket_read, disconnect, TCPSocket_close, modify, gets, throw.
    rewrite Hst, Hrx. cbn [negb recv_timeout_ set_state]. rewrite Htv.
    destruct c; simpl in *; subst; reflexivity.
  - destruct fuel as [|fuel]; [simpl in Hfuel; lia|].
    cbn [read_loop]. apply Z.ltb_lt in Hn. rewrite Hn.
    unfold bind at 1. unfold TCPSocket_read. rewrite Hst, Hrx.
    cbn [negb].
    assert (Hb : Ascii.eqb b Cxx.LF = false).
    { apply Ascii.eqb_neq. intros ->. apply Hnl. now left. }
    rewrite Hb.
    rewrite (IH (fun H => Hnl (or_intror H)) fuel _ 1 (set_rx Srv pending c) tv);
      [ reflexivity | exact Hst | reflexivity | exact Htv | simpl in Hfuel; lia | lia ].
Qed.

(** A read on a client that is not connected fails at once. *)
Lemma read_loop_disconnected (fuel : nat) (result : string) (n : Z) c tv :
  state_ c = Disconnected ->
  recv_timeout_ c = Some tv ->
  0 < n ->
  read_loop Srv (S fuel) result n c
  = (Throw (TimeoutException read_timeout_what tv), c).
Proof.
  intros Hst Htv Hn. cbn [read_loop]. apply Z.ltb_lt in Hn. rewrite Hn.
  unfold bind, TCPSocket_read, disconnect, TCPSocket_close, modify, gets, throw.
  rewrite Hst. cbn [negb recv_timeout_ set_state]. rewrite Htv.
  destruct c; simpl in *; subst; reflexivity.
Qed.

(** The fuel [read] gives its loop is never used up: [read] always
    returns or throws (or meets the unset timeout). *)
Lemma read_loop_enough_fuel (fuel : nat) :
  forall result n c,
    (List.length (rx c) < fuel)%nat ->
    fst (read_loop Srv fuel result n c) <> OutOfFuel.
Proof.
  induction fuel as [|fuel IH]; intros result n c Hfuel; [lia|].
  cbn [read_loop]. destruct (0 <? n); [|discriminate].
  unfold bind at 1. unfold TCPSocket_read.
  destruct (state_ c) eqn:Hst.
  - unfold bind, disconnect, TCPSocket_close, modify, gets, throw, undefined.
    cbn [negb recv_timeout_ set_state]. destruct (recv_timeout_ c); discriminate.
  - destruct (rx c) as [|b l] eqn:Hrx.
    + unfold bind, disconnect, TCPSocket_close, modify, gets, throw, undefined.
      cbn [negb recv_timeout_ set_state]. destruct (recv_timeout_ c); discriminate.
    + cbn [negb]. destruct (Ascii.eqb b Cxx.LF); [discriminate|].
      apply IH. cbn [rx set_rx]. cbn [List.length] in Hfuel. lia.
Qed.

Lemma read_total c : fst (read Srv c) <> OutOfFuel.
Proof. unfold read. apply read_loop_enough_fuel. lia. Qed.

Lemma read_line (pre rest : list ascii) c :
  state_ c = Connected ->
  rx c = (pre ++ Cxx.LF :: rest)%list ->
  ~ In Cxx.LF pre ->
  read Srv c = (Ok (string_of_list_ascii pre ++ Cxx.endl), set_rx Srv rest c).
Proof.
  intros Hst Hrx Hnl. unfold read.
  rewrite (read_loop_line pre rest Hnl _ "" 99 c Hst Hrx); [reflexivity | | lia].
  rewrite Hrx, length_app. simpl. lia.
Qed.

(** C7, as amended.  A single reply read consumes the incoming bytes one
    at a time up to and including the first newline, and returns them
    all: the bytes behind the newline stay unread, and no maximum byte
    count cuts the reply short.  For every length there is a reply of
    that length that one read buffers whole. *)
Theorem read_consumes_up_to_newline :
  (forall (pre rest : list ascii) c,
      state_ c = Connected ->
      rx c = (pre ++ Cxx.LF :: rest)%list ->
      ~ In Cxx.LF pre ->
      read Srv c = (Ok (string_of_list_ascii pre ++ Cxx.endl), set_rx Srv rest c))
  /\ (forall (n : nat) c,
         state_ c = Connected ->
         exists s,
           read Srv (set_rx Srv (repeat "a"%char n ++ [Cxx.LF]) c)
           = (Ok s, set_rx Srv [] c)
           /\ String.length s = S n).
Proof.
  split; [intros; now apply read_line|].
  intros n c Hst.
  exists (string_of_list_ascii (repeat "a"%char n) ++ Cxx.endl). split.
  - rewrite (read_line (repeat "a"%char n) [] (set_rx Srv _ c));
      [reflexivity | exact Hst | reflexivity | ].
    intros H. apply repeat_spec in H. discriminate.
  - rewrite length_append, length_string_of_list_ascii, repeat_length.
    simpl. lia.
Qed.

(** C8.  When a reply read stalls (the client is connected, a receive
    timeout is configured, and no newline arrives in time) the client
    closes the connection, so that its state is Disconnected, and the
    exception it then throws is a [TimeoutException] that carries the
    configured timeout. *)
Theorem read_stall_disconnects_and_names_timeout c (tv : timeval) :
  state_ c = Connected ->
  recv_timeout_ c = Some tv ->
  ~ In Cxx.LF (rx c) ->
  exists c',
    read Srv c = (Throw (TimeoutException read_timeout_what tv), c')
    /\ state_ c' = Disconnected
    /\ recv_timeout_ c' = Some tv.
Proof.
  intros Hst Htv Hnl. unfold read.
  rewrite (read_loop_stall (rx c) Hnl _ "" 99 c tv Hst eq_refl Htv); [ | lia | lia].
  eexists. split; [reflexivity|]. split; [reflexivity | exact Htv].
Qed.

End Reader.

(** A reply of 150 bytes and a newline is buffered whole by one read,
    151 bytes, more than the 99 the counter starts at. *)
Example read_buffers_more_than_99 :
  let c := set_rx unit (repeat "a"%char 150 ++ [Cxx.LF])
                  (connected_client true "5.9.4.1031232" ((0, 0, 0, 0), (0, 0, 0, 0))) in
  exists s, read unit c = (Ok s, set_rx unit [] c) /\ String.length s = 151%nat.
Proof. eexists. split; vm_compute; reflexivity. Qed.

(** Counterexample to C7 as stated: no constant bounds the bytes one
    read buffers.  Against any bound [B], a reply of [B] bytes and a
    newline is returned whole. *)
Lemma read_is_not_bounded :
  ~ exists B : nat,
      forall (c : DashboardClient unit) (s : string) (c' : DashboardClient unit),
        state_ c = Connected ->
        read unit c = (Ok s, c') ->
        (String.length s <= B)%nat.
Proof.
  intros [B H].
  pose (c := set_rx unit (repeat "a"%char B ++ [Cxx.LF])
                    (connected_client true "5.9.4.1031232"
                                      ((0, 0, 0, 0), (0, 0, 0, 0)))).
  assert (Hnl : ~ In Cxx.LF (repeat "a"%char B))
    by (intros Hin; apply repeat_spec in Hin; discriminate).
  pose proof (read_line unit (repeat "a"%char B) [] c eq_refl eq_refl Hnl) as Hread.
  specialize (H c _ _ eq_refl Hread).
  rewrite length_append, length_string_of_list_ascii, repeat_length in H.
  cbn in H. lia.
Qed.

Lemma read_consumes_up_to_newline_witness :
  let c := set_rx unit (list_ascii_of_string "ok" ++ Cxx.LF :: list_ascii_of_string "next")
                  (connected_client true "5.9.4.1031232" ((0, 0, 0, 0), (0, 0, 0, 0))) in
  read unit c = (Ok ("ok" ++ Cxx.endl), set_rx unit (list_ascii_of_string "next") c).
Proof.
  intros c.
  apply (proj1 (read_consumes_up_to_newline unit) (list_ascii_of_string "ok")).
  - reflexivity.
  - reflexivity.
  - simpl. intros [H|[H|[]]]; discriminate.
Defined.

Lemma read_stall_disconnects_and_names_timeout_witness :
  let c := set_rx unit (list_ascii_of_string "Powering")
                  (connected_client true "5.9.4.1031232" ((0, 0, 0, 0), (0, 0, 0, 0))) in
  exists c',
    read unit c = (Throw (TimeoutException read_timeout_what standard_timeout), c')
    /\ state_ c' = Disconnected
    /\ recv_timeout_ c' = Some standard_timeout.
Proof.
  intros c.
  apply (read_stall_disconnects_and_names_timeout unit c standard_timeout).
  - reflexivity.
  - reflexivity.
  - simpl. intuition discriminate.
Defined.

(* ===================================================================== *)
(** ** What a run leaves untouched *)
(* ===================================================================== *)

Section Frames.

Variable Srv : Type.
Variable respond : Srv -> string -> option (Srv * list ascii).
Variable std_regex : string -> option (string -> bool).
Variables (X : Type) (f : DashboardClient Srv -> X).

Lemma keeps_ret {A} (a : A) : keeps f (ret Srv a).
Proof. intros c. reflexivity. Qed.

Lemma keeps_throw {A} (e : exception) : keeps f (@throw Srv A e).
Proof. intros c. reflexivity. Qed.

Lemma keeps_undefined {A} : keeps f (@undefined Srv A).
Proof. intros c. reflexivity. Qed.

Lemma keeps_out_of_fuel {A} : keeps f (@out_of_fuel Srv A).
Proof. intros c. reflexivity. Qed.

Lemma keeps_gets {A} (g : DashboardClient Srv -> A) : keeps f (gets Srv g).
Proof. intros c. reflexivity. Qed.

Lemma keeps_bind {A B} (m : M Srv A) (k : A -> M Srv B) :
  keeps f m -> (forall a, keeps f (k a)) -> keeps f (bind Srv m k).
Proof.
  intros Hm Hk c. unfold bind. specialize (Hm c).
  destruct (m c) as [[a| | |] c1]; cbn [snd] in *; try exact Hm.
  rewrite Hk. exact Hm.
Qed.

Lemma keeps_if {A} (b : bool) (m1 m2 : M Srv A) :
  keeps f m1 -> keeps f m2 -> keeps f (if b then m1 else m2).
Proof. destruct b; auto. Qed.

(** Reading leaves alone what does not look at the connection state nor
    at the unread bytes. *)
Hypothesis f_state : forall s c, f (set_state Srv s c) = f c.
Hypothesis f_rx : forall l c, f (set_rx Srv l c) = f c.

Lemma keeps_read1 : keeps f (TCPSocket_read Srv).
Proof.
  intros c. unfold TCPSocket_read.
  destruct (state_ c); [reflexivity|].
  destruct (rx c); [reflexivity|]. apply f_rx.
Qed.

Lemma keeps_close : keeps f (TCPSocket_close Srv).
Proof. intros c. apply f_state. Qed.

Lemma keeps_read_loop (fuel : nat) :
  forall result n, keeps f (read_loop Srv fuel result n).
Proof.
  induction fuel as [|fuel IH]; intros result n.
  - cbn [read_loop]. destruct (0 <? n); [apply keeps_out_of_fuel | apply keeps_ret].
  - cbn [read_loop]. destruct (0 <? n); [|apply keeps_ret].
    apply keeps_bind; [apply keeps_read1|].
    intros [[ok character] read_chars].
    destruct ok; cbn [negb].
    + destruct (Ascii.eqb character Cxx.LF); [apply keeps_ret | apply IH].
    + apply keeps_bind; [apply keeps_close|]. intros _.
      apply keeps_bind; [apply keeps_gets|]. intros [tv|];
        [apply keeps_throw | apply keeps_undefined].
Qed.

Lemma keeps_read : keeps f (read Srv).
Proof. intros c. unfold read. apply keeps_read_loop. Qed.

Lemma keeps_rtrim (str chars : string) : keeps f (rtrim Srv str chars).
Proof.
  unfold rtrim. destruct (Cxx.erase _ _); [apply keeps_ret | apply keeps_throw].
Qed.

(** Writing leaves alone what does not look at the wire at all. *)
Hypothesis f_wire : forall p l t c, f (set_wire Srv p l t c) = f c.

Lemma keeps_write (data : string) : keeps f (TCPSocket_write Srv respond data).
Proof.
  intros c. unfold TCPSocket_write.
  destruct (state_ c); [reflexivity|].
  destruct (respond (peer c) data) as [[p answer]|]; [|reflexivity].
  apply f_wire.
Qed.

Lemma keeps_sendAndReceive (text : string) :
  keeps f (sendAndReceive Srv respond text).
Proof.
  unfold sendAndReceive.
  apply keeps_bind; [apply keeps_write|]. intros ok.
  apply keeps_bind; [|intros; apply keeps_rtrim].
  destruct ok; [apply keeps_read | apply keeps_throw].
Qed.

Lemma keeps_regex (pattern : string) : keeps f (regex Srv std_regex pattern).
Proof.
  unfold regex. destruct (std_regex pattern); [apply keeps_ret | apply keeps_throw].
Qed.

Lemma keeps_sendRequest (command expected : string) :
  keeps f (sendRequest Srv respond std_regex command expected).
Proof.
  unfold sendRequest.
  apply keeps_bind; [apply keeps_sendAndReceive|]. intros response.
  apply keeps_bind; [apply keeps_regex|]. intros m.
  destruct (m response); cbn [negb]; [apply keeps_ret | apply keeps_throw].
Qed.

End Frames.

(* ===================================================================== *)
(** ** Gated commands *)
(* ===================================================================== *)

Section GatedCommands.

Variable Srv : Type.
Variable respond : Srv -> string -> option (Srv * list ascii).
Variable std_regex : string -> option (string -> bool).
Implicit Type c : DashboardClient Srv.

Lemma gated_passes {A} (a b : string) (no : A) (body : M Srv A) c :
  version_lt (required a b c) (actual (polyscope_version_ c) c) ->
  gated Srv a b no body c = body c.
Proof.
  intros H. unfold gated, bind, gets.
  rewrite (lessThanVersion_passes Srv a b _ c H). reflexivity.
Qed.

(** For every gated command (every pair of thresholds, every body, every
    value [no] its [return false] would deliver): when the cached version
    is not above the threshold the command changes nothing, so it writes
    nothing, and it ends in [UrException], not in a returned [false]. *)
Lemma gated_rejects {A} (a b : string) (no : A)
        (body : M Srv A) c :
  ~ version_lt (required a b c) (actual (polyscope_version_ c) c) ->
  gated Srv a b no body c
  = (Throw (UrException (version_what (threshold a b c) (polyscope_version_ c))), c).
Proof.
  intros H. unfold gated, bind, gets.
  rewrite (lessThanVersion_throws Srv a b _ c H). reflexivity.
Qed.

(** The [return false] of a gated command is dead code: a gated command
    that returns has passed the gate and returns what its body returns. *)
Lemma gated_returns_only_from_body {A} (a b : string) (no : A)
      (body : M Srv A) c (r : A) c' :
  gated Srv a b no body c = (Ok r, c') ->
  version_lt (required a b c) (actual (polyscope_version_ c) c)
  /\ body c = (Ok r, c').
Proof.
  intros H.
  destruct (version_lt_dec Srv a b (polyscope_version_ c) c) as [D|D].
  - split; [exact D|]. rewrite (gated_passes a b no body c D) in H. exact H.
  - rewrite (gated_rejects a b no body c D) in H. discriminate.
Qed.

(** C2, on the code.  An e-Series controller at 5.0.3.1234 is below the
    5.1.0 that restarting the safety system needs.  The command leaves
    the client as it was, so it writes nothing; but it does not return
    [false]: it throws [UrException], whatever the server, the matcher
    and the arrays of the gate. *)
Theorem commandRestartSafety_below_threshold (fuel : nat) (st : SocketState)
      (t : option timeval) (p : Srv) (unread : list ascii)
      (written : list string) (j : junk4 * junk4) :
  let c := mk_client st t true "5.0.3.1234" p unread written j in
  commandRestartSafety Srv respond std_regex fuel c
  = (Throw (UrException
       "Polyscope software version required is: 5.1.0, but actual version is: 5.0.3.1234"),
     c).
Proof.
  intros c. unfold commandRestartSafety.
  rewrite gated_rejects; [reflexivity|].
  destruct j as [[[[a b] d] e] [[[a' b'] d'] e']].
  cbn. lia.
Qed.

(** C1, on the code.  The e-Series threshold of [commandRestartSafety]
    is "5.1.0": three components, as every e-Series threshold has, so
    the fourth slot of [parsedRef] is never written and the comparison
    reads what that slot held.  The cached version 5.1.0.40195 is above
    the threshold 5.1.0.0, and the version 5.1.0.0 is equal to it, yet
    the gate passes the first only when the slot held less than 40195
    and the second only when it held a negative number; otherwise it
    throws, and the command with it. *)
Theorem gate_above_threshold_follows_unwritten_slot (fuel : nat)
      (st : SocketState) (t : option timeval) (p : Srv) (unread : list ascii)
      (written : list string) (jr0 jr1 jr2 jr3 : Z) (jc : junk4) :
  let above := mk_client st t true "5.1.0.40195" p unread written
                         ((jr0, jr1, jr2, jr3), jc) in
  let equal := mk_client st t true "5.1.0.0" p unread written
                         ((jr0, jr1, jr2, jr3), jc) in
  version_ge (5, 1, 0, 40195) (5, 1, 0, 0)
  /\ version_ge (5, 1, 0, 0) (5, 1, 0, 0)
  /\ lessThanVersion Srv "5.1.0" "3.7" "5.1.0.40195" above
     = (if jr3 <? 40195 then Ok true
        else Throw (UrException
               "Polyscope software version required is: 5.1.0, but actual version is: 5.1.0.40195"),
        above)
  /\ lessThanVersion Srv "5.1.0" "3.7" "5.1.0.0" equal
     = (if jr3 <? 0 then Ok true
        else Throw (UrException
               "Polyscope software version required is: 5.1.0, but actual version is: 5.1.0.0"),
        equal)
  /\ commandRestartSafety Srv respond std_regex fuel above
     = (if jr3 <? 40195
        then and_then Srv
               (sendRequest Srv respond std_regex "restart safety" "Restarting safety")
               (waitForReply Srv respond std_regex fuel "robotmode"
                             "Robotmode: POWER_OFF" default_timeout) above
        else (Throw (UrException
                "Polyscope software version required is: 5.1.0, but actual version is: 5.1.0.40195"),
              above)).
Proof.
  intros above equal. destruct jc as [[[a' b'] d'] e'].
  split; [right; cbn; lia|]. split; [left; reflexivity|].
  assert (Above : jr3 < 40195
                  <-> version_lt (required "5.1.0" "3.7" above)
                                 (actual "5.1.0.40195" above))
    by (cbn; lia).
  assert (Equal : jr3 < 0
                  <-> version_lt (required "5.1.0" "3.7" equal)
                                 (actual "5.1.0.0" equal))
    by (cbn; lia).
  repeat match goal with |- _ /\ _ => split end.
  - destruct (Z.ltb_spec jr3 40195) as [L|G].
    + apply lessThanVersion_passes. now apply Above.
    + rewrite lessThanVersion_throws; [reflexivity|]. rewrite <- Above. lia.
  - destruct (Z.ltb_spec jr3 0) as [L|G].
    + apply lessThanVersion_passes. now apply Equal.
    + rewrite lessThanVersion_throws; [reflexivity|]. rewrite <- Equal. lia.
  - unfold commandRestartSafety.
    destruct (Z.ltb_spec jr3 40195) as [L|G].
    + apply gated_passes.
      change (polyscope_version_ above) with "5.1.0.40195". now apply Above.
    + rewrite gated_rejects; [reflexivity|].
      change (polyscope_version_ above) with "5.1.0.40195".
      rewrite <- Above. lia.
Qed.

(** Without a cached version the gate compares against whatever the
    array of the parsed version held: here it lets the command through. *)
Lemma gate_without_cached_version_can_pass (st : SocketState)
      (t : option timeval) (p : Srv) (unread : list ascii)
      (written : list string) (jr : junk4) :
  let c := mk_client st t true "" p unread written (jr, (6, 0, 0, 0)) in
  lessThanVersion Srv "5.0.0" "3.0" "" c = (Ok true, c).
Proof.
  intros c. apply lessThanVersion_passes.
  destruct jr as [[[a b] d] e]. cbn. lia.
Qed.

(* ===================================================================== *)
(** ** The report commands and the receive timeout *)
(* ===================================================================== *)

Lemma recv_timeout_set_state s c :
  recv_timeout_ (set_state Srv s c) = recv_timeout_ c.
Proof. reflexivity. Qed.

Lemma recv_timeout_set_rx l c :
  recv_timeout_ (set_rx Srv l c) = recv_timeout_ c.
Proof. reflexivity. Qed.

Lemma recv_timeout_set_wire p l t c :
  recv_timeout_ (set_wire Srv p l t c) = recv_timeout_ c.
Proof. reflexivity. Qed.

(** A report command whose exchange throws leaves the long timeout in
    place: the statements that reset it are not reached. *)
Lemma commandGenerateFlightReport_throw (report_type : string) c e c' :
  version_lt (required "5.8.0" "3.13" c) (actual (polyscope_version_ c) c) ->
  sendRequest Srv respond std_regex ("generate flight report " ++ report_type)
              "(?:Flight Report generated with id:).*"
              (set_recv_timeout Srv (Some {| tv_sec := 180; tv_usec := 0 |}) c)
  = (Throw e, c') ->
  commandGenerateFlightReport Srv respond std_regex report_type c = (Throw e, c')
  /\ recv_timeout_ c' = Some {| tv_sec := 180; tv_usec := 0 |}.
Proof.
  intros Hgate Hthrow. split.
  - unfold commandGenerateFlightReport. rewrite gated_passes by exact Hgate.
    unfold bind, setReceiveTimeout, modify. rewrite Hthrow. reflexivity.
  - pose proof (keeps_sendRequest Srv respond std_regex _ (@recv_timeout_ Srv)
                  recv_timeout_set_state recv_timeout_set_rx recv_timeout_set_wire
                  ("generate flight report " ++ report_type)
                  "(?:Flight Report generated with id:).*"
                  (set_recv_timeout Srv (Some {| tv_sec := 180; tv_usec := 0 |}) c)) as K.
    rewrite Hthrow in K. exact K.
Qed.

Lemma commandGenerateSupportFile_throw (dir_path : string) c e c' :
  version_lt (required "5.8.0" "3.13" c) (actual (polyscope_version_ c) c) ->
  sendRequest Srv respond std_regex ("generate support file " ++ dir_path)
              "(?:Completed successfully:).*"
              (set_recv_timeout Srv (Some {| tv_sec := 600; tv_usec := 0 |}) c)
  = (Throw e, c') ->
  commandGenerateSupportFile Srv respond std_regex dir_path c = (Throw e, c')
  /\ recv_timeout_ c' = Some {| tv_sec := 600; tv_usec := 0 |}.
Proof.
  intros Hgate Hthrow. split.
  - unfold commandGenerateSupportFile. rewrite gated_passes by exact Hgate.
    unfold bind, setReceiveTimeout, modify. rewrite Hthrow. reflexivity.
  - pose proof (keeps_sendRequest Srv respond std_regex _ (@recv_timeout_ Srv)
                  recv_timeout_set_state recv_timeout_set_rx recv_timeout_set_wire
                  ("generate support file " ++ dir_path)
                  "(?:Completed successfully:).*"
                  (set_recv_timeout Srv (Some {| tv_sec := 600; tv_usec := 0 |}) c)) as K.
    rewrite Hthrow in K. exact K.
Qed.

(** When the exchange returns, the standard timeout is back. *)
Lemma commandGenerateFlightReport_return (report_type : string) c r c' :
  commandGenerateFlightReport Srv respond std_regex report_type c = (Ok r, c') ->
  recv_timeout_ c' = Some standard_timeout.
Proof.
  intros H. unfold commandGenerateFlightReport in H.
  apply gated_returns_only_from_body in H as [_ H].
  unfold bind, setReceiveTimeout, modify in H.
  destruct (sendRequest _ _ _ _ _ _) as [[x| | |] c1]; try discriminate.
  injection H as _ <-. reflexivity.
Qed.

End GatedCommands.

Lemma gated_rejects_witness :
  let c := connected_client true "5.0.3.1234" ((1, 2, 3, 4), (5, 6, 7, 8)) in
  gated unit "5.1.0" "3.7" false (ret unit true) c
  = (Throw (UrException (version_what "5.1.0" "5.0.3.1234")), c).
Proof.
  intros c.
  apply (gated_rejects unit "5.1.0" "3.7" false (ret unit true) c).
  cbn. lia.
Defined.

(** C4, on the code.  A flight report the controller declines: the
    exchange throws on the reply that does not match, and the client is
    left connected with the 180-second timeout, which the next ordinary
    command then runs under.  The same for the support file and its 600
    seconds.  A report the controller does not answer at all ends in the
    timeout exception, with the connection closed and the 180 seconds
    still in place. *)
Theorem report_failure_leaves_long_timeout (j : junk4 * junk4) :
  let run_on := TableServer.respond sample_answers in
  let c := connected_client true "5.9.0.1" j in
  let after_report :=
    commandGenerateFlightReport unit run_on Pattern.regex "system" c in
  let after_next := commandRunning unit run_on Pattern.regex (snd after_report) in
  let after_support :=
    commandGenerateSupportFile unit run_on Pattern.regex "/programs" c in
  let after_silence :=
    commandGenerateFlightReport unit run_on Pattern.regex "controller" c in
  fst after_report
  = Throw (UrException
      "Expected: (?:Flight Report generated with id:).*, but received: Could not generate flight report")
  /\ state_ (snd after_report) = Connected
  /\ recv_timeout_ (snd after_report) = Some {| tv_sec := 180; tv_usec := 0 |}
  /\ fst after_next = Ok true
  /\ recv_timeout_ (snd after_next) = Some {| tv_sec := 180; tv_usec := 0 |}
  /\ fst after_support
     = Throw (UrException
         "Expected: (?:Completed successfully:).*, but received: Could not generate support file")
  /\ state_ (snd after_support) = Connected
  /\ recv_timeout_ (snd after_support) = Some {| tv_sec := 600; tv_usec := 0 |}
  /\ fst after_silence
     = Throw (TimeoutException read_timeout_what {| tv_sec := 180; tv_usec := 0 |})
  /\ state_ (snd after_silence) = Disconnected
  /\ recv_timeout_ (snd after_silence) = Some {| tv_sec := 180; tv_usec := 0 |}.
Proof.
  destruct j as [[[[a b] d] e] [[[a' b'] d'] e']].
  repeat split; vm_compute; reflexivity.
Qed.

(* ===================================================================== *)
(** ** Connecting *)
(* ===================================================================== *)

Section Connect.

Variable Srv : Type.
Variable respond : Srv -> string -> option (Srv * list ascii).
Variable accept : Srv -> option (Srv * list ascii).
Variable std_regex : string -> option (string -> bool).
Implicit Type c : DashboardClient Srv.

Lemma connect_while_connected c :
  state_ c = Connected ->
  connect Srv respond accept std_regex c = (Ok false, c).
Proof.
  intros Hst. unfold connect, bind, getState, gets. rewrite Hst. reflexivity.
Qed.

(** The version query on a client that is not connected: the write fails
    and [sendAndReceive] throws. *)
Lemma commandPolyscopeVersion_not_connected (pv : string) c :
  state_ c = Disconnected ->
  commandPolyscopeVersion Srv respond std_regex pv c
  = (Throw (UrException send_failed_what), c).
Proof.
  intros Hst.
  unfold commandPolyscopeVersion, sendRequestString, sendAndReceive, send,
    TCPSocket_write, bind, throw.
  rewrite Hst. reflexivity.
Qed.

Lemma connect_setup_fails c :
  state_ c = Disconnected ->
  accept (peer c) = None ->
  connect Srv respond accept std_regex c
  = (Throw (UrException send_failed_what),
     set_recv_timeout Srv (Some standard_timeout) c).
Proof.
  intros Hst Hacc.
  unfold connect, bind, getState, gets, TCPSocket_setup, setReceiveTimeout, modify, ret.
  cbv beta iota. rewrite Hst. cbn [SocketState_eqb]. cbv beta iota.
  rewrite Hacc. rewrite Hst. cbv beta iota.
  rewrite commandPolyscopeVersion_not_connected by exact Hst.
  reflexivity.
Qed.

(** C10.  [connect] returns [false] when it is called on a connected
    client, and then it leaves the client as it was: no exchange.  That
    is the only way it returns [false]: when the set-up of the
    connection fails it still sets the receive timeout to one second and
    issues the version query, whose write fails, so that it ends in the
    exception of [sendAndReceive]. *)
Theorem connect_false_only_when_connected :
  (forall c, state_ c = Connected ->
             connect Srv respond accept std_regex c = (Ok false, c))
  /\ (forall c, state_ c = Disconnected -> accept (peer c) = None ->
                connect Srv respond accept std_regex c
                = (Throw (UrException send_failed_what),
                   set_recv_timeout Srv (Some standard_timeout) c))
  /\ (forall c c', connect Srv respond accept std_regex c = (Ok false, c') ->
                   state_ c = Connected /\ c' = c).
Proof.
  split; [exact connect_while_connected|].
  split; [exact connect_setup_fails|].
  intros c c' H.
  destruct (state_ c) eqn:Hst.
  - exfalso.
    destruct (accept (peer c)) as [[p greeting]|] eqn:Hacc.
    + unfold connect, bind, getState, gets, TCPSocket_setup, setReceiveTimeout,
        modify, ret in H.
      cbv beta iota in H. rewrite Hst in H. cbn [SocketState_eqb] in H.
      cbv beta iota in H. rewrite Hacc in H. rewrite Hst in H.
      cbv beta iota in H.
      destruct (read Srv _) as [[s| | |] c1]; try discriminate.
      destruct (commandPolyscopeVersion Srv respond std_regex "" _)
        as [[x| | |] c2]; discriminate.
    + rewrite (connect_setup_fails c Hst Hacc) in H. discriminate.
  - rewrite (connect_while_connected c Hst) in H.
    injection H as <-. split; reflexivity.
Qed.

End Connect.

Lemma connect_false_only_when_connected_witness :
  let c := fresh_client false ((0, 0, 0, 0), (0, 0, 0, 0)) in
  connect unit (TableServer.respond sample_answers) TableServer.refuse Pattern.regex c
  = (Throw (UrException send_failed_what),
     set_recv_timeout unit (Some standard_timeout) c).
Proof.
  intros c.
  apply (proj1 (proj2 (connect_false_only_when_connected unit
           (TableServer.respond sample_answers) TableServer.refuse Pattern.regex)));
    reflexivity.
Defined.

(* ===================================================================== *)
(** ** The hardware variant *)
(* ===================================================================== *)

Lemma stoi_digit (ch : ascii) :
  Cxx.isdigit ch = true ->
  Cxx.stoi (String ch EmptyString) = Cxx.StoiValue (Cxx.digit_value ch).
Proof.
  destruct ch as [[] [] [] [] [] [] [] []]; vm_compute; congruence.
Qed.

Lemma substr_first (ch : ascii) (rest : string) :
  Cxx.substr (String ch rest) 0 1 = Some (String ch EmptyString).
Proof.
  unfold Cxx.substr, Cxx.size. cbn [String.length].
  replace (Z.of_nat (S (String.length rest)) <? 0) with false
    by (symmetry; apply Z.ltb_ge; lia).
  replace (Z.min 1 (Z.of_nat (S (String.length rest)) - 0)) with 1 by lia.
  cbn. destruct rest; reflexivity.
Qed.

(** The variant is read off the first character of the cached version:
    the rest of the major component plays no part. *)
Lemma variant_from_first_character (Srv : Type) (ch : ascii) (rest : string)
      (c : DashboardClient Srv) :
  Cxx.isdigit ch = true ->
  bind Srv (substr_or_throw Srv (String ch rest) 0 1)
       (fun first_char =>
          bind Srv (stoi_or_throw Srv first_char)
               (fun major => modify Srv (set_e_series Srv (5 <=? major)))) c
  = (Ok tt, set_e_series Srv (5 <=? Cxx.digit_value ch) c).
Proof.
  intros Hd. unfold bind, substr_or_throw, stoi_or_throw.
  rewrite substr_first. cbn [ret]. rewrite (stoi_digit ch Hd). reflexivity.
Qed.

(** C3, on the code.  A controller that reports version 10.0.0.0: the
    version query succeeds and caches "10.0.0.0", whose parsed major
    component is 10, at least 5; the variant it caches is CB3
    ([e_series_] is false), because only the character "1" is looked at. *)
Theorem variant_of_major_10_is_cb3 (e : bool) (j : junk4 * junk4) (jp : junk4) :
  let run_on := TableServer.respond sample_answers in
  let r := commandPolyscopeVersion unit run_on Pattern.regex ""
             (connected_client e "" j) in
  fst r = Ok (true, "URSoftware 10.0.0.0 (Jan 01 2030)")
  /\ polyscope_version_ (snd r) = "10.0.0.0"
  /\ load (parseSWVersion (array4 jp) (polyscope_version_ (snd r))) 0 = 10
  /\ e_series_ (snd r) = false.
Proof.
  destruct j as [[[[a b] d] g] [[[a' b'] d'] g']], jp as [[[x y] z] w].
  repeat split; vm_compute; reflexivity.
Qed.

(* ===================================================================== *)
(** ** One exchange *)
(* ===================================================================== *)

Lemma size_String (ch : ascii) (s : string) :
  Cxx.size (String ch s) = Cxx.size s + 1.
Proof. unfold Cxx.size. cbn [String.length]. lia. Qed.

Lemma size_nonneg (s : string) : 0 <= Cxx.size s.
Proof. unfold Cxx.size. lia. Qed.

Lemma find_last_not_of_from_range (s chars : string) :
  forall i, 0 <= i -> i + Cxx.size s <= Cxx.npos ->
  Cxx.find_last_not_of_from i s chars = Cxx.npos
  \/ i <= Cxx.find_last_not_of_from i s chars < i + Cxx.size s.
Proof.
  induction s as [|ch s IH]; intros i Hi Hsz; [left; reflexivity|].
  rewrite size_String in *. pose proof (size_nonneg s).
  cbn [Cxx.find_last_not_of_from].
  destruct (Z.eqb_spec (Cxx.find_last_not_of_from (i + 1) s chars) Cxx.npos) as [E|E].
  - destruct (Cxx.mem_char ch chars); [left; reflexivity | right; lia].
  - right. destruct (IH (i + 1)) as [F|F]; [lia | lia | contradiction | lia].
Qed.

(** [rtrim] never throws on a string that fits in memory. *)
Lemma rtrim_trimmed (Srv : Type) (str : string) :
  Cxx.size str < Cxx.npos ->
  rtrim Srv str rtrim_chars = ret Srv (trimmed str).
Proof.
  intros Hsz. unfold rtrim, trimmed.
  destruct (Cxx.erase str _) as [s|] eqn:E; [reflexivity|exfalso].
  unfold Cxx.erase in E.
  destruct (Z.ltb_spec (Cxx.size str)
              (Cxx.size_t_wrap (Cxx.find_last_not_of str rtrim_chars + 1)))
    as [L|L]; [clear E | discriminate].
  pose proof (size_nonneg str).
  unfold Cxx.find_last_not_of in L.
  destruct (find_last_not_of_from_range str rtrim_chars 0) as [F|F]; [lia | lia | | ].
  - rewrite F in L. change (Cxx.size_t_wrap (Cxx.npos + 1)) with 0 in L. lia.
  - unfold Cxx.size_t_wrap in L. rewrite Z.mod_small in L;
      unfold Cxx.npos in *; lia.
Qed.

Example trim_correctness :
  trimmed ("Robotmode: IDLE" ++ String Cxx.CR Cxx.endl) = "Robotmode: IDLE".
Proof. reflexivity. Qed.

Lemma append_endl_inj (s t : string) : s ++ Cxx.endl = t ++ Cxx.endl -> s = t.
Proof.
  revert t. induction s as [|a s IH]; intros [|b t] H; cbn in H.
  - reflexivity.
  - injection H as _ H. destruct t; discriminate.
  - injection H as _ H. destruct s; discriminate.
  - injection H as -> H. f_equal. now apply IH.
Qed.

Section Exchange.

Variable Srv : Type.
Variable respond : Srv -> string -> option (Srv * list ascii).
Variable std_regex : string -> option (string -> bool).
Implicit Type c : DashboardClient Srv.

Lemma tx_set_state s c : tx (set_state Srv s c) = tx c.
Proof. reflexivity. Qed.

Lemma tx_set_rx l c : tx (set_rx Srv l c) = tx c.
Proof. reflexivity. Qed.

(** One exchange adds at most one write, the text it was given. *)
Lemma sendAndReceive_tx (text : string) c :
  tx (snd (sendAndReceive Srv respond text c)) = tx c
  \/ tx (snd (sendAndReceive Srv respond text c)) = (tx c ++ [text])%list.
Proof.
  remember (sendAndReceive Srv respond text c) as r eqn:E.
  unfold sendAndReceive in E. unfold bind at 1 in E.
  unfold send, TCPSocket_write in E.
  destruct (state_ c); [left; subst r; reflexivity|].
  destruct (respond (peer c) text) as [[p answer]|];
    [right | left; subst r; reflexivity].
  cbv beta iota in E.
  match type of E with
  | r = bind Srv ?m ?k ?c1 => assert (K : keeps (@tx Srv) (bind Srv m k))
  end.
  { apply keeps_bind.
    - apply keeps_read; [exact tx_set_state | exact tx_set_rx].
    - intros response. apply keeps_rtrim. }
  subst r. exact (K _).
Qed.

Lemma sendRequest_tx (command expected : string) c :
  tx (snd (sendRequest Srv respond std_regex command expected c)) = tx c
  \/ tx (snd (sendRequest Srv respond std_regex command expected c))
     = (tx c ++ [(command ++ Cxx.endl)%string])%list.
Proof.
  remember (sendRequest Srv respond std_regex command expected c) as r eqn:E.
  unfold sendRequest in E. unfold bind at 1 in E.
  pose proof (sendAndReceive_tx (command ++ Cxx.endl) c) as H.
  destruct (sendAndReceive Srv respond (command ++ Cxx.endl) c)
    as [[response| | |] c1]; cbn [snd] in *; subst r; try exact H.
  unfold regex. destruct (std_regex expected) as [m|]; [|exact H].
  unfold bind, ret. destruct (m response); exact H.
Qed.

(** Polling only ever writes its query. *)
Lemma waitForReply_loop_tx (command expected : string) (timeout : float) :
  forall fuel count c,
  exists k,
    tx (snd (waitForReply_loop Srv respond std_regex fuel command expected
                               timeout count c))
    = (tx c ++ repeat (command ++ Cxx.endl)%string k)%list.
Proof.
  induction fuel as [|fuel IH]; intros count c.
  - exists 0%nat. cbn. now rewrite app_nil_r.
  - cbn [waitForReply_loop].
    destruct (PrimFloat.ltb count timeout);
      [|exists 0%nat; cbn; now rewrite app_nil_r].
    unfold bind at 1.
    pose proof (sendAndReceive_tx (command ++ Cxx.endl) c) as H.
    assert (Step : exists k1,
               tx (snd (sendAndReceive Srv respond (command ++ Cxx.endl) c))
               = (tx c ++ repeat (command ++ Cxx.endl)%string k1)%list).
    { destruct H as [H|H]; rewrite H;
        [exists 0%nat; now rewrite app_nil_r | exists 1%nat; reflexivity]. }
    clear H. destruct Step as [k1 Hk1].
    destruct (sendAndReceive Srv respond (command ++ Cxx.endl) c)
      as [[response| | |] c1]; cbn [snd] in *;
      try (exists k1; exact Hk1).
    unfold regex. destruct (std_regex expected) as [m|];
      [|exists k1; exact Hk1].
    unfold bind, ret. destruct (m response); [exists k1; exact Hk1|].
    destruct (IH (PrimFloat.add count time_step) c1) as [k2 Hk2].
    exists (k1 + k2)%nat. rewrite Hk2, Hk1, repeat_app, app_assoc. reflexivity.
Qed.

(** On a quiescent client, with a server that answers the request in one
    line, the exchange returns the trimmed line and leaves the client
    quiescent, one write further. *)
Lemma sendAndReceive_line (text a : string) (p' : Srv) c :
  quiescent c ->
  respond (peer c) text = Some (p', line a) ->
  ~ In Cxx.LF (list_ascii_of_string a) ->
  Cxx.size a + 1 < Cxx.npos ->
  sendAndReceive Srv respond text c
  = (Ok (trimmed (a ++ Cxx.endl)),
     set_wire Srv p' [] (tx c ++ [text])%list c).
Proof.
  intros [Hst Hrx] Hresp Hnl Hsz.
  unfold sendAndReceive, bind at 1. unfold send, TCPSocket_write.
  rewrite Hst, Hresp, Hrx. cbn [app].
  unfold bind.
  rewrite (read_line Srv (list_ascii_of_string a) []);
    [ | exact Hst | reflexivity | exact Hnl ].
  rewrite string_of_list_ascii_of_string.
  rewrite rtrim_trimmed; [reflexivity|].
  unfold Cxx.size in *. rewrite length_append. cbn [String.length Cxx.endl].
  lia.
Qed.

End Exchange.

(* ===================================================================== *)
(** ** Polling and retrying *)
(* ===================================================================== *)

Lemma occurrences_app (x : string) (l l' : list string) :
  occurrences x (l ++ l') = (occurrences x l + occurrences x l')%nat.
Proof. apply count_occ_app. Qed.

Lemma occurrences_repeat_other (x y : string) (k : nat) :
  x <> y -> occurrences x (repeat y k) = 0%nat.
Proof.
  intros H. unfold occurrences. induction k as [|k IH]; [reflexivity|].
  cbn [repeat]. rewrite count_occ_cons_neq; [exact IH | congruence].
Qed.

Lemma occurrences_single (x : string) : occurrences x [x] = 1%nat.
Proof. unfold occurrences. now rewrite count_occ_cons_eq. Qed.

(** With a timeout of one second the poll loop runs 11 times: the step
    is the [double] product [0.000001 * 100000], a little less than 0.1,
    and ten steps still add up to less than 1. *)
Lemma poll_second_continues (i : nat) :
  (i < 11)%nat -> PrimFloat.ltb (count_after i) RETRY_EVERY_SECOND = true.
Proof.
  intros H.
  do 11 (destruct i as [|i]; [vm_compute; reflexivity|]). lia.
Qed.

Lemma poll_second_stops :
  PrimFloat.ltb (count_after 11) RETRY_EVERY_SECOND = false.
Proof. vm_compute. reflexivity. Qed.

Section Retry.

Variable Srv : Type.
Variable respond : Srv -> string -> option (Srv * list ascii).
Variable std_regex : string -> option (string -> bool).
Implicit Type c : DashboardClient Srv.

(** A poll whose query is answered, but never as expected, gives up after
    as many exchanges as [count] takes steps to reach [timeout]. *)
Lemma waitForReply_loop_exhausted (command expected : string)
      (m : string -> bool) (timeout : float) (k : nat) :
  std_regex expected = Some m ->
  answers_line respond (command ++ Cxx.endl) (fun r => negb (m r)) ->
  (forall i, (i < k)%nat -> PrimFloat.ltb (count_after i) timeout = true) ->
  PrimFloat.ltb (count_after k) timeout = false ->
  forall d j fuel c,
    (j + d = k)%nat -> quiescent c -> (d < fuel)%nat ->
    exists c',
      waitForReply_loop Srv respond std_regex fuel command expected timeout
                        (count_after j) c = (Ok false, c')
      /\ quiescent c'
      /\ tx c' = (tx c ++ repeat (command ++ Cxx.endl)%string d)%list.
Proof.
  intros Hre Hans Hlt Hge.
  induction d as [|d IH]; intros j fuel c Hj Hq Hfuel;
    (destruct fuel as [|fuel]; [lia|]); cbn [waitForReply_loop].
  - replace j with k by lia. rewrite Hge.
    exists c. split; [reflexivity|]. split; [exact Hq|].
    cbn. now rewrite app_nil_r.
  - rewrite Hlt by lia.
    destruct (Hans (peer c)) as (p' & a & Hresp & Hnl & Hsz & Hno).
    unfold bind at 1.
    rewrite (sendAndReceive_line Srv respond _ a p' c Hq Hresp Hnl Hsz).
    unfold regex. rewrite Hre. unfold bind at 1. unfold ret at 1.
    apply negb_true_iff in Hno. rewrite Hno.
    destruct (IH (S j) fuel
                 (set_wire Srv p' [] (tx c ++ [(command ++ Cxx.endl)%string])%list c))
      as (c' & Hrun & Hq' & Htx); [lia | destruct Hq; split; [assumption | reflexivity] | lia |].
    exists c'. split; [exact Hrun|]. split; [exact Hq'|].
    rewrite Htx. cbn [tx set_wire repeat]. rewrite <- app_assoc. reflexivity.
Qed.

(** [retryCommand] sends its trigger once per iteration of the
    [do ... while] loop, so at least once, and in all at most
    max(1, timeout) times. *)
Lemma retryCommand_loop_bound (requestCommand requestExpectedResponse : string)
      (waitRequest waitExpectedResponse : string) (timeout : Z) :
  requestCommand <> waitRequest ->
  timeout < UINT_modulus ->
  forall fuel count c,
    0 <= count -> (count = 0 \/ count < timeout) ->
    (occurrences (requestCommand ++ Cxx.endl)
       (tx (snd (retryCommand_loop Srv respond std_regex fuel
                   requestCommand requestExpectedResponse
                   waitRequest waitExpectedResponse timeout count c)))
     <= occurrences (requestCommand ++ Cxx.endl) (tx c)
        + Z.to_nat (Z.max 1 (timeout - count)))%nat.
Proof.
  intros Hneq Hmax.
  assert (Hneq' : (requestCommand ++ Cxx.endl)%string <> (waitRequest ++ Cxx.endl)%string)
    by (intros E; apply Hneq; now apply append_endl_inj).
  induction fuel as [|fuel IH]; intros count c Hc0 Hc; [cbn; lia|].
  remember (retryCommand_loop _ _ _ _ _ _ _ _ _ _ c) as r eqn:E.
  cbn [retryCommand_loop] in E. unfold bind at 1 in E.
  pose proof (sendRequest_tx Srv respond std_regex requestCommand
                requestExpectedResponse c) as H1.
  assert (B1 : (occurrences (requestCommand ++ Cxx.endl)
                  (tx (snd (sendRequest Srv respond std_regex requestCommand
                              requestExpectedResponse c)))
                <= occurrences (requestCommand ++ Cxx.endl) (tx c) + 1)%nat).
  { destruct H1 as [H1|H1]; rewrite H1; [lia|].
    rewrite occurrences_app, occurrences_single. lia. }
  clear H1.
  destruct (sendRequest Srv respond std_regex requestCommand
              requestExpectedResponse c) as [[x| | |] c1];
    cbn [snd] in B1; try (subst r; cbn [snd]; lia).
  unfold bind at 1 in E. unfold waitForReply in E.
  destruct (waitForReply_loop_tx Srv respond std_regex waitRequest
              waitExpectedResponse RETRY_EVERY_SECOND fuel 0%float c1) as [k Hk].
  assert (B2 : occurrences (requestCommand ++ Cxx.endl)
                 (tx (snd (waitForReply_loop Srv respond std_regex fuel waitRequest
                             waitExpectedResponse RETRY_EVERY_SECOND 0%float c1)))
               = occurrences (requestCommand ++ Cxx.endl) (tx c1)).
  { rewrite Hk, occurrences_app, occurrences_repeat_other by exact Hneq'. lia. }
  clear Hk.
  destruct (waitForReply_loop Srv respond std_regex fuel waitRequest
              waitExpectedResponse RETRY_EVERY_SECOND 0%float c1)
    as [[ok| | |] c2]; cbn [snd] in B2; try (subst r; cbn [snd]; lia).
  destruct ok; [subst r; cbn [snd ret]; lia|].
  assert (Hmod : (count + 1) mod UINT_modulus = count + 1)
    by (apply Z.mod_small; change UINT_modulus with 4294967296 in *; lia).
  rewrite Hmod in E.
  destruct (Z.ltb_spec (count + 1) timeout) as [L|L].
  - subst r. specialize (IH (count + 1) c2). lia.
  - subst r. cbn [snd ret]. lia.
Qed.

(** With a trigger that is accepted every time and a status that is
    never as expected, [retryCommand] goes through all its iterations:
    it returns [false] after [k + 1] triggers when [k] more iterations
    pass the test [count < timeout]. *)
Lemma retryCommand_loop_exhausted (requestCommand requestExpectedResponse : string)
      (waitRequest waitExpectedResponse : string) (timeout : Z)
      (mr mw : string -> bool) :
  requestCommand <> waitRequest ->
  timeout < UINT_modulus ->
  std_regex requestExpectedResponse = Some mr ->
  std_regex waitExpectedResponse = Some mw ->
  answers_line respond (requestCommand ++ Cxx.endl) mr ->
  answers_line respond (waitRequest ++ Cxx.endl) (fun r => negb (mw r)) ->
  forall k fuel count c,
    quiescent c -> 0 <= count -> count + 1 < UINT_modulus ->
    (count + 1 + Z.of_nat k = timeout \/ (k = 0%nat /\ timeout <= count + 1)) ->
    (k + 12 < fuel)%nat ->
    exists c',
      retryCommand_loop Srv respond std_regex fuel
        requestCommand requestExpectedResponse
        waitRequest waitExpectedResponse timeout count c = (Ok false, c')
      /\ quiescent c'
      /\ occurrences (requestCommand ++ Cxx.endl) (tx c')
         = (occurrences (requestCommand ++ Cxx.endl) (tx c) + S k)%nat.
Proof.
  intros Hneq Hmax Hmr Hmw Hreq Hwait.
  assert (Hneq' : (requestCommand ++ Cxx.endl)%string <> (waitRequest ++ Cxx.endl)%string)
    by (intros E; apply Hneq; now apply append_endl_inj).
  induction k as [|k IH]; intros fuel count c Hq Hc0 Hc1 Hk Hfuel;
    (destruct fuel as [|fuel]; [lia|]); cbn [retryCommand_loop];
    destruct (Hreq (peer c)) as (p' & a & Hresp & Hnl & Hsz & Hyes);
    unfold bind at 1; unfold sendRequest; unfold bind at 1;
    rewrite (sendAndReceive_line Srv respond _ a p' c Hq Hresp Hnl Hsz);
    unfold regex; rewrite Hmr; unfold bind at 1; unfold ret at 1;
    rewrite Hyes; cbn [negb]; unfold ret at 1;
    set (c1 := set_wire Srv p' [] (tx c ++ [(requestCommand ++ Cxx.endl)%string])%list c);
    (assert (Hq1 : quiescent c1) by (destruct Hq; split; [assumption | reflexivity]));
    (destruct (waitForReply_loop_exhausted waitRequest waitExpectedResponse mw
                RETRY_EVERY_SECOND 11 Hmw Hwait poll_second_continues
                poll_second_stops 11 0%nat fuel c1 eq_refl Hq1)
      as (c2 & Hpoll & Hq2 & Htx2); [lia|]);
    unfold bind at 1; unfold waitForReply;
    change 0%float with (count_after 0); rewrite Hpoll;
    rewrite (Z.mod_small (count + 1) UINT_modulus) by lia;
    (assert (Hocc : occurrences (requestCommand ++ Cxx.endl) (tx c2)
                   = (occurrences (requestCommand ++ Cxx.endl) (tx c) + 1)%nat)
      by (rewrite Htx2; subst c1; cbn [tx set_wire];
          rewrite !occurrences_app, occurrences_single,
            occurrences_repeat_other by exact Hneq'; lia)).
  - replace (count + 1 <? timeout) with false by (symmetry; apply Z.ltb_ge; lia).
    exists c2. split; [reflexivity|]. split; [exact Hq2|]. lia.
  - replace (count + 1 <? timeout) with true by (symmetry; apply Z.ltb_lt; lia).
    destruct (IH fuel (count + 1) c2) as (c' & Hrun & Hq' & Hocc');
      [exact Hq2 | lia | lia | left; lia | lia |].
    exists c'. split; [exact Hrun|]. split; [exact Hq'|]. lia.
Qed.

End Retry.

(** C6, as amended.  [retryCommand] sends the trigger at most
    max(1, maxAttempts) times, however the exchanges go: the loop tests
    the bound after its body, so the trigger is sent once even for a
    bound of 0.  When every trigger is accepted and the status never is
    as expected, it sends the trigger exactly max(1, maxAttempts) times
    and returns [false]; for a bound of 3, exactly 3 times.  (Triggers
    are counted as writes of the trigger line, so the trigger and the
    status query are taken to differ.) *)
Theorem retryCommand_trigger_count (Srv : Type)
        (respond : Srv -> string -> option (Srv * list ascii))
        (std_regex : string -> option (string -> bool))
        (requestCommand requestExpectedResponse : string)
        (waitRequest waitExpectedResponse : string) (timeout : Z) :
  requestCommand <> waitRequest ->
  0 <= timeout < UINT_modulus ->
  (forall fuel (c : DashboardClient Srv),
      (occurrences (requestCommand ++ Cxx.endl)
         (tx (snd (retryCommand Srv respond std_regex fuel
                     requestCommand requestExpectedResponse
                     waitRequest waitExpectedResponse timeout c)))
       <= occurrences (requestCommand ++ Cxx.endl) (tx c)
          + Z.to_nat (Z.max 1 timeout))%nat)
  /\ (forall (mr mw : string -> bool) fuel (c : DashboardClient Srv),
         std_regex requestExpectedResponse = Some mr ->
         std_regex waitExpectedResponse = Some mw ->
         answers_line respond (requestCommand ++ Cxx.endl) mr ->
         answers_line respond (waitRequest ++ Cxx.endl) (fun r => negb (mw r)) ->
         quiescent c ->
         (Z.to_nat (Z.max 1 timeout) + 12 <= fuel)%nat ->
         exists c',
           retryCommand Srv respond std_regex fuel
             requestCommand requestExpectedResponse
             waitRequest waitExpectedResponse timeout c = (Ok false, c')
           /\ occurrences (requestCommand ++ Cxx.endl) (tx c')
              = (occurrences (requestCommand ++ Cxx.endl) (tx c)
                 + Z.to_nat (Z.max 1 timeout))%nat).
Proof.
  intros Hneq [H0 Hmax]. split.
  - intros fuel c. unfold retryCommand.
    pose proof (retryCommand_loop_bound Srv respond std_regex
                  requestCommand requestExpectedResponse
                  waitRequest waitExpectedResponse timeout Hneq Hmax
                  fuel 0 c (Z.le_refl 0) (or_introl eq_refl)) as B.
    rewrite Z.sub_0_r in B. exact B.
  - intros mr mw fuel c Hmr Hmw Hreq Hwait Hq Hfuel. unfold retryCommand.
    destruct (retryCommand_loop_exhausted Srv respond std_regex
                requestCommand requestExpectedResponse
                waitRequest waitExpectedResponse timeout mr mw
                Hneq Hmax Hmr Hmw Hreq Hwait
                (Z.to_nat (Z.max 1 timeout) - 1)%nat fuel 0 c Hq (Z.le_refl 0))
      as (c' & Hrun & _ & Hocc).
    + change UINT_modulus with 4294967296. lia.
    + destruct (Z.eq_dec timeout 0) as [E|E]; [right | left]; lia.
    + lia.
    + exists c'. split; [exact Hrun|]. rewrite Hocc. lia.
Qed.

Lemma retryCommand_trigger_count_witness :
  let c := connected_client true "5.9.0.1" ((0, 0, 0, 0), (0, 0, 0, 0)) in
  exists c',
    retryCommand unit (TableServer.respond sample_answers) Pattern.regex 100
      "power on" "Powering on" "robotmode" "Robotmode: IDLE" 3 c = (Ok false, c')
    /\ occurrences ("power on" ++ Cxx.endl) (tx c') = 3%nat.
Proof.
  intros c.
  assert (Hneq : "power on" <> "robotmode") by discriminate.
  assert (Hrange : 0 <= 3 < UINT_modulus) by (vm_compute; split; congruence).
  refine (proj2 (retryCommand_trigger_count unit
                   (TableServer.respond sample_answers) Pattern.regex
                   "power on" "Powering on" "robotmode" "Robotmode: IDLE" 3
                   Hneq Hrange)
                _ _ 100%nat c eq_refl eq_refl _ _ _ _).
  - intros []. exists tt, "Powering on".
    split; [reflexivity|]. split; [simpl; intuition discriminate|].
    split; vm_compute; reflexivity.
  - intros []. exists tt, "Robotmode: POWER_OFF".
    split; [reflexivity|]. split; [simpl; intuition discriminate|].
    split; vm_compute; reflexivity.
  - split; reflexivity.
  - vm_compute. lia.
Defined.

(** Counterexample to C6 as stated: with a bound of 0 attempts the
    trigger is sent once, more than 0 times. *)
Lemma retryCommand_zero_attempts_sends_once :
  let c := connected_client true "5.9.0.1" ((0, 0, 0, 0), (0, 0, 0, 0)) in
  let r := retryCommand unit (TableServer.respond sample_answers) Pattern.regex 100
             "power on" "Powering on" "robotmode" "Robotmode: IDLE" 0 c in
  fst r = Ok false
  /\ occurrences ("power on" ++ Cxx.endl) (tx (snd r)) = 1%nat
  /\ (0 < occurrences ("power on" ++ Cxx.endl) (tx (snd r)))%nat.
Proof. vm_compute. repeat split. lia. Qed.

(** The poll cadence of the spec: a quarter of a second allows three
    attempts. *)
Example poll_quarter_second :
  let c := connected_client true "5.9.0.1" ((0, 0, 0, 0), (0, 0, 0, 0)) in
  let r := waitForReply unit (TableServer.respond sample_answers) Pattern.regex 100
             "robotmode" "Robotmode: IDLE" 0.25%float c in
  fst r = Ok false /\ List.length (tx (snd r)) = 3%nat.
Proof. vm_compute. split; reflexivity. Qed.

(* ===================================================================== *)
(** ** Several callers: exchanges do not interleave *)
(* ===================================================================== *)

Lemma nth_set_caller (l : list caller) (i j : nat) (t : caller) :
  nth j (set_caller i t l) idle
  = if Nat.eqb j i && Nat.ltb i (List.length l) then t else nth j l idle.
Proof.
  revert i j. induction l as [|x l IH]; intros i j.
  - replace (i <? List.length (@nil caller))%nat with false
      by (symmetry; apply Nat.ltb_ge; cbn; lia).
    rewrite andb_false_r. destruct i; reflexivity.
  - destruct i as [|i], j as [|j]; cbn [set_caller nth]; try reflexivity.
    rewrite IH. cbn [Nat.eqb List.length].
    replace (S i <? S (List.length l))%nat with (i <? List.length l)%nat
      by reflexivity.
    reflexivity.
Qed.

Lemma nth_set_caller_same (l : list caller) (i : nat) (t : caller) :
  (i < List.length l)%nat -> nth i (set_caller i t l) idle = t.
Proof.
  intros H. rewrite nth_set_caller, Nat.eqb_refl.
  apply Nat.ltb_lt in H. now rewrite H.
Qed.

Lemma nth_set_caller_other (l : list caller) (i j : nat) (t : caller) :
  j <> i -> nth j (set_caller i t l) idle = nth j l idle.
Proof.
  intros H. rewrite nth_set_caller.
  apply Nat.eqb_neq in H. now rewrite H.
Qed.

Lemma in_range_when_inside (l : list caller) (i : nat) :
  position (nth i l idle) <> Outside -> (i < List.length l)%nat.
Proof.
  intros H. destruct (Nat.lt_ge_cases i (List.length l)) as [L|L]; [exact L|].
  rewrite nth_overflow in H by exact L. now contradiction H.
Qed.

Lemma in_range_when_busy (l : list caller) (i : nat) :
  todo (nth i l idle) <> [] -> (i < List.length l)%nat.
Proof.
  intros H. destruct (Nat.lt_ge_cases i (List.length l)) as [L|L]; [exact L|].
  rewrite nth_overflow in H by exact L. now contradiction H.
Qed.

Section CallersFacts.

Variable Srv : Type.
Variable respond : Srv -> string -> option (Srv * list ascii).

Implicit Type s : system Srv.

(** Whoever is inside [sendAndReceive] holds the mutex. *)
Lemma owner_when_inside s (i : nat) :
  consistent Srv respond s -> inside Srv s i -> write_mutex_ Srv s = Some i.
Proof.
  intros [_ H] Hin. unfold inside in Hin.
  destruct (write_mutex_ Srv s) as [k|].
  - destruct (Nat.eq_dec i k) as [->|N]; [reflexivity|].
    destruct H as [H _]. now rewrite (H i N) in Hin.
  - destruct H as [H _]. now rewrite (H i) in Hin.
Qed.

Lemma read_gives_up_outcome (c : DashboardClient Srv) :
  state_ (snd (read_gives_up Srv c)) = Disconnected
  /\ forall response, fst (read_gives_up Srv c) <> Ok response.
Proof.
  unfold read_gives_up, bind, disconnect, TCPSocket_close, modify, gets.
  cbn [recv_timeout_ set_state].
  destruct (recv_timeout_ c); split; try reflexivity; intros r; discriminate.
Qed.

(** A call that ends leaves the system consistent when the client is
    settled and the call's record is right. *)
Lemma consistent_leave s (i : nat) (text : string)
      (answer : list ascii) (r : outcome string * DashboardClient Srv) :
  consistent Srv respond s ->
  inside Srv s i ->
  attributed Srv respond (text, answer, fst r) ->
  settled Srv (snd r) ->
  consistent Srv respond (leave Srv i text answer r s).
Proof.
  intros Hc Hin Hattr Hset.
  pose proof (owner_when_inside s i Hc Hin) as Hown.
  pose proof (in_range_when_inside _ _ Hin) as Hrange.
  destruct Hc as [Hfin Hmut]. rewrite Hown in Hmut. destruct Hmut as [Hothers _].
  unfold leave. split; cbn [write_mutex_ client callers].
  - intros j entry. unfold caller_of. cbn [callers].
    destruct (Nat.eq_dec j i) as [->|N].
    + rewrite nth_set_caller_same by exact Hrange. cbn [finished].
      intros Hin'. apply in_app_or in Hin' as [Hold|[<-|[]]];
        [exact (Hfin i entry Hold) | exact Hattr].
    + rewrite nth_set_caller_other by exact N. apply Hfin.
  - split; [|exact Hset].
    intros j. unfold caller_of. cbn [callers].
    destruct (Nat.eq_dec j i) as [->|N].
    + now rewrite nth_set_caller_same by exact Hrange.
    + rewrite nth_set_caller_other by exact N. exact (Hothers j N).
Qed.

(** A caller that moves on inside [sendAndReceive] leaves the system
    consistent when its new position fits the client. *)
Lemma consistent_move s (i : nat) (ph : phase)
      (c' : DashboardClient Srv) :
  consistent Srv respond s ->
  inside Srv s i ->
  match ph with
  | Outside => False
  | HoldingLock text => settled Srv c'
  | Receiving text answer result =>
      state_ c' = Connected
      /\ (exists p p', respond p text = Some (p', answer))
      /\ (list_ascii_of_string result ++ rx c')%list = answer
  end ->
  consistent Srv respond (move Srv i ph c' s).
Proof.
  intros Hc Hin Hph.
  pose proof (owner_when_inside s i Hc Hin) as Hown.
  pose proof (in_range_when_inside _ _ Hin) as Hrange.
  destruct Hc as [Hfin Hmut]. rewrite Hown in Hmut. destruct Hmut as [Hothers _].
  unfold move. split; cbn [write_mutex_ client callers].
  - intros j entry. unfold caller_of. cbn [callers].
    destruct (Nat.eq_dec j i) as [->|N].
    + rewrite nth_set_caller_same by exact Hrange. cbn [finished]. apply Hfin.
    + rewrite nth_set_caller_other by exact N. apply Hfin.
  - rewrite Hown. split.
    + intros j N. unfold caller_of. cbn [callers].
      rewrite nth_set_caller_other by exact N. exact (Hothers j N).
    + unfold caller_of. cbn [callers].
      rewrite nth_set_caller_same by exact Hrange. cbn [position]. exact Hph.
Qed.

Lemma consistent_timeout s (i : nat) (text : string) (answer : list ascii) :
  consistent Srv respond s ->
  inside Srv s i ->
  consistent Srv respond
    (leave Srv i text answer (read_gives_up Srv (client Srv s)) s).
Proof.
  intros Hc Hin.
  destruct (read_gives_up_outcome (client Srv s)) as [Hst Hno].
  apply consistent_leave; [exact Hc | exact Hin | | ].
  - intros response H. cbn [snd] in H. now apply Hno in H.
  - intros H. rewrite Hst in H. discriminate.
Qed.

Lemma consistent_send_failed s (i : nat) (text : string) :
  consistent Srv respond s ->
  inside Srv s i ->
  settled Srv (client Srv s) ->
  consistent Srv respond
    (leave Srv i text [] (throw Srv (UrException send_failed_what) (client Srv s)) s).
Proof.
  intros Hc Hin Hset.
  apply consistent_leave; [exact Hc | exact Hin | | exact Hset].
  intros response H. discriminate.
Qed.

(** Every event keeps the system consistent. *)
Lemma consistent_next (e : event) s :
  answers_at_most_one_line Srv respond ->
  consistent Srv respond s ->
  consistent Srv respond (next Srv respond e s).
Proof.
  intros Hone Hc. destruct e as [i|i]; unfold next.
  - destruct (position (caller_of Srv s i)) as [|text|text answer result] eqn:Hpos.
    + (* taking the mutex *)
      destruct (todo (caller_of Srv s i)) as [|text rest] eqn:Htodo; [exact Hc|].
      destruct (write_mutex_ Srv s) eqn:Hm; [exact Hc|].
      assert (Hrange : (i < List.length (callers Srv s))%nat).
      { apply in_range_when_busy. unfold caller_of in Htodo. rewrite Htodo.
        discriminate. }
      destruct Hc as [Hfin Hmut]. rewrite Hm in Hmut. destruct Hmut as [Hall Hset].
      split; cbn [write_mutex_ client callers].
      * intros j entry. unfold caller_of. cbn [callers].
        destruct (Nat.eq_dec j i) as [->|N].
        -- rewrite nth_set_caller_same by exact Hrange. cbn [finished]. apply Hfin.
        -- rewrite nth_set_caller_other by exact N. apply Hfin.
      * split.
        -- intros j N. unfold caller_of. cbn [callers].
           rewrite nth_set_caller_other by exact N. apply Hall.
        -- unfold caller_of. cbn [callers].
           rewrite nth_set_caller_same by exact Hrange. exact Hset.
    + (* writing *)
      assert (Hin : inside Srv s i) by (unfold inside; rewrite Hpos; discriminate).
      pose proof (owner_when_inside s i Hc Hin) as Hown.
      assert (Hset : settled Srv (client Srv s)).
      { destruct Hc as [_ Hmut]. rewrite Hown in Hmut. destruct Hmut as [_ Hmut].
        rewrite Hpos in Hmut. exact Hmut. }
      unfold send, TCPSocket_write.
      destruct (state_ (client Srv s)) eqn:Hst;
        [now apply consistent_send_failed|].
      destruct (respond (peer (client Srv s)) text) as [[p' answer]|] eqn:Hresp;
        [|now apply consistent_send_failed].
      apply consistent_move; [exact Hc | exact Hin |].
      rewrite (Hset Hst). cbn [List.length skipn app rx set_wire state_].
      split; [exact Hst|]. split; [|reflexivity].
      exists (peer (client Srv s)), p'. exact Hresp.
    + (* reading one byte *)
      assert (Hin : inside Srv s i) by (unfold inside; rewrite Hpos; discriminate).
      pose proof (owner_when_inside s i Hc Hin) as Hown.
      assert (Hrecv : state_ (client Srv s) = Connected
                      /\ (exists p p', respond p text = Some (p', answer))
                      /\ (list_ascii_of_string result ++ rx (client Srv s))%list
                         = answer).
      { destruct Hc as [_ Hmut]. rewrite Hown in Hmut. destruct Hmut as [_ Hmut].
        rewrite Hpos in Hmut. exact Hmut. }
      destruct Hrecv as (Hst & (p & p' & Hresp) & Hbytes).
      unfold TCPSocket_read. rewrite Hst.
      destruct (rx (client Srv s)) as [|ch rest] eqn:Hrx;
        [now apply consistent_timeout|].
      destruct (Ascii.eqb_spec ch Cxx.LF) as [->|Hch].
      * (* the newline: the call returns *)
        assert (Hrest : rest = [])
          by exact (Hone p text p' answer _ rest Hresp (eq_sym Hbytes)).
        subst rest.
        apply consistent_leave; [exact Hc | exact Hin | | ].
        -- intros response H. cbn [fst snd] in *.
           exists p, p', result. split; [exact Hresp|].
           split; [unfold line; now rewrite <- Hbytes|].
           unfold rtrim in H. unfold trimmed.
           change (String Cxx.LF EmptyString) with Cxx.endl in H.
           destruct (Cxx.erase (result ++ Cxx.endl) _) as [r|];
             cbn in H; [now injection H as <- | discriminate].
        -- unfold rtrim. destruct (Cxx.erase _ _); intros _; reflexivity.
      * (* any other byte *)
        apply consistent_move; [exact Hc | exact Hin |].
        split; [exact Hst|]. split; [exists p, p'; exact Hresp|].
        rewrite list_ascii_of_string_app, <- app_assoc. exact Hbytes.
  - destruct (position (caller_of Srv s i)) as [|text|text answer result] eqn:Hpos;
      [exact Hc | exact Hc |].
    apply consistent_timeout; [exact Hc|].
    unfold inside. rewrite Hpos. discriminate.
Qed.

Lemma consistent_run (schedule : list event) :
  answers_at_most_one_line Srv respond ->
  forall s, consistent Srv respond s ->
            consistent Srv respond (run Srv respond schedule s).
Proof.
  intros Hone. induction schedule as [|e schedule IH]; intros s Hc; [exact Hc|].
  cbn [run fold_left]. apply IH. now apply consistent_next.
Qed.

Lemma consistent_start (c : DashboardClient Srv) (programs : list (list string)) :
  settled Srv c -> consistent Srv respond (start Srv c programs).
Proof.
  intros Hset.
  assert (H : forall j, nth j (map (fun texts => mk_caller texts Outside []) programs) idle
                        = mk_caller (nth j programs []) Outside []).
  { intros j. change idle with ((fun texts => mk_caller texts Outside []) []).
    apply map_nth. }
  split; cbn [start write_mutex_ client callers].
  - intros j entry. unfold caller_of. cbn [callers]. rewrite H. intros [].
  - split; [|exact Hset]. intros j. unfold caller_of. cbn [callers].
    now rewrite H.
Qed.

(** At most one caller is inside [sendAndReceive]. *)
Lemma one_caller_inside s (i j : nat) :
  consistent Srv respond s -> inside Srv s i -> inside Srv s j -> i = j.
Proof.
  intros Hc Hi Hj.
  pose proof (owner_when_inside s i Hc Hi) as Ei.
  pose proof (owner_when_inside s j Hc Hj) as Ej.
  congruence.
Qed.

(** A lone caller: the events of one caller, run to the end of its call,
    compute [sendAndReceive]. *)
Lemma set_caller_twice (l : list caller) (i : nat) (t t' : caller) :
  set_caller i t (set_caller i t' l) = set_caller i t l.
Proof.
  revert i. induction l as [|x l IH]; intros [|i]; cbn; try reflexivity.
  now rewrite IH.
Qed.

Lemma leave_after_move s (i : nat) (ph : phase) (c' : DashboardClient Srv)
      (text : string) (answer : list ascii)
      (r : outcome string * DashboardClient Srv) :
  inside Srv s i ->
  leave Srv i text answer r (move Srv i ph c' s) = leave Srv i text answer r s.
Proof.
  intros Hin. pose proof (in_range_when_inside _ _ Hin) as Hrange.
  unfold leave, move, caller_of. cbn [callers].
  rewrite nth_set_caller_same by exact Hrange. cbn [todo finished].
  now rewrite set_caller_twice.
Qed.

Lemma run_app (l1 l2 : list event) s :
  run Srv respond (l1 ++ l2) s = run Srv respond l2 (run Srv respond l1 s).
Proof. unfold run. apply fold_left_app. Qed.

Lemma read_loop_gives_up (fuel : nat) (result : string) (k : Z)
      (c : DashboardClient Srv) :
  0 < k ->
  (state_ c = Disconnected \/ rx c = []) ->
  bind Srv (read_loop Srv (S fuel) result k)
       (fun response => rtrim Srv response rtrim_chars) c
  = read_gives_up Srv c.
Proof.
  intros Hk Hfail. cbn [read_loop]. apply Z.ltb_lt in Hk. rewrite Hk.
  unfold read_gives_up, bind, TCPSocket_read, disconnect, TCPSocket_close,
    modify, gets, throw, undefined.
  assert (E : match state_ c, rx c with
              | Connected, b :: l => (Ok (true, b, 1), set_rx Srv l c)
              | _, _ => (Ok (false, "000"%char, 0), c)
              end = (Ok (false, "000"%char, 0), c)).
  { destruct Hfail as [H|H]; rewrite H; [reflexivity|].
    destruct (state_ c); reflexivity. }
  rewrite E. cbn [negb recv_timeout_ set_state].
  destruct (recv_timeout_ c); reflexivity.
Qed.

Lemma reading_alone (pending : list ascii) :
  forall s (i : nat) (text : string) (answer : list ascii) (result : string) (k : Z),
    position (caller_of Srv s i) = Receiving text answer result ->
    rx (client Srv s) = pending ->
    0 < k ->
    exists n,
      run Srv respond (repeat (Runs i) n) s
      = leave Srv i text answer
          (bind Srv (read_loop Srv (S (List.length pending)) result k)
                (fun response => rtrim Srv response rtrim_chars) (client Srv s)) s.
Proof.
  induction pending as [|ch pending IH]; intros s i text answer result k Hpos Hrx Hk.
  - exists 1%nat. cbn [repeat run fold_left next]. rewrite Hpos.
    rewrite read_loop_gives_up by (auto; lia).
    unfold TCPSocket_read. rewrite Hrx.
    destruct (state_ (client Srv s)); reflexivity.
  - assert (Hin : inside Srv s i) by (unfold inside; rewrite Hpos; discriminate).
    destruct (state_ (client Srv s)) eqn:Hst.
    + exists 1%nat. cbn [repeat run fold_left next]. rewrite Hpos.
      rewrite read_loop_gives_up by (auto; lia).
      unfold TCPSocket_read. rewrite Hst. reflexivity.
    + assert (Hk' := Hk). apply Z.ltb_lt in Hk'.
      destruct (Ascii.eqb ch Cxx.LF) eqn:Hch.
      * exists 1%nat. cbn [repeat run fold_left next]. rewrite Hpos.
        unfold TCPSocket_read at 1. rewrite Hst, Hrx, Hch.
        cbn [read_loop List.length]. rewrite Hk'.
        unfold bind at 1 2. unfold TCPSocket_read. rewrite Hst, Hrx.
        cbn [negb]. rewrite Hch. reflexivity.
      * destruct (IH (move Srv i (Receiving text answer
                                   (result ++ String ch EmptyString))
                           (set_rx Srv pending (client Srv s)) s)
                     i text answer (result ++ String ch EmptyString) 1)
          as [n Hn].
        -- unfold move, caller_of. cbn [callers].
           now rewrite nth_set_caller_same by exact (in_range_when_inside _ _ Hin).
        -- reflexivity.
        -- lia.
        -- exists (S n). cbn [repeat]. change (Runs i :: repeat (Runs i) n)
             with ([Runs i] ++ repeat (Runs i) n)%list.
           rewrite run_app.
           assert (E1 : run Srv respond [Runs i] s
                        = move Srv i (Receiving text answer
                                        (result ++ String ch EmptyString))
                               (set_rx Srv pending (client Srv s)) s).
           { cbn [run fold_left next]. rewrite Hpos.
             unfold TCPSocket_read. rewrite Hst, Hrx, Hch. reflexivity. }
           rewrite E1, Hn.
           rewrite leave_after_move by exact Hin.
           f_equal. cbn [client move].
           symmetry. cbn [read_loop List.length]. rewrite Hk'.
           unfold bind at 1 2. unfold TCPSocket_read at 1. rewrite Hst, Hrx.
           cbn [negb]. rewrite Hch. reflexivity.
Qed.

Lemma lone_caller_is_sendAndReceive (c : DashboardClient Srv) (text : string) :
  exists n answer,
    run Srv respond (repeat (Runs 0) n) (start Srv c [[text]])
    = mk_system Srv (snd (sendAndReceive Srv respond text c)) None
                [mk_caller [] Outside
                           [(text, answer, fst (sendAndReceive Srv respond text c))]].
Proof.
  unfold sendAndReceive. unfold bind at 1 3.
  destruct (send Srv respond text c) as [[[|]| | |] c1] eqn:Hsend.
  - (* the write succeeded *)
    set (s2 := move Srv 0 (Receiving text
                             (skipn (List.length (rx c)) (rx c1)) "") c1
                    (mk_system Srv c (Some 0%nat)
                               [mk_caller [] (HoldingLock text) []])).
    destruct (reading_alone (rx c1) s2 0%nat text
                (skipn (List.length (rx c)) (rx c1)) "" 99)
      as [n Hn]; [reflexivity | reflexivity | lia |].
    exists (S (S n)), (skipn (List.length (rx c)) (rx c1)).
    change (repeat (Runs 0) (S (S n)))
      with ([Runs 0; Runs 0] ++ repeat (Runs 0) n)%list.
    rewrite run_app.
    assert (E : run Srv respond [Runs 0; Runs 0] (start Srv c [[text]]) = s2).
    { cbn [run fold_left next start map caller_of callers nth position todo
             write_mutex_ finished set_caller client].
      rewrite Hsend. reflexivity. }
    rewrite E, Hn. unfold read. reflexivity.
  - exists 2%nat, [].
    cbn [repeat run fold_left next start map caller_of callers nth position todo
           write_mutex_ finished set_caller client].
    rewrite Hsend. reflexivity.
  - unfold send, TCPSocket_write in Hsend.
    destruct (state_ c); [discriminate|]. destruct (respond _ _) as [[? ?]|]; discriminate.
  - unfold send, TCPSocket_write in Hsend.
    destruct (state_ c); [discriminate|]. destruct (respond _ _) as [[? ?]|]; discriminate.
  - unfold send, TCPSocket_write in Hsend.
    destruct (state_ c); [discriminate|]. destruct (respond _ _) as [[? ?]|]; discriminate.
Qed.


End CallersFacts.

(** C9.  Callers of one client take turns at the wire.  After any
    schedule of their transport operations and read timeouts, with a
    server that sends at most one line per request: at most one caller is
    inside [sendAndReceive]; while a reply has not been read to its end
    no event is a write; and every response a call has returned is the
    trimmed line the server sent in answer to that call's own text. *)
Theorem exchanges_do_not_interleave (Srv : Type)
        (respond : Srv -> string -> option (Srv * list ascii))
        (c : DashboardClient Srv) (programs : list (list string))
        (schedule : list event) :
  answers_at_most_one_line Srv respond ->
  settled Srv c ->
  let s := run Srv respond schedule (start Srv c programs) in
  (forall i j, inside Srv s i -> inside Srv s j -> i = j)
  /\ (forall e j, reply_pending Srv s -> ~ is_write Srv s e j)
  /\ (forall i text answer response,
         In (text, answer, Ok response) (finished (caller_of Srv s i)) ->
         exists p p' a,
           respond p text = Some (p', answer)
           /\ answer = line a
           /\ response = trimmed (a ++ Cxx.endl)).
Proof.
  intros Hone Hset s.
  assert (Hc : consistent Srv respond s)
    by (apply consistent_run; [exact Hone | now apply consistent_start]).
  split; [intros i j; exact (one_caller_inside Srv respond s i j Hc)|]. split.
  - intros e j (i & text & answer & result & Hi) (_ & text' & Hj).
    assert (E : i = j).
    { apply (one_caller_inside Srv respond s); [exact Hc | | ];
        unfold inside; [rewrite Hi | rewrite Hj]; discriminate. }
    subst j. rewrite Hi in Hj. discriminate.
  - intros i text answer response Hin.
    destruct Hc as [Hfin _].
    exact (Hfin i _ Hin response eq_refl).
Qed.

Lemma no_newline_then_one_line (l pre post : list ascii) :
  forallb (fun ch => negb (Ascii.eqb ch Cxx.LF)) l = true ->
  (l ++ [Cxx.LF])%list = (pre ++ Cxx.LF :: post)%list ->
  post = [].
Proof.
  revert pre. induction l as [|x l IH]; intros pre Hl E.
  - destruct pre as [|y pre]; cbn in E.
    + now injection E as <-.
    + injection E as _ E. destruct pre; discriminate.
  - cbn in Hl. apply andb_prop in Hl as [Hx Hl].
    destruct pre as [|y pre]; cbn in E.
    + injection E as -> _. vm_compute in Hx. discriminate.
    + injection E as _ E. now apply (IH pre).
Qed.

Lemma table_server_one_line (answers : string -> option string) :
  (forall request a, answers request = Some a ->
     forallb (fun ch => negb (Ascii.eqb ch Cxx.LF)) (list_ascii_of_string a) = true) ->
  answers_at_most_one_line unit (TableServer.respond answers).
Proof.
  intros H p text p' answer pre post Hresp E.
  unfold TableServer.respond in Hresp.
  destruct (answers text) as [a|] eqn:Ha; injection Hresp as _ <-.
  - unfold line in E. exact (no_newline_then_one_line _ _ _ (H _ _ Ha) E).
  - destruct pre; discriminate.
Qed.

Lemma sample_answers_one_line :
  answers_at_most_one_line unit (TableServer.respond sample_answers).
Proof.
  apply table_server_one_line. intros request a. unfold sample_answers.
  repeat (destruct (String.eqb request _);
          [intros E; injection E as <-; reflexivity|]).
  discriminate.
Qed.

Lemma exchanges_do_not_interleave_witness :
  let respond := TableServer.respond sample_answers in
  exists p p' a,
    respond p ("robotmode" ++ Cxx.endl) = Some (p', line "Robotmode: POWER_OFF")
    /\ line "Robotmode: POWER_OFF" = line a
    /\ "Robotmode: POWER_OFF" = trimmed (a ++ Cxx.endl).
Proof.
  intros respond.
  refine (proj2 (proj2 (exchanges_do_not_interleave unit respond
            (connected_client true "5.9.0.1" ((0, 0, 0, 0), (0, 0, 0, 0)))
            two_callers taking_turns sample_answers_one_line _))
          0%nat _ _ _ _).
  - intros _. reflexivity.
  - vm_compute. left. reflexivity.
Defined.

(** The two callers of the sample run both get their own answer. *)
Example two_callers_get_their_own_answers :
  let s := run unit (TableServer.respond sample_answers) taking_turns
               (start unit (connected_client true "5.9.0.1"
                              ((0, 0, 0, 0), (0, 0, 0, 0))) two_callers) in
  map (fun t => map (fun entry => (fst (fst entry), snd entry)) (finished t))
      (callers unit s)
  = [[("robotmode" ++ Cxx.endl, Ok "Robotmode: POWER_OFF")];
     [("running" ++ Cxx.endl, Ok "Program running: true")]].
Proof. vm_compute. reflexivity. Qed.

(* ===================================================================== *)
(** * Further properties *)
(* ===================================================================== *)

(** ** More on [parseSWVersion] *)

Lemma store_load_same (l : list Z) (idx : nat) : store l idx (load l idx) = l.
Proof.
  unfold load. revert idx. induction l as [|x l IH]; intros [|idx]; cbn;
    try reflexivity.
  now rewrite IH.
Qed.

(** Once the stream is no longer good, the rest of the loop writes
    nothing. *)
Lemma parse_rest_on_bad_stream (idxs : list nat) :
  forall (parser : Cxx.istringstream) (result : list Z),
    Cxx.good parser = false ->
    snd (fold_left
           (fun (acc : Cxx.istringstream * list Z) (idx : nat) =>
              let '(parser, result) := acc in
              let '(parser, _) := Cxx.get parser in
              let '(parser, v) := Cxx.extract_int parser (load result idx) in
              (parser, store result idx v))
           idxs (parser, result))
    = result.
Proof.
  match goal with
  | |- forall parser result, _ -> snd (fold_left ?f _ _) = _ => set (F := f)
  end.
  assert (Hbad_fail : forall parser,
             Cxx.good parser = false -> Cxx.good (Cxx.setfail parser) = false).
  { intros parser _. unfold Cxx.good, Cxx.setfail. cbn. apply andb_false_r. }
  induction idxs as [|idx idxs IH]; intros parser result Hbad; [reflexivity|].
  change (fold_left F (idx :: idxs) (parser, result))
    with (fold_left F idxs (F (parser, result) idx)).
  assert (E : F (parser, result) idx
              = (Cxx.setfail (Cxx.setfail parser), result)).
  { unfold F, Cxx.get, Cxx.extract_int.
    rewrite Hbad. cbn [negb]. rewrite (Hbad_fail parser Hbad). cbn [negb].
    now rewrite store_load_same. }
  rewrite E. apply IH. auto.
Qed.

Lemma is_int_parts (s : string) :
  is_int s = true -> is_number s = true /\ number_of s <= Cxx.INT_MAX.
Proof.
  unfold is_int. intros H. apply andb_prop in H as [H1 H2].
  split; [exact H1 | now apply Z.leb_le].
Qed.

Lemma get_any (p : ascii) (rest : list ascii) :
  Cxx.get {| Cxx.buf := p :: rest; Cxx.eofbit := false; Cxx.failbit := false |}
  = ({| Cxx.buf := rest; Cxx.eofbit := false; Cxx.failbit := false |}, Some p).
Proof. reflexivity. Qed.

Lemma no_digit_ahead_cons (p : ascii) (rest : list ascii) :
  Cxx.isdigit p = false -> no_digit_ahead (p :: rest) = true.
Proof. intros H. cbn. now rewrite H. Qed.

(** X1.  The separator is not checked: four numbers with any three
    characters between them that are not digits parse to the four
    numbers, whatever the array held before. *)
Theorem parseSWVersion_any_separator (j : junk4) (s0 s1 s2 s3 : string)
        (p1 p2 p3 : ascii) :
  is_int s0 = true -> is_int s1 = true -> is_int s2 = true -> is_int s3 = true ->
  Cxx.isdigit p1 = false -> Cxx.isdigit p2 = false -> Cxx.isdigit p3 = false ->
  tuple4 (parseSWVersion (array4 j) (separated s0 p1 s1 p2 s2 p3 s3))
  = numbers s0 s1 s2 s3.
Proof.
  intros I0 I1 I2 I3 P1 P2 P3.
  apply is_int_parts in I0 as [N0 M0]. apply is_int_parts in I1 as [N1 M1].
  apply is_int_parts in I2 as [N2 M2]. apply is_int_parts in I3 as [N3 M3].
  destruct j as [[[a b] c] d].
  unfold parseSWVersion, separated, Cxx.istringstream_of.
  rewrite list_ascii_of_string_app. cbn [list_ascii_of_string].
  rewrite (extract_int_number s0)
    by first [assumption | now apply no_digit_ahead_cons].
  cbn [fold_left Cxx.is_nil array4 store load nth].
  rewrite get_any, list_ascii_of_string_app. cbn [list_ascii_of_string].
  rewrite (extract_int_number s1)
    by first [assumption | now apply no_digit_ahead_cons].
  cbn [Cxx.is_nil store load nth].
  rewrite get_any, list_ascii_of_string_app. cbn [list_ascii_of_string].
  rewrite (extract_int_number s2)
    by first [assumption | now apply no_digit_ahead_cons].
  cbn [Cxx.is_nil store load nth].
  rewrite get_any.
  rewrite <- (app_nil_r (list_ascii_of_string s3)).
  rewrite (extract_int_number s3 []) by first [assumption | reflexivity].
  reflexivity.
Qed.

Lemma parseSWVersion_any_separator_witness :
  tuple4 (parseSWVersion (array4 (7, 7, 7, 7))
            (separated "5" "-"%char "9" " "%char "4" "x"%char "1031232"))
  = numbers "5" "9" "4" "1031232".
Proof.
  apply parseSWVersion_any_separator; reflexivity.
Defined.

(** X2.  A version string with fewer than four components writes only the
    slots of the components it has: the other slots of the array keep
    what they held.  White space alone writes nothing. *)
Theorem parseSWVersion_short_input (a b c d : Z) (s0 s1 s2 : string) :
  is_int s0 = true -> is_int s1 = true -> is_int s2 = true ->
  parseSWVersion (array4 (a, b, c, d)) s0 = [number_of s0; b; c; d]
  /\ parseSWVersion (array4 (a, b, c, d)) (s0 ++ "." ++ s1)
     = [number_of s0; number_of s1; c; d]
  /\ parseSWVersion (array4 (a, b, c, d)) (s0 ++ "." ++ s1 ++ "." ++ s2)
     = [number_of s0; number_of s1; number_of s2; d]
  /\ (forall blank, all_in rtrim_chars blank = true ->
        parseSWVersion (array4 (a, b, c, d)) blank = [a; b; c; d]).
Proof.
  intros I0 I1 I2.
  apply is_int_parts in I0 as [N0 M0]. apply is_int_parts in I1 as [N1 M1].
  apply is_int_parts in I2 as [N2 M2].
  repeat split.
  - unfold parseSWVersion, Cxx.istringstream_of.
    rewrite <- (app_nil_r (list_ascii_of_string s0)).
    rewrite (extract_int_number s0 []) by first [assumption | reflexivity].
    cbn [Cxx.is_nil array4 store load nth].
    apply parse_rest_on_bad_stream. reflexivity.
  - unfold parseSWVersion, Cxx.istringstream_of.
    repeat rewrite list_ascii_of_string_app.
    change (list_ascii_of_string ".") with ["."%char]. cbn [app].
    rewrite (extract_int_number s0) by first [assumption | reflexivity].
    cbn [fold_left Cxx.is_nil array4 store load nth].
    rewrite get_any.
    rewrite <- (app_nil_r (list_ascii_of_string s1)).
    rewrite (extract_int_number s1 []) by first [assumption | reflexivity].
    reflexivity.
  - unfold parseSWVersion, Cxx.istringstream_of.
    repeat rewrite list_ascii_of_string_app.
    change (list_ascii_of_string ".") with ["."%char]. cbn [app].
    rewrite (extract_int_number s0) by first [assumption | reflexivity].
    cbn [fold_left Cxx.is_nil array4 store load nth].
    rewrite get_any.
    rewrite (extract_int_number s1) by first [assumption | reflexivity].
    cbn [Cxx.is_nil store load nth].
    rewrite get_any.
    rewrite <- (app_nil_r (list_ascii_of_string s2)).
    rewrite (extract_int_number s2 []) by first [assumption | reflexivity].
    reflexivity.
  - intros blank Hblank.
    assert (Hskip : Cxx.skipws (list_ascii_of_string blank) = []).
    { induction blank as [|ch blank IH]; [reflexivity|].
      cbn in Hblank. apply andb_prop in Hblank as [Hch Hrest].
      cbn [list_ascii_of_string Cxx.skipws].
      assert (Hsp : Cxx.isspace ch = true).
      { revert Hch. unfold rtrim_chars, Cxx.isspace. cbn [Cxx.mem_char].
        intros Hch. repeat (apply orb_prop in Hch as [Hch|Hch]);
          try (rewrite Hch; repeat rewrite orb_true_r; reflexivity).
        discriminate. }
      rewrite Hsp. now apply IH. }
    unfold parseSWVersion, Cxx.istringstream_of.
    unfold Cxx.extract_int at 1. cbn [Cxx.good Cxx.eofbit Cxx.failbit Cxx.buf negb andb].
    rewrite Hskip. cbn [array4 load nth].
    change (store [a; b; c; d] 0 a) with [a; b; c; d].
    apply parse_rest_on_bad_stream. reflexivity.
Qed.

Lemma parseSWVersion_short_input_witness :
  parseSWVersion (array4 (7, 8, 9, 10)) ("3" ++ "." ++ "0") = [3; 0; 9; 10].
Proof.
  exact (proj1 (proj2 (parseSWVersion_short_input 7 8 9 10 "3" "0" "0"
                         eq_refl eq_refl eq_refl))).
Defined.

(** [parser >> v] on a good stream that starts with a number too large
    for [int]: the largest [int] is stored and [failbit] is set. *)
Lemma extract_int_overflow (s : string) (rest : list ascii) (v : Z) :
  is_number s = true ->
  Cxx.INT_MAX < number_of s ->
  no_digit_ahead rest = true ->
  Cxx.extract_int
    {| Cxx.buf := (list_ascii_of_string s ++ rest)%list;
       Cxx.eofbit := false; Cxx.failbit := false |} v
  = ({| Cxx.buf := rest; Cxx.eofbit := Cxx.is_nil rest; Cxx.failbit := true |},
     Cxx.INT_MAX).
Proof.
  intros Hnum Hmax Hrest.
  unfold is_number in Hnum. apply andb_prop in Hnum as [Hne Hds].
  unfold number_of in *.
  destruct (list_ascii_of_string s) as [|c ds] eqn:El; [discriminate|].
  pose proof Hds as Hds'. simpl in Hds'. apply andb_prop in Hds' as [Hc _].
  destruct (isdigit_plain c Hc) as (Hsp & Hm & Hp & _).
  unfold Cxx.extract_int. cbn [Cxx.good Cxx.eofbit Cxx.failbit Cxx.buf negb andb].
  change ((c :: ds) ++ rest)%list with (c :: (ds ++ rest))%list.
  cbn [Cxx.skipws]. rewrite Hsp.
  unfold Cxx.scan_int. rewrite Hm, Hp.
  change (c :: (ds ++ rest))%list with ((c :: ds) ++ rest)%list.
  rewrite (scan_digits_app (c :: ds) rest Hds Hrest).
  cbn [Nat.add List.length Nat.eqb].
  assert (H1 : (fold_left (fun a c0 => a * 10 + Cxx.digit_value c0) (c :: ds) 0
                <? Cxx.INT_MIN) = false)
    by (apply Z.ltb_ge; unfold Cxx.INT_MIN, Cxx.INT_MAX in *; lia).
  assert (H2 : (Cxx.INT_MAX
                <? fold_left (fun a c0 => a * 10 + Cxx.digit_value c0) (c :: ds) 0)
               = true)
    by (apply Z.ltb_lt; lia).
  rewrite H1, H2. reflexivity.
Qed.

(** [parser >> v] on a good stream that starts with a character that is
    neither white space, nor a sign, nor a digit: 0 is stored and
    [failbit] is set; nothing is consumed. *)
Lemma extract_int_no_number (ch : ascii) (rest : list ascii) (v : Z) :
  Cxx.isspace ch = false -> Cxx.isdigit ch = false ->
  Ascii.eqb ch "-"%char = false -> Ascii.eqb ch "+"%char = false ->
  Cxx.extract_int
    {| Cxx.buf := ch :: rest; Cxx.eofbit := false; Cxx.failbit := false |} v
  = ({| Cxx.buf := ch :: rest; Cxx.eofbit := false; Cxx.failbit := true |}, 0).
Proof.
  intros Hsp Hd Hm Hp.
  unfold Cxx.extract_int. cbn [Cxx.good Cxx.eofbit Cxx.failbit Cxx.buf negb andb].
  cbn [Cxx.skipws]. rewrite Hsp.
  unfold Cxx.scan_int. rewrite Hm, Hp. cbn [Cxx.scan_digits]. rewrite Hd.
  reflexivity.
Qed.

(** X3.  A component that cannot be read ends the parse.  A first
    component beyond the range of [int] is stored as the largest [int],
    and a component that does not start a number is stored as 0; in both
    cases no later slot of the array is written, whatever follows in the
    string. *)
Theorem parseSWVersion_stops_at_bad_component (a b c d : Z) :
  (forall (s0 tail : string),
      is_number s0 = true -> Cxx.INT_MAX < number_of s0 ->
      no_digit_ahead (list_ascii_of_string tail) = true ->
      parseSWVersion (array4 (a, b, c, d)) (s0 ++ tail) = [Cxx.INT_MAX; b; c; d])
  /\ (forall (ch : ascii) (tail : string),
         Cxx.isspace ch = false -> Cxx.isdigit ch = false ->
         Ascii.eqb ch "-"%char = false -> Ascii.eqb ch "+"%char = false ->
         parseSWVersion (array4 (a, b, c, d)) (String ch tail) = [0; b; c; d])
  /\ (forall (s0 : string) (ch : ascii) (tail : string),
         is_int s0 = true ->
         Cxx.isspace ch = false -> Cxx.isdigit ch = false ->
         Ascii.eqb ch "-"%char = false -> Ascii.eqb ch "+"%char = false ->
         parseSWVersion (array4 (a, b, c, d)) (s0 ++ "." ++ String ch tail)
         = [number_of s0; 0; c; d]).
Proof.
  repeat split.
  - intros s0 tail N0 M0 Htail.
    unfold parseSWVersion, Cxx.istringstream_of.
    rewrite list_ascii_of_string_app.
    rewrite (extract_int_overflow s0) by assumption.
    cbn [array4 store load nth].
    apply parse_rest_on_bad_stream. unfold Cxx.good. cbn. apply andb_false_r.
  - intros ch tail Hsp Hd Hm Hp.
    unfold parseSWVersion, Cxx.istringstream_of. cbn [list_ascii_of_string].
    rewrite extract_int_no_number by assumption.
    cbn [array4 store load nth].
    apply parse_rest_on_bad_stream. reflexivity.
  - intros s0 ch tail I0 Hsp Hd Hm Hp.
    apply is_int_parts in I0 as [N0 M0].
    unfold parseSWVersion, Cxx.istringstream_of.
    rewrite list_ascii_of_string_app. cbn [list_ascii_of_string app append].
    rewrite (extract_int_number s0) by first [assumption | reflexivity].
    cbn [Cxx.is_nil array4 store load nth].
    match goal with
    | |- snd (fold_left ?f [1%nat; 2%nat; 3%nat] ?x) = _ =>
        change (snd (fold_left f [2%nat; 3%nat] (f x 1%nat))
                = [number_of s0; 0; c; d])
    end.
    cbv beta iota. rewrite get_any.
    rewrite extract_int_no_number by assumption.
    cbn [store load nth].
    apply parse_rest_on_bad_stream. reflexivity.
Qed.

Lemma parseSWVersion_stops_at_bad_component_witness :
  parseSWVersion (array4 (7, 8, 9, 10)) ("99999999999" ++ ".1.2.3")
  = [Cxx.INT_MAX; 8; 9; 10].
Proof.
  apply (proj1 (parseSWVersion_stops_at_bad_component 7 8 9 10)).
  - reflexivity.
  - vm_compute. reflexivity.
  - reflexivity.
Defined.

(** ** More on the version gate *)

Lemma actual_dotted (Srv : Type) (c : DashboardClient Srv) (s0 s1 s2 s3 : string) :
  is_int s0 = true -> is_int s1 = true -> is_int s2 = true -> is_int s3 = true ->
  actual (dotted s0 s1 s2 s3) c = numbers s0 s1 s2 s3.
Proof.
  intros I0 I1 I2 I3.
  apply is_int_parts in I0 as [N0 M0]. apply is_int_parts in I1 as [N1 M1].
  apply is_int_parts in I2 as [N2 M2]. apply is_int_parts in I3 as [N3 M3].
  unfold actual. rewrite parseSWVersion_dotted by assumption. reflexivity.
Qed.

Lemma parseSWVersion_three (a b c d : Z) (s0 s1 s2 : string) :
  is_int s0 = true -> is_int s1 = true -> is_int s2 = true ->
  parseSWVersion (array4 (a, b, c, d)) (s0 ++ "." ++ s1 ++ "." ++ s2)
  = [number_of s0; number_of s1; number_of s2; d].
Proof.
  intros I0 I1 I2.
  apply is_int_parts in I0 as [N0 M0]. apply is_int_parts in I1 as [N1 M1].
  apply is_int_parts in I2 as [N2 M2].
  unfold parseSWVersion, Cxx.istringstream_of.
  repeat rewrite list_ascii_of_string_app.
  change (list_ascii_of_string ".") with ["."%char]. cbn [app].
  rewrite (extract_int_number s0) by first [assumption | reflexivity].
  cbn [fold_left Cxx.is_nil array4 store load nth].
  rewrite get_any.
  rewrite (extract_int_number s1) by first [assumption | reflexivity].
  cbn [Cxx.is_nil store load nth].
  rewrite get_any.
  rewrite <- (app_nil_r (list_ascii_of_string s2)).
  rewrite (extract_int_number s2 []) by first [assumption | reflexivity].
  reflexivity.
Qed.

Lemma parseSWVersion_two (a b c d : Z) (s0 s1 : string) :
  is_int s0 = true -> is_int s1 = true ->
  parseSWVersion (array4 (a, b, c, d)) (s0 ++ "." ++ s1)
  = [number_of s0; number_of s1; c; d].
Proof.
  intros I0 I1.
  apply is_int_parts in I0 as [N0 M0]. apply is_int_parts in I1 as [N1 M1].
  unfold parseSWVersion, Cxx.istringstream_of.
  repeat rewrite list_ascii_of_string_app.
  change (list_ascii_of_string ".") with ["."%char]. cbn [app].
  rewrite (extract_int_number s0) by first [assumption | reflexivity].
  cbn [fold_left Cxx.is_nil array4 store load nth].
  rewrite get_any.
  rewrite <- (app_nil_r (list_ascii_of_string s1)).
  rewrite (extract_int_number s1 []) by first [assumption | reflexivity].
  reflexivity.
Qed.

(** The array of a threshold of three or of two components: the slots
    the threshold has no component for hold what they held. *)
Lemma required_three (Srv : Type) (c : DashboardClient Srv) (a b t0 t1 t2 : string) :
  is_int t0 = true -> is_int t1 = true -> is_int t2 = true ->
  threshold a b c = t0 ++ "." ++ t1 ++ "." ++ t2 ->
  required a b c
  = (number_of t0, number_of t1, number_of t2, snd (fst (junk c))).
Proof.
  intros I0 I1 I2 Hth. unfold required. rewrite Hth.
  destruct (fst (junk c)) as [[[x y] z] w].
  now rewrite parseSWVersion_three by assumption.
Qed.

Lemma required_two (Srv : Type) (c : DashboardClient Srv) (a b t0 t1 : string) :
  is_int t0 = true -> is_int t1 = true ->
  threshold a b c = t0 ++ "." ++ t1 ->
  required a b c
  = (number_of t0, number_of t1, snd (fst (fst (junk c))), snd (fst (junk c))).
Proof.
  intros I0 I1 Hth. unfold required. rewrite Hth.
  destruct (fst (junk c)) as [[[x y] z] w].
  now rewrite parseSWVersion_two by assumption.
Qed.

Lemma lessThanVersion_passes_iff (Srv : Type) (c : DashboardClient Srv)
      (a b v : string) :
  lessThanVersion Srv a b v c = (Ok true, c)
  <-> version_lt (required a b c) (actual v c).
Proof.
  split; [|apply lessThanVersion_passes].
  intros E. destruct (version_lt_dec Srv a b v c) as [D|D]; [exact D|].
  rewrite (lessThanVersion_throws Srv a b v c D) in E. discriminate.
Qed.

(** X4.  Where the gate is decided by what the strings say, and where by
    what the arrays held.  Against a version of four components, a
    threshold of three components (two components) decides the gate by
    its own components whenever they differ from the first three (two)
    of the version: the gate passes when the threshold's are below and
    throws when they are above, whatever the array of the threshold held
    before.  Only when they are equal does the outcome follow the slots
    that were never written: the gate then passes exactly when what
    those slots held is below the rest of the version. *)
Theorem gate_decided_by_written_components (Srv : Type)
        (c : DashboardClient Srv) (a b : string)
        (t0 t1 t2 v0 v1 v2 v3 : string) :
  is_int t0 = true -> is_int t1 = true -> is_int t2 = true ->
  is_int v0 = true -> is_int v1 = true -> is_int v2 = true -> is_int v3 = true ->
  let version := dotted v0 v1 v2 v3 in
  let refused :=
    (Throw (UrException (version_what (threshold a b c) version)), c) in
  let held2 := snd (fst (fst (junk c))) in
  let held3 := snd (fst (junk c)) in
  (threshold a b c = t0 ++ "." ++ t1 ++ "." ++ t2 ->
   let T := (number_of t0, number_of t1, number_of t2, 0) in
   let V := (number_of v0, number_of v1, number_of v2, 0) in
   (version_lt T V -> lessThanVersion Srv a b version c = (Ok true, c))
   /\ (version_lt V T -> lessThanVersion Srv a b version c = refused)
   /\ (T = V ->
       (lessThanVersion Srv a b version c = (Ok true, c)
        <-> held3 < number_of v3)))
  /\ (threshold a b c = t0 ++ "." ++ t1 ->
      let T := (number_of t0, number_of t1, 0, 0) in
      let V := (number_of v0, number_of v1, 0, 0) in
      (version_lt T V -> lessThanVersion Srv a b version c = (Ok true, c))
      /\ (version_lt V T -> lessThanVersion Srv a b version c = refused)
      /\ (T = V ->
          (lessThanVersion Srv a b version c = (Ok true, c)
           <-> version_lt (0, 0, held2, held3)
                          (0, 0, number_of v2, number_of v3)))).
Proof.
  intros I0 I1 I2 J0 J1 J2 J3 version refused held2 held3.
  pose proof (actual_dotted Srv c v0 v1 v2 v3 J0 J1 J2 J3) as Hact.
  fold version in Hact. split.
  - intros Hth T V.
    pose proof (required_three Srv c a b t0 t1 t2 I0 I1 I2 Hth) as Hreq.
    fold held3 in Hreq. split; [|split].
    + intros H. apply lessThanVersion_passes. rewrite Hreq, Hact.
      unfold T, V in H. cbn in *. lia.
    + intros H. apply lessThanVersion_throws. rewrite Hreq, Hact.
      unfold T, V in H. cbn in *. lia.
    + intros E. rewrite lessThanVersion_passes_iff, Hreq, Hact.
      unfold T, V in E. injection E as E0 E1 E2. cbn. lia.
  - intros Hth T V.
    pose proof (required_two Srv c a b t0 t1 I0 I1 Hth) as Hreq.
    fold held2 held3 in Hreq. split; [|split].
    + intros H. apply lessThanVersion_passes. rewrite Hreq, Hact.
      unfold T, V in H. cbn in *. lia.
    + intros H. apply lessThanVersion_throws. rewrite Hreq, Hact.
      unfold T, V in H. cbn in *. lia.
    + intros E. rewrite lessThanVersion_passes_iff, Hreq, Hact.
      unfold T, V in E. injection E as E0 E1. cbn. lia.
Qed.

Lemma gate_decided_by_written_components_witness :
  let c := connected_client true "5.2.0.1" ((1, 2, 3, 4), (5, 6, 7, 8)) in
  lessThanVersion unit "5.1.0" "3.7" (dotted "5" "2" "0" "1") c = (Ok true, c).
Proof.
  intros c.
  refine (proj1 (proj1 (gate_decided_by_written_components unit c "5.1.0" "3.7"
                          "5" "1" "0" "5" "2" "0" "1"
                          eq_refl eq_refl eq_refl eq_refl eq_refl eq_refl eq_refl)
                       eq_refl) _).
  cbn. lia.
Defined.

Section Sentinels.

Variable Srv : Type.
Variable respond : Srv -> string -> option (Srv * list ascii).
Variable std_regex : string -> option (string -> bool).
Implicit Type c : DashboardClient Srv.

Lemma sentinel_blocks (a b : string) c (s0 s1 s2 s3 : string) :
  is_int s0 = true -> is_int s1 = true -> is_int s2 = true -> is_int s3 = true ->
  number_of s0 < 10 ->
  polyscope_version_ c = dotted s0 s1 s2 s3 ->
  threshold a b c = only_e_series \/ threshold a b c = only_cb3 ->
  ~ version_lt (required a b c) (actual (polyscope_version_ c) c).
Proof.
  intros I0 I1 I2 I3 Hmajor Hv Hth.
  rewrite Hv, actual_dotted by assumption.
  unfold required.
  destruct (fst (junk c)) as [[[x y] z] w].
  destruct Hth as [-> | ->]; cbn; lia.
Qed.

(** X5.  The thresholds that stand for "not on this variant" work as a
    version 10.0 that no controller below major version 10 reaches.  On
    a client whose variant is CB3 the four commands of the e-Series
    only, and on a client whose variant is e-Series the two commands of
    CB3 only, end in the exception of the gate and leave the client as
    it was: nothing is written. *)
Theorem other_variant_commands_are_rejected c (s0 s1 s2 s3 : string)
        (mode role : string) :
  is_int s0 = true -> is_int s1 = true -> is_int s2 = true -> is_int s3 = true ->
  number_of s0 < 10 ->
  polyscope_version_ c = dotted s0 s1 s2 s3 ->
  (e_series_ c = false ->
   commandIsInRemoteControl Srv respond std_regex c
   = (Throw (UrException (version_what only_e_series (polyscope_version_ c))), c)
   /\ commandGetOperationalMode Srv respond std_regex mode c
      = (Throw (UrException (version_what only_e_series (polyscope_version_ c))), c)
   /\ commandSetOperationalMode Srv respond std_regex mode c
      = (Throw (UrException (version_what only_e_series (polyscope_version_ c))), c)
   /\ commandClearOperationalMode Srv respond std_regex c
      = (Throw (UrException (version_what only_e_series (polyscope_version_ c))), c))
  /\ (e_series_ c = true ->
      commandSetUserRole Srv respond std_regex role c
      = (Throw (UrException (version_what only_cb3 (polyscope_version_ c))), c)
      /\ commandGetUserRole Srv respond std_regex role c
         = (Throw (UrException (version_what only_cb3 (polyscope_version_ c))), c)).
Proof.
  intros I0 I1 I2 I3 Hmajor Hv. split; intros He.
  - assert (Hth : forall a, threshold a only_e_series c = only_e_series)
      by (intros a; unfold threshold; now rewrite He).
    repeat split;
      [ unfold commandIsInRemoteControl
      | unfold commandGetOperationalMode
      | unfold commandSetOperationalMode
      | unfold commandClearOperationalMode ];
      rewrite gated_rejects
        by (apply (sentinel_blocks _ _ c s0 s1 s2 s3); auto);
      rewrite Hth; reflexivity.
  - assert (Hth : forall b, threshold only_cb3 b c = only_cb3)
      by (intros b; unfold threshold; now rewrite He).
    split; [unfold commandSetUserRole | unfold commandGetUserRole];
      rewrite gated_rejects
        by (apply (sentinel_blocks _ _ c s0 s1 s2 s3); auto);
      rewrite Hth; reflexivity.
Qed.

End Sentinels.

Lemma other_variant_commands_are_rejected_witness :
  let c := connected_client false (dotted "3" "15" "8" "0")
                            ((1, 2, 3, 4), (5, 6, 7, 8)) in
  commandIsInRemoteControl unit (TableServer.respond sample_answers) Pattern.regex c
  = (Throw (UrException (version_what only_e_series (polyscope_version_ c))), c).
Proof.
  intros c.
  refine (proj1 (proj1 (other_variant_commands_are_rejected unit
            (TableServer.respond sample_answers) Pattern.regex c
            "3" "15" "8" "0" "" "" eq_refl eq_refl eq_refl eq_refl _ eq_refl)
            eq_refl)).
  vm_compute. reflexivity.
Defined.

(** ** More on exchanges *)

Section Exchanges.

Variable Srv : Type.
Variable respond : Srv -> string -> option (Srv * list ascii).
Variable std_regex : string -> option (string -> bool).
Implicit Type c : DashboardClient Srv.

(** An exchange that returns has written its text, once. *)
Lemma sendAndReceive_returns (text : string) c (r : string) c' :
  sendAndReceive Srv respond text c = (Ok r, c') ->
  state_ c = Connected
  /\ (exists p' answer, respond (peer c) text = Some (p', answer))
  /\ tx c' = (tx c ++ [text])%list.
Proof.
  intros H.
  pose proof (sendAndReceive_tx Srv respond text c) as Htx.
  rewrite H in Htx. cbn [snd] in Htx.
  unfold sendAndReceive in H. unfold bind at 1 in H.
  unfold send, TCPSocket_write in H.
  destruct (state_ c); [discriminate|].
  destruct (respond (peer c) text) as [[p' answer]|] eqn:Hresp; [|discriminate].
  split; [reflexivity|]. split; [now exists p', answer|].
  cbv beta iota in H.
  match type of H with
  | bind Srv ?m ?k ?c1 = _ =>
      assert (K : keeps (@tx Srv) (bind Srv m k));
        [ | specialize (K c1); rewrite H in K; exact K ]
  end.
  apply keeps_bind.
  - apply keeps_read; [apply tx_set_state | apply tx_set_rx].
  - intros response. apply keeps_rtrim.
Qed.

Lemma sendRequest_returns (command expected : string) c (b : bool) c' :
  sendRequest Srv respond std_regex command expected c = (Ok b, c') ->
  b = true /\ tx c' = (tx c ++ [(command ++ Cxx.endl)%string])%list.
Proof.
  intros H. unfold sendRequest in H. unfold bind at 1 in H.
  destruct (sendAndReceive Srv respond (command ++ Cxx.endl) c)
    as [[response| | |] c1] eqn:Hex; try discriminate.
  apply sendAndReceive_returns in Hex as (_ & _ & Htx).
  unfold regex in H. destruct (std_regex expected) as [m|]; [|discriminate].
  unfold bind, ret in H. destruct (m response); cbn [negb] in H; [|discriminate].
  injection H as <- <-. split; [reflexivity | exact Htx].
Qed.

Lemma sendRequestString_returns (command expected : string) c (r : string) c' :
  sendRequestString Srv respond std_regex command expected c = (Ok r, c') ->
  (exists m, std_regex expected = Some m /\ m r = true)
  /\ tx c' = (tx c ++ [(command ++ Cxx.endl)%string])%list.
Proof.
  intros H. unfold sendRequestString in H. unfold bind at 1 in H.
  destruct (sendAndReceive Srv respond (command ++ Cxx.endl) c)
    as [[response| | |] c1] eqn:Hex; try discriminate.
  apply sendAndReceive_returns in Hex as (_ & _ & Htx).
  unfold regex in H. destruct (std_regex expected) as [m|] eqn:Hm; [|discriminate].
  unfold bind, ret in H. destruct (m response) eqn:Hmatch; cbn [negb] in H;
    [|discriminate].
  injection H as <- <-. split; [now exists m | exact Htx].
Qed.

Lemma gated_sendRequest_returns (a b command expected : string) c (r : bool) c' :
  gated Srv a b false (sendRequest Srv respond std_regex command expected) c
  = (Ok r, c') ->
  r = true /\ tx c' = (tx c ++ [(command ++ Cxx.endl)%string])%list.
Proof.
  intros H. apply gated_returns_only_from_body in H as [_ H].
  now apply sendRequest_returns in H.
Qed.

(** X6.  [sendRequest] never returns [false]: when it returns, the reply
    matched, it returns [true], and it has written exactly its command
    line.  So the thirteen commands that are the gate followed by one
    [sendRequest] return [true] whenever they return; their negative
    outcome is always an exception. *)
Theorem sendRequest_commands_return_only_true :
  (forall command expected c b c',
      sendRequest Srv respond std_regex command expected c = (Ok b, c') ->
      b = true /\ tx c' = (tx c ++ [(command ++ Cxx.endl)%string])%list)
  /\ (forall c b c' (text : string),
         (commandLoadInstallation Srv respond std_regex text c = (Ok b, c')
          \/ commandClosePopup Srv respond std_regex c = (Ok b, c')
          \/ commandCloseSafetyPopup Srv respond std_regex c = (Ok b, c')
          \/ commandUnlockProtectiveStop Srv respond std_regex c = (Ok b, c')
          \/ commandShutdown Srv respond std_regex c = (Ok b, c')
          \/ commandQuit Srv respond std_regex c = (Ok b, c')
          \/ commandRunning Srv respond std_regex c = (Ok b, c')
          \/ commandIsProgramSaved Srv respond std_regex c = (Ok b, c')
          \/ commandPopup Srv respond std_regex text c = (Ok b, c')
          \/ commandAddToLog Srv respond std_regex text c = (Ok b, c')
          \/ commandSetOperationalMode Srv respond std_regex text c = (Ok b, c')
          \/ commandClearOperationalMode Srv respond std_regex c = (Ok b, c')
          \/ commandSetUserRole Srv respond std_regex text c = (Ok b, c')) ->
         b = true /\ List.length (tx c') = S (List.length (tx c))).
Proof.
  split; [exact sendRequest_returns|].
  intros c b c' text H.
  assert (G : forall a b0 command expected,
             gated Srv a b0 false
                   (sendRequest Srv respond std_regex command expected) c
             = (Ok b, c') ->
             b = true /\ List.length (tx c') = S (List.length (tx c))).
  { intros a b0 command expected E.
    apply gated_sendRequest_returns in E as [-> Htx].
    split; [reflexivity|]. rewrite Htx, length_app. cbn. lia. }
  repeat (destruct H as [H|H]; [exact (G _ _ _ _ H)|]).
  exact (G _ _ _ _ H).
Qed.

(** X7.  The commands that hand back the reply: a reply that is returned
    matched the pattern it was requested with, so their result is [true]
    whenever they return, the version query included. *)
Theorem reply_commands_return_matching_reply c (b : bool) (r old : string) c' :
  (commandGetRobotModel Srv respond std_regex old c = (Ok (b, r), c') ->
   b = true /\ exists m, std_regex "(?:UR).*" = Some m /\ m r = true)
  /\ (commandGetSerialNumber Srv respond std_regex old c = (Ok (b, r), c') ->
      b = true /\ exists m, std_regex "(?:20).*" = Some m /\ m r = true)
  /\ (commandRobotMode Srv respond std_regex old c = (Ok (b, r), c') ->
      b = true /\ exists m, std_regex "(?:Robotmode: ).*" = Some m /\ m r = true)
  /\ (commandGetLoadedProgram Srv respond std_regex old c = (Ok (b, r), c') ->
      b = true
      /\ exists m, std_regex "(?:Loaded program: ).*" = Some m /\ m r = true)
  /\ (commandSafetyMode Srv respond std_regex old c = (Ok (b, r), c') ->
      b = true /\ exists m, std_regex "(?:Safetymode: ).*" = Some m /\ m r = true)
  /\ (commandSafetyStatus Srv respond std_regex old c = (Ok (b, r), c') ->
      b = true
      /\ exists m, std_regex "(?:Safetystatus: ).*" = Some m /\ m r = true)
  /\ (commandPolyscopeVersion Srv respond std_regex old c = (Ok (b, r), c') ->
      b = true
      /\ exists m, std_regex "(?:URSoftware ).*" = Some m /\ m r = true).
Proof.
  assert (G : forall a b0 command expected,
             gated Srv a b0 (false, old)
                   (get_matching Srv respond std_regex command expected) c
             = (Ok (b, r), c') ->
             b = true /\ exists m, std_regex expected = Some m /\ m r = true).
  { intros a b0 command expected E.
    apply gated_returns_only_from_body in E as [_ E].
    unfold get_matching in E. unfold bind at 1 in E.
    destruct (sendRequestString Srv respond std_regex command expected c)
      as [[x| | |] c1] eqn:Hs; try discriminate.
    apply sendRequestString_returns in Hs as [(m & Hm & Hmatch) _].
    unfold regex in E. rewrite Hm in E. unfold bind, ret in E.
    injection E as <- <- _. split; [exact Hmatch | now exists m]. }
  repeat match goal with |- _ /\ _ => split end; intros E;
    try exact (G _ _ _ _ E).
  unfold commandPolyscopeVersion in E. unfold bind at 1 in E.
  destruct (sendRequestString Srv respond std_regex "PolyscopeVersion"
              "(?:URSoftware ).*" c) as [[x| | |] c1] eqn:Hs; try discriminate.
  apply sendRequestString_returns in Hs as [(m & Hm & Hmatch) _].
  unfold bind, substr_or_throw, stoi_or_throw, modify, regex, ret in E.
  rewrite Hm in E.
  repeat (match type of E with
          | context [match ?x with _ => _ end] => destruct x; try discriminate
          end).
  all: injection E as <- <- _; split; [exact Hmatch | now exists m].
Qed.

End Exchanges.

Lemma sendRequest_commands_return_only_true_witness :
  let run_on := TableServer.respond sample_answers in
  let c := connected_client true "5.9.0.1" ((0, 0, 0, 0), (0, 0, 0, 0)) in
  let c' := snd (commandRunning unit run_on Pattern.regex c) in
  true = true /\ List.length (tx c') = S (List.length (tx c)).
Proof.
  intros run_on c c'.
  apply (proj2 (sendRequest_commands_return_only_true unit run_on Pattern.regex)
               c true c' "").
  do 6 right. left. vm_compute. reflexivity.
Defined.

Lemma reply_commands_return_matching_reply_witness :
  let run_on := TableServer.respond sample_answers in
  let c := connected_client true "5.9.0.1" ((0, 0, 0, 0), (0, 0, 0, 0)) in
  true = true
  /\ exists m, Pattern.regex "(?:Robotmode: ).*" = Some m
               /\ m "Robotmode: POWER_OFF" = true.
Proof.
  intros run_on c.
  apply (proj1 (proj2 (proj2 (reply_commands_return_matching_reply unit run_on
                  Pattern.regex c true "Robotmode: POWER_OFF" ""
                  (snd (commandRobotMode unit run_on Pattern.regex "" c)))))).
  vm_compute. reflexivity.
Defined.

Section Desynchronised.

Variable Srv : Type.
Variable respond : Srv -> string -> option (Srv * list ascii).
Variable std_regex : string -> option (string -> bool).
Implicit Type c : DashboardClient Srv.

(** X8.  An exchange does not discard what is unread.  When a line is
    still unread at the time of the call, the exchange writes its text
    and returns that older line, trimmed; the answer to the text it
    wrote stays unread, behind whatever followed the older line. *)
Theorem sendAndReceive_returns_oldest_unread_line (text : string)
        (pre rest answer : list ascii) (p' : Srv) c :
  state_ c = Connected ->
  rx c = (pre ++ Cxx.LF :: rest)%list ->
  ~ In Cxx.LF pre ->
  Z.of_nat (List.length pre) + 1 < Cxx.npos ->
  respond (peer c) text = Some (p', answer) ->
  sendAndReceive Srv respond text c
  = (Ok (trimmed (string_of_list_ascii pre ++ Cxx.endl)),
     set_wire Srv p' (rest ++ answer)%list (tx c ++ [text])%list c).
Proof.
  intros Hst Hrx Hnl Hsz Hresp.
  unfold sendAndReceive, bind at 1. unfold send, TCPSocket_write.
  rewrite Hst, Hresp, Hrx. unfold bind.
  rewrite (read_line Srv pre (rest ++ answer)%list);
    [ | exact Hst | cbn [rx set_wire]; now rewrite <- app_assoc | exact Hnl ].
  rewrite rtrim_trimmed; [reflexivity|].
  unfold Cxx.size. rewrite length_append, length_string_of_list_ascii.
  cbn [String.length Cxx.endl]. lia.
Qed.

(** X9.  Nothing is exchanged on a client that is not connected: the
    exchange, the two request functions, a poll with a positive timeout
    and the retry loop all end in the exception of the failed write and
    leave the client as it was. *)
Theorem exchanges_on_disconnected_client_throw c (fuel : nat)
        (text command expected status statusExpected : string)
        (timeout : float) (attempts : Z) :
  state_ c = Disconnected ->
  PrimFloat.ltb 0%float timeout = true ->
  sendAndReceive Srv respond text c = (Throw (UrException send_failed_what), c)
  /\ sendRequest Srv respond std_regex command expected c
     = (Throw (UrException send_failed_what), c)
  /\ sendRequestString Srv respond std_regex command expected c
     = (Throw (UrException send_failed_what), c)
  /\ waitForReply Srv respond std_regex (S fuel) command expected timeout c
     = (Throw (UrException send_failed_what), c)
  /\ retryCommand Srv respond std_regex (S fuel) command expected
                  status statusExpected attempts c
     = (Throw (UrException send_failed_what), c).
Proof.
  intros Hst Hpos.
  assert (E : forall t, sendAndReceive Srv respond t c
                        = (Throw (UrException send_failed_what), c)).
  { intros t. unfold sendAndReceive, bind, send, TCPSocket_write, throw.
    rewrite Hst. reflexivity. }
  repeat split.
  - apply E.
  - unfold sendRequest, bind. now rewrite E.
  - unfold sendRequestString, bind. now rewrite E.
  - unfold waitForReply. cbn [waitForReply_loop]. rewrite Hpos.
    unfold bind. now rewrite E.
  - unfold retryCommand. cbn [retryCommand_loop].
    unfold bind at 1. unfold sendRequest, bind. now rewrite E.
Qed.

End Desynchronised.

Lemma sendAndReceive_returns_oldest_unread_line_witness :
  let run_on := TableServer.respond sample_answers in
  let c := set_rx unit (line "Connected: Universal Robots Dashboard Server")
                  (connected_client true "5.9.0.1" ((0, 0, 0, 0), (0, 0, 0, 0))) in
  sendAndReceive unit run_on ("running" ++ Cxx.endl) c
  = (Ok (trimmed ("Connected: Universal Robots Dashboard Server" ++ Cxx.endl)),
     set_wire unit tt ([] ++ line "Program running: true")%list
              (tx c ++ [("running" ++ Cxx.endl)%string])%list c).
Proof.
  intros run_on c.
  apply (sendAndReceive_returns_oldest_unread_line unit run_on
           ("running" ++ Cxx.endl)
           (list_ascii_of_string "Connected: Universal Robots Dashboard Server")
           [] (line "Program running: true") tt c).
  - reflexivity.
  - reflexivity.
  - simpl. intuition discriminate.
  - vm_compute. reflexivity.
  - reflexivity.
Defined.

Lemma exchanges_on_disconnected_client_throw_witness :
  let c := fresh_client true ((0, 0, 0, 0), (0, 0, 0, 0)) in
  sendAndReceive unit (TableServer.respond sample_answers) "play" c
  = (Throw (UrException send_failed_what), c).
Proof.
  intros c.
  apply (proj1 (exchanges_on_disconnected_client_throw unit
                  (TableServer.respond sample_answers) Pattern.regex c 0
                  "play" "play" "Starting program" "programState" "x"
                  default_timeout 3 eq_refl eq_refl)).
Defined.

(** ** More on polling and retrying *)

Lemma polls_spec (timeout : float) (k : nat) :
  polls timeout k = true ->
  (forall i, (i < k)%nat -> PrimFloat.ltb (count_after i) timeout = true)
  /\ PrimFloat.ltb (count_after k) timeout = false.
Proof.
  unfold polls. intros H. apply andb_prop in H as [Hall Hlast]. split.
  - intros i Hi. rewrite forallb_forall in Hall. apply Hall.
    apply in_seq. lia.
  - now apply negb_true_iff.
Qed.

Section Polling.

Variable Srv : Type.
Variable respond : Srv -> string -> option (Srv * list ascii).
Variable std_regex : string -> option (string -> bool).
Implicit Type c : DashboardClient Srv.

(** X10.  How often [waitForReply] polls.  The step that is added to
    [count] is the [double] product 0.000001 * 100000, which is below
    0.1, so a timeout of 1 second gives 11 polls and the default of 30
    seconds gives 300; a timeout of 0 gives none.  With a query that is
    answered, but never as expected, [waitForReply] writes the query
    exactly that many times and returns [false]. *)
Theorem waitForReply_poll_count :
  polls RETRY_EVERY_SECOND 11 = true
  /\ polls default_timeout 300 = true
  /\ polls 0%float 0 = true
  /\ (forall (command expected : string) (m : string -> bool)
             (timeout : float) (k fuel : nat) c,
         std_regex expected = Some m ->
         answers_line respond (command ++ Cxx.endl) (fun r => negb (m r)) ->
         polls timeout k = true ->
         quiescent c ->
         (k < fuel)%nat ->
         exists c',
           waitForReply Srv respond std_regex fuel command expected timeout c
           = (Ok false, c')
           /\ quiescent c'
           /\ tx c' = (tx c ++ repeat (command ++ Cxx.endl)%string k)%list).
Proof.
  split; [vm_compute; reflexivity|].
  split; [vm_compute; reflexivity|].
  split; [vm_compute; reflexivity|].
  intros command expected m timeout k fuel c Hre Hans Hpolls Hq Hfuel.
  apply polls_spec in Hpolls as [Hlt Hge].
  unfold waitForReply. change 0%float with (count_after 0).
  apply (waitForReply_loop_exhausted Srv respond std_regex command expected m
           timeout k Hre Hans Hlt Hge k 0%nat fuel c);
    [reflexivity | exact Hq | exact Hfuel].
Qed.

(** A poll whose first reply is as expected returns [true] after one
    exchange. *)
Lemma waitForReply_first_match (command expected : string) (m : string -> bool)
      (timeout : float) (fuel : nat) (a : string) (p' : Srv) c :
  std_regex expected = Some m ->
  PrimFloat.ltb 0%float timeout = true ->
  quiescent c ->
  respond (peer c) (command ++ Cxx.endl) = Some (p', line a) ->
  ~ In Cxx.LF (list_ascii_of_string a) ->
  Cxx.size a + 1 < Cxx.npos ->
  m (trimmed (a ++ Cxx.endl)) = true ->
  waitForReply Srv respond std_regex (S fuel) command expected timeout c
  = (Ok true, set_wire Srv p' [] (tx c ++ [(command ++ Cxx.endl)%string])%list c).
Proof.
  intros Hre Hpos Hq Hresp Hnl Hsz Hm.
  unfold waitForReply. cbn [waitForReply_loop]. rewrite Hpos.
  unfold bind at 1.
  rewrite (sendAndReceive_line Srv respond _ a p' c Hq Hresp Hnl Hsz).
  unfold regex. rewrite Hre. unfold bind, ret. now rewrite Hm.
Qed.

(** X11.  A trigger whose reply is not as expected is not retried:
    [retryCommand] ends in the exception of [sendRequest] after that one
    exchange, whatever the number of attempts it was given, and the
    status is never queried. *)
Theorem retryCommand_does_not_retry_a_refused_trigger
        (requestCommand requestExpectedResponse : string)
        (waitRequest waitExpectedResponse : string) (timeout : Z)
        (mr : string -> bool) (fuel : nat) (a : string) (p' : Srv) c :
  std_regex requestExpectedResponse = Some mr ->
  quiescent c ->
  respond (peer c) (requestCommand ++ Cxx.endl) = Some (p', line a) ->
  ~ In Cxx.LF (list_ascii_of_string a) ->
  Cxx.size a + 1 < Cxx.npos ->
  mr (trimmed (a ++ Cxx.endl)) = false ->
  retryCommand Srv respond std_regex (S fuel)
    requestCommand requestExpectedResponse
    waitRequest waitExpectedResponse timeout c
  = (Throw (UrException (mismatch_what requestExpectedResponse
                                       (trimmed (a ++ Cxx.endl)))),
     set_wire Srv p' [] (tx c ++ [(requestCommand ++ Cxx.endl)%string])%list c).
Proof.
  intros Hre Hq Hresp Hnl Hsz Hm.
  unfold retryCommand. cbn [retryCommand_loop].
  unfold bind at 1. unfold sendRequest. unfold bind at 1.
  rewrite (sendAndReceive_line Srv respond _ a p' c Hq Hresp Hnl Hsz).
  unfold regex. rewrite Hre. unfold bind, ret, throw. now rewrite Hm.
Qed.

(** X12.  When the trigger is accepted and the first status reply is as
    expected, [retryCommand] returns [true] after two exchanges: the
    trigger, then one status query. *)
Theorem retryCommand_succeeds_at_first_poll
        (requestCommand requestExpectedResponse : string)
        (waitRequest waitExpectedResponse : string) (timeout : Z)
        (mr mw : string -> bool) (fuel : nat) (a1 a2 : string) (p1 p2 : Srv) c :
  std_regex requestExpectedResponse = Some mr ->
  std_regex waitExpectedResponse = Some mw ->
  quiescent c ->
  respond (peer c) (requestCommand ++ Cxx.endl) = Some (p1, line a1) ->
  respond p1 (waitRequest ++ Cxx.endl) = Some (p2, line a2) ->
  ~ In Cxx.LF (list_ascii_of_string a1) ->
  ~ In Cxx.LF (list_ascii_of_string a2) ->
  Cxx.size a1 + 1 < Cxx.npos ->
  Cxx.size a2 + 1 < Cxx.npos ->
  mr (trimmed (a1 ++ Cxx.endl)) = true ->
  mw (trimmed (a2 ++ Cxx.endl)) = true ->
  retryCommand Srv respond std_regex (S (S fuel))
    requestCommand requestExpectedResponse
    waitRequest waitExpectedResponse timeout c
  = (Ok true,
     set_wire Srv p2 []
              (tx c ++ [(requestCommand ++ Cxx.endl)%string;
                        (waitRequest ++ Cxx.endl)%string])%list c).
Proof.
  intros Hmr Hmw Hq Hr1 Hr2 Hn1 Hn2 Hs1 Hs2 Hm1 Hm2.
  unfold retryCommand. cbn [retryCommand_loop].
  unfold bind at 1. unfold sendRequest. unfold bind at 1.
  rewrite (sendAndReceive_line Srv respond _ a1 p1 c Hq Hr1 Hn1 Hs1).
  unfold regex at 1. rewrite Hmr. unfold bind at 1. unfold ret at 1.
  rewrite Hm1. cbn [negb]. unfold ret at 1. unfold bind at 1.
  rewrite (waitForReply_first_match waitRequest waitExpectedResponse mw
             RETRY_EVERY_SECOND fuel a2 p2 _ Hmw eq_refl);
    [ | destruct Hq; split; [assumption | reflexivity]
      | exact Hr2 | exact Hn2 | exact Hs2 | exact Hm2 ].
  unfold ret. cbn [tx set_wire]. rewrite <- app_assoc. reflexivity.
Qed.

End Polling.

Lemma waitForReply_poll_count_witness :
  let run_on := TableServer.respond sample_answers in
  let c := connected_client true "5.9.0.1" ((0, 0, 0, 0), (0, 0, 0, 0)) in
  exists c',
    waitForReply unit run_on Pattern.regex 301 "robotmode" "Robotmode: IDLE"
                 default_timeout c = (Ok false, c')
    /\ quiescent c'
    /\ tx c' = (tx c ++ repeat ("robotmode" ++ Cxx.endl)%string 300)%list.
Proof.
  intros run_on c.
  refine (proj2 (proj2 (proj2 (waitForReply_poll_count unit run_on Pattern.regex)))
                "robotmode" "Robotmode: IDLE" _ default_timeout 300%nat 301%nat c
                eq_refl _ _ _ _).
  - intros []. exists tt, "Robotmode: POWER_OFF".
    split; [reflexivity|]. split; [simpl; intuition discriminate|].
    split; vm_compute; reflexivity.
  - vm_compute. reflexivity.
  - split; reflexivity.
  - lia.
Defined.

Lemma retryCommand_does_not_retry_a_refused_trigger_witness :
  let run_on := TableServer.respond sample_answers in
  let c := connected_client true "5.9.0.1" ((0, 0, 0, 0), (0, 0, 0, 0)) in
  retryCommand unit run_on Pattern.regex 1
    "power on" "Powering up" "robotmode" "Robotmode: IDLE" 1200 c
  = (Throw (UrException (mismatch_what "Powering up"
                                       (trimmed ("Powering on" ++ Cxx.endl)))),
     set_wire unit tt [] (tx c ++ [("power on" ++ Cxx.endl)%string])%list c).
Proof.
  intros run_on c.
  refine (retryCommand_does_not_retry_a_refused_trigger unit run_on Pattern.regex
            "power on" "Powering up" "robotmode" "Robotmode: IDLE" 1200
            _ 0%nat "Powering on" tt c eq_refl _ eq_refl _ _ _).
  - split; reflexivity.
  - simpl. intuition discriminate.
  - vm_compute. reflexivity.
  - vm_compute. reflexivity.
Defined.

Lemma retryCommand_succeeds_at_first_poll_witness :
  let run_on := TableServer.respond sample_answers in
  let c := connected_client true "5.9.0.1" ((0, 0, 0, 0), (0, 0, 0, 0)) in
  retryCommand unit run_on Pattern.regex 2
    "power on" "Powering on" "robotmode" "Robotmode: POWER_OFF" 1200 c
  = (Ok true,
     set_wire unit tt []
              (tx c ++ [("power on" ++ Cxx.endl)%string;
                        ("robotmode" ++ Cxx.endl)%string])%list c).
Proof.
  intros run_on c.
  refine (retryCommand_succeeds_at_first_poll unit run_on Pattern.regex
            "power on" "Powering on" "robotmode" "Robotmode: POWER_OFF" 1200
            _ _ 0%nat "Powering on" "Robotmode: POWER_OFF" tt tt c
            eq_refl eq_refl _ eq_refl eq_refl _ _ _ _ _ _).
  - split; reflexivity.
  - simpl. intuition discriminate.
  - simpl. intuition discriminate.
  - vm_compute. reflexivity.
  - vm_compute. reflexivity.
  - vm_compute. reflexivity.
  - vm_compute. reflexivity.
Defined.

(** ** The version query and the connection *)

Lemma prefix_space_paren (ch : ascii) (s : string) :
  Ascii.eqb ch " "%char = false -> String.prefix " (" (String ch s) = false.
Proof.
  intros H.
  change (String.prefix " (" (String ch s))
    with (match ascii_dec " "%char ch with
          | left _ => String.prefix "(" s
          | right _ => false
          end).
  destruct (ascii_dec " "%char ch) as [E|E]; [|reflexivity].
  subst ch. discriminate.
Qed.

Lemma prefix_paren_other (ch : ascii) (s : string) :
  Ascii.eqb ch "("%char = false ->
  String.prefix " (" (String " " (String ch s)) = false.
Proof.
  intros H.
  change (String.prefix " (" (String " " (String ch s)))
    with (match ascii_dec " "%char " "%char with
          | left _ =>
              match ascii_dec "("%char ch with
              | left _ => String.prefix "" s
              | right _ => false
              end
          | right _ => false
          end).
  destruct (ascii_dec " "%char " "%char) as [_|N]; [|reflexivity].
  destruct (ascii_dec "("%char ch) as [E|E]; [|reflexivity].
  subst ch. discriminate.
Qed.

Lemma index_after_field (v w : string) :
  no_space v = true ->
  String.index 0 " (" (v ++ " (" ++ w) = Some (String.length v).
Proof.
  induction v as [|ch v IH]; intros H.
  - cbn. destruct w; reflexivity.
  - cbn in H. apply andb_prop in H as [Hch Hv]. apply negb_true_iff in Hch.
    change (String ch v ++ " (" ++ w) with (String ch (v ++ " (" ++ w)).
    cbn [String.length String.index].
    rewrite (prefix_space_paren ch _ Hch), (IH Hv). reflexivity.
Qed.

Lemma substring_field (v w : string) :
  String.substring 0 (String.length v) (v ++ w) = v.
Proof.
  induction v as [|ch v IH]; cbn.
  - destruct w; reflexivity.
  - now rewrite IH.
Qed.

(** The field the version query caches: in a reply that is "URSoftware",
    a space, a field that holds no space and does not start with an
    opening parenthesis, and then a space and an opening parenthesis,
    [substr] cuts out the field. *)
Lemma version_field_of_reply (ch : ascii) (v' tail : string) :
  Ascii.eqb ch " "%char = false ->
  Ascii.eqb ch "("%char = false ->
  no_space v' = true ->
  Cxx.size (String ch v') < Cxx.npos ->
  let reply := "URSoftware " ++ String ch v' ++ " (" ++ tail in
  Cxx.substr reply
    (Cxx.size_t_wrap (Cxx.find reply " " + 1))
    (Cxx.size_t_wrap (Cxx.find reply " (" - Cxx.find reply " " - 1))
  = Some (String ch v').
Proof.
  intros Hch Hpar Hns Hsz reply.
  assert (Hns' : no_space (String ch v') = true)
    by (cbn; now rewrite Hch, Hns).
  assert (F1 : Cxx.find reply " " = 10) by reflexivity.
  assert (F2 : Cxx.find reply " (" = Z.of_nat (11 + String.length (String ch v'))).
  { unfold Cxx.find, reply.
    change ("URSoftware " ++ String ch v' ++ " (" ++ tail)
      with (String "U" (String "R" (String "S" (String "o" (String "f"
             (String "t" (String "w" (String "a" (String "r" (String "e"
             (String " " (String ch (v' ++ " (" ++ tail))))))))))))).
    cbn [String.index].
    rewrite (prefix_paren_other ch _ Hpar).
    rewrite (prefix_space_paren ch _ Hch).
    repeat (match goal with
            | |- context [String.prefix " (" (String ?x ?s)] =>
                rewrite (prefix_space_paren x s) by reflexivity
            end).
    rewrite (index_after_field v' tail Hns). reflexivity. }
  rewrite F2, F1.
  change (Cxx.size_t_wrap (10 + 1)) with 11.
  assert (W : Cxx.size_t_wrap
                (Z.of_nat (11 + String.length (String ch v')) - 10 - 1)
              = Z.of_nat (String.length (String ch v'))).
  { unfold Cxx.size_t_wrap. rewrite Z.mod_small;
      unfold Cxx.size, Cxx.npos in *; lia. }
  rewrite W. unfold Cxx.substr.
  assert (S1 : Cxx.size reply
               = 11 + Z.of_nat (String.length (String ch v'))
                 + Z.of_nat (String.length (" (" ++ tail))).
  { unfold Cxx.size, reply. rewrite !length_append. cbn [String.length]. lia. }
  replace (Cxx.size reply <? 11) with false by (symmetry; apply Z.ltb_ge; lia).
  replace (Z.min (Z.of_nat (String.length (String ch v'))) (Cxx.size reply - 11))
    with (Z.of_nat (String.length (String ch v'))) by lia.
  rewrite Nat2Z.id. change (Z.to_nat 11) with 11%nat.
  unfold reply.
  change ("URSoftware " ++ String ch v' ++ " (" ++ tail)
    with (String "U" (String "R" (String "S" (String "o" (String "f"
           (String "t" (String "w" (String "a" (String "r" (String "e"
           (String " " (String ch v' ++ " (" ++ tail)))))))))))).
  cbn [String.substring].
  now rewrite substring_field.
Qed.

Section VersionQuery.

Variable Srv : Type.
Variable respond : Srv -> string -> option (Srv * list ascii).
Variable accept : Srv -> option (Srv * list ascii).
Variable std_regex : string -> option (string -> bool).
Implicit Type c : DashboardClient Srv.

(** The run of the version query on a reply of the expected shape. *)
Lemma commandPolyscopeVersion_field_run
        (m : string -> bool) (old a : string) (ch : ascii) (v' tail : string)
        (p' : Srv) c :
  std_regex "(?:URSoftware ).*" = Some m ->
  quiescent c ->
  respond (peer c) ("PolyscopeVersion" ++ Cxx.endl) = Some (p', line a) ->
  ~ In Cxx.LF (list_ascii_of_string a) ->
  Cxx.size a + 1 < Cxx.npos ->
  trimmed (a ++ Cxx.endl) = "URSoftware " ++ String ch v' ++ " (" ++ tail ->
  Cxx.isdigit ch = true ->
  no_space v' = true ->
  Cxx.size (String ch v') < Cxx.npos ->
  m (trimmed (a ++ Cxx.endl)) = true ->
  commandPolyscopeVersion Srv respond std_regex old c
  = (Ok (true, "URSoftware " ++ String ch v' ++ " (" ++ tail),
     set_e_series Srv (5 <=? Cxx.digit_value ch)
       (set_polyscope_version Srv (String ch v')
          (set_wire Srv p' []
             (tx c ++ [("PolyscopeVersion" ++ Cxx.endl)%string])%list c))).
Proof.
  intros Hre Hq Hresp Hnl Hsz Htrim Hd Hns Hvsz Hm.
  unfold commandPolyscopeVersion. unfold bind at 1.
  unfold sendRequestString. unfold bind at 1.
  rewrite (sendAndReceive_line Srv respond _ a p' c Hq Hresp Hnl Hsz).
  unfold regex at 1. rewrite Hre. unfold bind at 1. unfold ret at 1.
  rewrite Hm. cbn [negb]. unfold ret at 1.
  rewrite Htrim in *.
  unfold bind at 1. unfold substr_or_throw at 1.
  rewrite (version_field_of_reply ch v' tail) by
      first [assumption
            | destruct ch as [[] [] [] [] [] [] [] []];
              try reflexivity; discriminate].
  unfold ret at 1. unfold bind at 1. unfold modify at 1.
  unfold bind at 1. unfold substr_or_throw. rewrite substr_first.
  unfold ret at 1. unfold bind at 1. unfold stoi_or_throw.
  rewrite (stoi_digit ch Hd). unfold ret at 1.
  unfold bind at 1. unfold modify. unfold bind, regex. rewrite Hre.
  unfold ret. rewrite Hm. reflexivity.
Qed.



(** X14.  [connect] on a client that is not connected, with a server that
    accepts, greets with one line and answers the version query as in
    X13: it reads the greeting, sets the receive timeout to one second,
    caches version and variant and returns [true]; the client is
    connected with nothing unread, and the version query is the only
    write. *)
Theorem connect_succeeds
        (m : string -> bool) (greeting a : string) (ch : ascii) (v' tail : string)
        (p0 p' : Srv) c :
  state_ c = Disconnected ->
  accept (peer c) = Some (p0, line greeting) ->
  ~ In Cxx.LF (list_ascii_of_string greeting) ->
  std_regex "(?:URSoftware ).*" = Some m ->
  respond p0 ("PolyscopeVersion" ++ Cxx.endl) = Some (p', line a) ->
  ~ In Cxx.LF (list_ascii_of_string a) ->
  Cxx.size a + 1 < Cxx.npos ->
  trimmed (a ++ Cxx.endl) = "URSoftware " ++ String ch v' ++ " (" ++ tail ->
  Cxx.isdigit ch = true ->
  no_space v' = true ->
  Cxx.size (String ch v') < Cxx.npos ->
  m (trimmed (a ++ Cxx.endl)) = true ->
  exists c',
    connect Srv respond accept std_regex c = (Ok true, c')
    /\ quiescent c'
    /\ recv_timeout_ c' = Some standard_timeout
    /\ polyscope_version_ c' = String ch v'
    /\ e_series_ c' = (5 <=? Cxx.digit_value ch)
    /\ tx c' = (tx c ++ [("PolyscopeVersion" ++ Cxx.endl)%string])%list.
Proof.
  intros Hst Hacc Hg Hre Hresp Hnl Hsz Htrim Hd Hns Hvsz Hm.
  unfold connect. unfold bind at 1. unfold getState, gets.
  rewrite Hst. cbn [SocketState_eqb].
  unfold bind at 1. unfold TCPSocket_setup. rewrite Hst, Hacc.
  unfold bind at 1. unfold bind at 1.
  rewrite (read_line Srv (list_ascii_of_string greeting) []);
    [ | reflexivity | reflexivity | exact Hg ].
  unfold ret at 1. unfold bind at 1. unfold setReceiveTimeout, modify.
  unfold bind at 1.
  rewrite (commandPolyscopeVersion_field_run m "" a ch v' tail p');
    [ | exact Hre | split; reflexivity | exact Hresp | exact Hnl | exact Hsz
      | exact Htrim | exact Hd | exact Hns | exact Hvsz | exact Hm ].
  eexists. split; [reflexivity|].
  repeat split.
Qed.

End VersionQuery.


Lemma connect_succeeds_witness :
  let run_on := TableServer.respond sample_answers in
  let c := fresh_client false ((0, 0, 0, 0), (0, 0, 0, 0)) in
  exists c',
    connect unit run_on TableServer.accept Pattern.regex c = (Ok true, c')
    /\ quiescent c'
    /\ recv_timeout_ c' = Some standard_timeout
    /\ polyscope_version_ c' = String "1" "0.0.0.0"
    /\ e_series_ c' = (5 <=? Cxx.digit_value "1")
    /\ tx c' = (tx c ++ [("PolyscopeVersion" ++ Cxx.endl)%string])%list.
Proof.
  intros run_on c.
  refine (connect_succeeds unit run_on TableServer.accept Pattern.regex
            _ TableServer.greeting "URSoftware 10.0.0.0 (Jan 01 2030)"
            "1" "0.0.0.0" "Jan 01 2030)" tt tt c
            eq_refl eq_refl _ eq_refl eq_refl _ _ eq_refl eq_refl eq_refl _ _).
  - simpl. intuition discriminate.
  - simpl. intuition discriminate.
  - vm_compute. reflexivity.
  - vm_compute. reflexivity.
  - vm_compute. reflexivity.
Defined.

(** ** More on [rtrim] *)

Lemma ends_outside_cons (chars : string) (ch : ascii) (s : string) :
  s <> "" -> ends_outside chars (String ch s) = ends_outside chars s.
Proof. destruct s; [contradiction | reflexivity]. Qed.

(** What [find_last_not_of] finds: either every character is one of
    [chars], or the string splits after the position found into a part
    that ends outside [chars] and a rest inside [chars]. *)
Lemma find_last_not_of_from_split (chars s : string) :
  forall i, 0 <= i -> i + Cxx.size s <= Cxx.npos ->
  (Cxx.find_last_not_of_from i s chars = Cxx.npos /\ all_in chars s = true)
  \/ (exists kept rest,
        s = kept ++ rest
        /\ kept <> ""
        /\ Cxx.find_last_not_of_from i s chars + 1 = i + Cxx.size kept
        /\ ends_outside chars kept = true
        /\ all_in chars rest = true).
Proof.
  induction s as [|ch s IH]; intros i Hi Hsz; [left; split; reflexivity|].
  rewrite size_String in Hsz. pose proof (size_nonneg s).
  cbn [Cxx.find_last_not_of_from].
  destruct (IH (i + 1)) as [[E Hall]|(kept & rest & Hs & Hne & Hpos & Hend & Hall)];
    [lia | lia | | ].
  - rewrite E, Z.eqb_refl.
    destruct (Cxx.mem_char ch chars) eqn:Hmem.
    + left. split; [reflexivity|]. cbn. now rewrite Hmem, Hall.
    + right. exists (String ch ""), s. repeat match goal with |- _ /\ _ => split end.
      * reflexivity.
      * discriminate.
      * rewrite size_String. cbn. lia.
      * cbn. now rewrite Hmem.
      * exact Hall.
  - assert (Hr : Cxx.find_last_not_of_from (i + 1) s chars <> Cxx.npos).
    { pose proof (size_nonneg kept).
      assert (Cxx.size kept <= Cxx.size s).
      { rewrite Hs. unfold Cxx.size. rewrite length_append. lia. }
      lia. }
    apply Z.eqb_neq in Hr. rewrite Hr.
    right. exists (String ch kept), rest. repeat match goal with |- _ /\ _ => split end.
    + cbn. now rewrite Hs.
    + discriminate.
    + rewrite size_String. lia.
    + now rewrite ends_outside_cons.
    + exact Hall.
Qed.

(** X15.  [rtrim] removes exactly the trailing characters that are in
    its set: on a string that fits in memory it returns a part [kept] of
    the string such that the string is [kept] followed only by
    characters of the set, and [kept] is empty or ends with a character
    outside the set.  It changes nothing else. *)
Theorem rtrim_removes_trailing_characters (Srv : Type) (str chars : string)
        (c : DashboardClient Srv) :
  Cxx.size str < Cxx.npos ->
  exists kept rest,
    rtrim Srv str chars c = (Ok kept, c)
    /\ str = kept ++ rest
    /\ all_in chars rest = true
    /\ ends_outside chars kept = true.
Proof.
  intros Hsz. pose proof (size_nonneg str) as Hnn.
  unfold rtrim, Cxx.find_last_not_of.
  destruct (find_last_not_of_from_split chars str 0)
    as [[E Hall]|(kept & rest & Hs & Hne & Hpos & Hend & Hall)]; [lia | lia | | ].
  - exists "", str. rewrite E.
    change (Cxx.size_t_wrap (Cxx.npos + 1)) with 0.
    unfold Cxx.erase.
    replace (Cxx.size str <? 0) with false by (symmetry; apply Z.ltb_ge; lia).
    change (Z.to_nat 0) with 0%nat.
    assert (S0 : String.substring 0 0 str = "") by (destruct str; reflexivity).
    rewrite S0. repeat match goal with |- _ /\ _ => split end; [reflexivity | reflexivity | exact Hall | reflexivity].
  - exists kept, rest. rewrite Hpos, Z.add_0_l.
    assert (Hk : Cxx.size kept <= Cxx.size str).
    { rewrite Hs. unfold Cxx.size. rewrite length_append. lia. }
    pose proof (size_nonneg kept).
    unfold Cxx.size_t_wrap. rewrite Z.mod_small by (unfold Cxx.npos in *; lia).
    unfold Cxx.erase.
    replace (Cxx.size str <? Cxx.size kept) with false
      by (symmetry; apply Z.ltb_ge; lia).
    unfold Cxx.size at 1. rewrite Nat2Z.id.
    rewrite Hs at 1. rewrite substring_field.
    repeat match goal with |- _ /\ _ => split end; [reflexivity | assumption..].
Qed.

Lemma rtrim_removes_trailing_characters_witness :
  exists kept rest,
    rtrim unit ("Robotmode: IDLE" ++ String Cxx.CR Cxx.endl) rtrim_chars
          (fresh_client true ((0, 0, 0, 0), (0, 0, 0, 0)))
    = (Ok kept, fresh_client true ((0, 0, 0, 0), (0, 0, 0, 0)))
    /\ "Robotmode: IDLE" ++ String Cxx.CR Cxx.endl = kept ++ rest
    /\ all_in rtrim_chars rest = true
    /\ ends_outside rtrim_chars kept = true.
Proof.
  apply rtrim_removes_trailing_characters. vm_compute. reflexivity.
Defined.

(** ** More on the report commands *)

Section Reports.

Variable Srv : Type.
Variable respond : Srv -> string -> option (Srv * list ascii).
Variable std_regex : string -> option (string -> bool).
Implicit Type c : DashboardClient Srv.

(** The shape the two report commands share: the gate, a long timeout,
    one [sendRequest], the standard timeout. *)
Lemma report_body_outcome (a b command expected : string) (long : timeval) c :
  let out :=
    gated Srv a b false
      (bind Srv (setReceiveTimeout Srv long) (fun _ =>
       bind Srv (sendRequest Srv respond std_regex command expected) (fun ret_ =>
       bind Srv (setReceiveTimeout Srv {| tv_sec := 1; tv_usec := 0 |}) (fun _ =>
       ret Srv ret_)))) c in
  (forall r c', out = (Ok r, c') ->
     r = true
     /\ recv_timeout_ c' = Some standard_timeout
     /\ tx c' = (tx c ++ [(command ++ Cxx.endl)%string])%list)
  /\ (forall e c', out = (Throw e, c') ->
        c' = c \/ recv_timeout_ c' = Some long).
Proof.
  intros out. subst out. split.
  - intros r c' H. apply gated_returns_only_from_body in H as [_ H].
    unfold bind, setReceiveTimeout, modify in H.
    destruct (sendRequest _ _ _ _ _ _) as [[x| | |] c1] eqn:E; try discriminate.
    apply sendRequest_returns in E as [-> Etx].
    injection H as <- <-. repeat match goal with |- _ /\ _ => split end;
      [reflexivity | reflexivity | exact Etx].
  - intros e c' H.
    destruct (version_lt_dec Srv a b (polyscope_version_ c) c) as [D|D].
    + right. rewrite (gated_passes Srv a b false _ c D) in H.
      unfold bind, setReceiveTimeout, modify in H.
      pose proof (keeps_sendRequest Srv respond std_regex _ (@recv_timeout_ Srv)
                    (recv_timeout_set_state Srv) (recv_timeout_set_rx Srv)
                    (recv_timeout_set_wire Srv)
                    command expected (set_recv_timeout Srv (Some long) c)) as K.
      destruct (sendRequest _ _ _ _ _ _) as [[x| | |] c1] eqn:E; try discriminate.
      injection H as _ <-. exact K.
    + left. rewrite (gated_rejects Srv a b false _ c D) in H.
      now injection H as _ <-.
Qed.

(** X16.  The receive timeout after a report command.  When
    [commandGenerateFlightReport] or [commandGenerateSupportFile]
    returns, it returns [true], it has written its one request and the
    timeout is the standard second again.  When it throws, either the
    gate rejected it and the client is as it was, or the exchange threw
    and the timeout is left at the 180 or 600 seconds of the command. *)
Theorem report_commands_and_the_timeout (text : string) c :
  (forall r c',
      commandGenerateFlightReport Srv respond std_regex text c = (Ok r, c') ->
      r = true
      /\ recv_timeout_ c' = Some standard_timeout
      /\ tx c' = (tx c ++ [("generate flight report " ++ text ++ Cxx.endl)%string])%list)
  /\ (forall e c',
        commandGenerateFlightReport Srv respond std_regex text c = (Throw e, c') ->
        c' = c \/ recv_timeout_ c' = Some {| tv_sec := 180; tv_usec := 0 |})
  /\ (forall r c',
        commandGenerateSupportFile Srv respond std_regex text c = (Ok r, c') ->
        r = true
        /\ recv_timeout_ c' = Some standard_timeout
        /\ tx c' = (tx c ++ [("generate support file " ++ text ++ Cxx.endl)%string])%list)
  /\ (forall e c',
        commandGenerateSupportFile Srv respond std_regex text c = (Throw e, c') ->
        c' = c \/ recv_timeout_ c' = Some {| tv_sec := 600; tv_usec := 0 |}).
Proof.
  pose proof (report_body_outcome "5.8.0" "3.13"
                ("generate flight report " ++ text)
                "(?:Flight Report generated with id:).*"
                {| tv_sec := 180; tv_usec := 0 |} c) as [F1 F2].
  pose proof (report_body_outcome "5.8.0" "3.13"
                ("generate support file " ++ text)
                "(?:Completed successfully:).*"
                {| tv_sec := 600; tv_usec := 0 |} c) as [S1 S2].
  repeat match goal with |- _ /\ _ => split end.
  - intros r c' H. destruct (F1 r c' H) as (? & ? & Htx).
    repeat match goal with |- _ /\ _ => split end; assumption.
  - exact F2.
  - intros r c' H. destruct (S1 r c' H) as (? & ? & Htx).
    repeat match goal with |- _ /\ _ => split end; assumption.
  - exact S2.
Qed.

End Reports.

Lemma report_commands_and_the_timeout_witness :
  let run_on := TableServer.respond report_answers in
  let c := connected_client true "5.9.0.1" ((0, 0, 0, 0), (0, 0, 0, 0)) in
  let c' := mk_client Connected (Some standard_timeout) true "5.9.0.1" tt []
              [("generate flight report system" ++ Cxx.endl)%string]
              ((0, 0, 0, 0), (0, 0, 0, 0)) in
  commandGenerateFlightReport unit run_on Pattern.regex "system" c = (Ok true, c')
  /\ true = true
  /\ recv_timeout_ c' = Some standard_timeout
  /\ tx c' = (tx c ++ [("generate flight report " ++ "system" ++ Cxx.endl)%string])%list.
Proof.
  intros run_on c c'.
  assert (E : commandGenerateFlightReport unit run_on Pattern.regex "system" c
              = (Ok true, c')) by (vm_compute; reflexivity).
  split; [exact E|].
  exact (proj1 (report_commands_and_the_timeout unit run_on Pattern.regex
                  "system" c) true c' E).
Defined.

(** ** What the commands leave untouched *)

Section CommandFrames.

Variable Srv : Type.
Variable respond : Srv -> string -> option (Srv * list ascii).
Variable std_regex : string -> option (string -> bool).
Variables (X : Type) (f : DashboardClient Srv -> X).
Hypothesis f_state : forall s c, f (set_state Srv s c) = f c.
Hypothesis f_rx : forall l c, f (set_rx Srv l c) = f c.
Hypothesis f_wire : forall p l t c, f (set_wire Srv p l t c) = f c.

Lemma keeps_exchange (text : string) : keeps f (sendAndReceive Srv respond text).
Proof. now apply keeps_sendAndReceive. Qed.

Lemma keeps_request (command expected : string) :
  keeps f (sendRequest Srv respond std_regex command expected).
Proof. now apply keeps_sendRequest. Qed.

Lemma keeps_sendRequestString (command expected : string) :
  keeps f (sendRequestString Srv respond std_regex command expected).
Proof.
  unfold sendRequestString.
  apply keeps_bind; [apply keeps_exchange|]. intros response.
  apply keeps_bind; [apply keeps_regex|]. intros m.
  destruct (m response); cbn [negb]; [apply keeps_ret | apply keeps_throw].
Qed.

Lemma keeps_waitForReply_loop (fuel : nat) (command expected : string)
      (timeout : float) :
  forall count,
    keeps f (waitForReply_loop Srv respond std_regex fuel command expected
                               timeout count).
Proof.
  induction fuel as [|fuel IH]; intros count; cbn [waitForReply_loop];
    [apply keeps_out_of_fuel|].
  destruct (PrimFloat.ltb count timeout); [|apply keeps_ret].
  apply keeps_bind; [apply keeps_exchange|]. intros response.
  apply keeps_bind; [apply keeps_regex|]. intros m.
  destruct (m response); [apply keeps_ret | apply IH].
Qed.

Lemma keeps_waitForReply (fuel : nat) (command expected : string)
      (timeout : float) :
  keeps f (waitForReply Srv respond std_regex fuel command expected timeout).
Proof. apply keeps_waitForReply_loop. Qed.

Lemma keeps_retryCommand_loop (fuel : nat) (rc re wc we : string) (timeout : Z) :
  forall count,
    keeps f (retryCommand_loop Srv respond std_regex fuel rc re wc we
                               timeout count).
Proof.
  induction fuel as [|fuel IH]; intros count; cbn [retryCommand_loop];
    [apply keeps_out_of_fuel|].
  apply keeps_bind; [apply keeps_request|]. intros _.
  apply keeps_bind; [apply keeps_waitForReply|]. intros ok.
  destruct ok; [apply keeps_ret|].
  destruct (_ <? timeout); [apply IH | apply keeps_ret].
Qed.

Lemma keeps_retryCommand (fuel : nat) (rc re wc we : string) (timeout : Z) :
  keeps f (retryCommand Srv respond std_regex fuel rc re wc we timeout).
Proof. apply keeps_retryCommand_loop. Qed.

Lemma keeps_lessThanVersion (a b v : string) :
  keeps f (lessThanVersion Srv a b v).
Proof.
  intros c.
  destruct (lessThanVersion_never_false Srv a b v c) as [E|E];
    rewrite E; reflexivity.
Qed.

Lemma keeps_gated {A} (a b : string) (no : A) (body : M Srv A) :
  keeps f body -> keeps f (gated Srv a b no body).
Proof.
  intros Hbody. unfold gated.
  apply keeps_bind; [apply keeps_gets|]. intros v.
  apply keeps_bind; [apply keeps_lessThanVersion|]. intros ok.
  destruct ok; cbn [negb]; [exact Hbody | apply keeps_ret].
Qed.

Lemma keeps_and_then (m1 m2 : M Srv bool) :
  keeps f m1 -> keeps f m2 -> keeps f (and_then Srv m1 m2).
Proof.
  intros H1 H2. unfold and_then. apply keeps_bind; [exact H1|].
  intros b. destruct b; [exact H2 | apply keeps_ret].
Qed.

Lemma keeps_get_matching (command expected : string) :
  keeps f (get_matching Srv respond std_regex command expected).
Proof.
  unfold get_matching.
  apply keeps_bind; [apply keeps_sendRequestString|]. intros r.
  apply keeps_bind; [apply keeps_regex|]. intros m. apply keeps_ret.
Qed.

Lemma keeps_get_understood (command : string) :
  keeps f (get_understood Srv respond std_regex command).
Proof.
  unfold get_understood.
  apply keeps_bind; [apply keeps_sendRequestString|]. intros r.
  apply keeps_bind; [apply keeps_regex|]. intros m. apply keeps_ret.
Qed.

Lemma keeps_report (a b command expected : string) (long short : timeval) :
  (forall t c, f (set_recv_timeout Srv t c) = f c) ->
  keeps f
    (gated Srv a b false
      (bind Srv (setReceiveTimeout Srv long) (fun _ =>
       bind Srv (sendRequest Srv respond std_regex command expected) (fun ret_ =>
       bind Srv (setReceiveTimeout Srv short) (fun _ =>
       ret Srv ret_))))).
Proof.
  intros f_timeout. apply keeps_gated.
  apply keeps_bind; [intros c; apply f_timeout|]. intros _.
  apply keeps_bind; [apply keeps_request|]. intros ret_.
  apply keeps_bind; [intros c; apply f_timeout|]. intros _.
  apply keeps_ret.
Qed.

End CommandFrames.

Ltac frame :=
  repeat first
    [ apply keeps_gated
    | apply keeps_and_then
    | apply keeps_request
    | apply keeps_sendRequestString
    | apply keeps_waitForReply
    | apply keeps_retryCommand
    | apply keeps_get_matching
    | apply keeps_get_understood
    | apply keeps_exchange
    | apply keeps_regex
    | apply keeps_ret
    | apply keeps_bind
    | intro ];
  try reflexivity.

(** X17.  Only the version query, and [connect] which calls it, change
    what the client has cached.  The helpers [sendAndReceive], [sendRequest],
    [sendRequestString], [waitForReply] and [retryCommand] and every
    command other than [commandPolyscopeVersion] leave the cached
    version text, the variant flag and the receive timeout as they
    were, however they end; the two report commands, which set the
    timeout, still leave the cached version and the variant flag. *)
Theorem commands_keep_cached_settings (Srv : Type)
        (respond : Srv -> string -> option (Srv * list ascii))
        (std_regex : string -> option (string -> bool))
        (fuel : nat) (text expected : string) (timeout : Z) (limit : float)
        (requestCommand requestExpectedResponse : string)
        (waitRequest waitExpectedResponse : string) :
  keeps settings (sendAndReceive Srv respond text)
  /\ keeps settings (sendRequest Srv respond std_regex text expected)
  /\ keeps settings (sendRequestString Srv respond std_regex text expected)
  /\ keeps settings (waitForReply Srv respond std_regex fuel text expected limit)
  /\ keeps settings
       (retryCommand Srv respond std_regex fuel
                     requestCommand requestExpectedResponse
                     waitRequest waitExpectedResponse timeout)
  /\ keeps settings (commandPowerOff Srv respond std_regex fuel)
  /\ keeps settings (commandPowerOn Srv respond std_regex fuel timeout)
  /\ keeps settings (commandBrakeRelease Srv respond std_regex fuel)
  /\ keeps settings (commandLoadProgram Srv respond std_regex fuel text)
  /\ keeps settings (commandLoadInstallation Srv respond std_regex text)
  /\ keeps settings (commandPlay Srv respond std_regex fuel)
  /\ keeps settings (commandPause Srv respond std_regex fuel)
  /\ keeps settings (commandStop Srv respond std_regex fuel)
  /\ keeps settings (commandClosePopup Srv respond std_regex)
  /\ keeps settings (commandCloseSafetyPopup Srv respond std_regex)
  /\ keeps settings (commandRestartSafety Srv respond std_regex fuel)
  /\ keeps settings (commandUnlockProtectiveStop Srv respond std_regex)
  /\ keeps settings (commandShutdown Srv respond std_regex)
  /\ keeps settings (commandQuit Srv respond std_regex)
  /\ keeps settings (commandRunning Srv respond std_regex)
  /\ keeps settings (commandIsProgramSaved Srv respond std_regex)
  /\ keeps settings (commandIsInRemoteControl Srv respond std_regex)
  /\ keeps settings (commandPopup Srv respond std_regex text)
  /\ keeps settings (commandAddToLog Srv respond std_regex text)
  /\ keeps settings (commandGetRobotModel Srv respond std_regex text)
  /\ keeps settings (commandGetSerialNumber Srv respond std_regex text)
  /\ keeps settings (commandRobotMode Srv respond std_regex text)
  /\ keeps settings (commandGetLoadedProgram Srv respond std_regex text)
  /\ keeps settings (commandSafetyMode Srv respond std_regex text)
  /\ keeps settings (commandSafetyStatus Srv respond std_regex text)
  /\ keeps settings (commandProgramState Srv respond std_regex text)
  /\ keeps settings (commandGetOperationalMode Srv respond std_regex text)
  /\ keeps settings (commandSetOperationalMode Srv respond std_regex text)
  /\ keeps settings (commandClearOperationalMode Srv respond std_regex)
  /\ keeps settings (commandSetUserRole Srv respond std_regex text)
  /\ keeps settings (commandGetUserRole Srv respond std_regex text)
  /\ keeps cached (commandGenerateFlightReport Srv respond std_regex text)
  /\ keeps cached (commandGenerateSupportFile Srv respond std_regex text).
Proof.
  repeat match goal with |- _ /\ _ => split end;
    try (apply keeps_report; reflexivity);
    unfold commandPowerOff, commandPowerOn, commandBrakeRelease,
      commandLoadProgram, commandLoadInstallation, commandPlay, commandPause,
      commandStop, commandClosePopup, commandCloseSafetyPopup,
      commandRestartSafety, commandUnlockProtectiveStop, commandShutdown,
      commandQuit, commandRunning, commandIsProgramSaved,
      commandIsInRemoteControl, commandPopup, commandAddToLog,
      commandGetRobotModel, commandGetSerialNumber, commandRobotMode,
      commandGetLoadedProgram, commandSafetyMode, commandSafetyStatus,
      commandProgramState, commandGetOperationalMode,
      commandSetOperationalMode, commandClearOperationalMode,
      commandSetUserRole, commandGetUserRole;
    frame.
Qed.

(** ** More on one caller among several *)

Section Uninterrupted.

Variable Srv : Type.
Variable respond : Srv -> string -> option (Srv * list ascii).
Implicit Type s : system Srv.

(** A caller that holds the mutex and leaves: its record gets the call,
    the other callers are as they were before it took the mutex. *)
Lemma leave_after_taking s (i : nat) (text : string) (rest : list string)
      (answer : list ascii) (r : outcome string * DashboardClient Srv) :
  (i < List.length (callers Srv s))%nat ->
  let fin := finished (caller_of Srv s i) in
  leave Srv i text answer r
        (mk_system Srv (client Srv s) (Some i)
           (set_caller i (mk_caller rest (HoldingLock text) fin) (callers Srv s)))
  = mk_system Srv (snd r) None
      (set_caller i (mk_caller rest Outside (fin ++ [(text, answer, fst r)])%list)
                  (callers Srv s)).
Proof.
  intros Hrange fin. unfold leave, caller_of. cbn [callers].
  rewrite nth_set_caller_same by exact Hrange. cbn [todo finished].
  now rewrite set_caller_twice.
Qed.

(** X19.  A caller that finds the mutex free and is not interrupted
    performs [sendAndReceive].  From any state of any number of callers
    in which the mutex is free and caller [i] has a text to exchange,
    some number of steps of [i] alone end its call: the client is the
    one [sendAndReceive] leaves, the call's record holds the outcome of
    [sendAndReceive], the mutex is free again and no other caller has
    changed. *)
Theorem uninterrupted_call_is_sendAndReceive s (i : nat) (text : string)
        (rest : list string) :
  write_mutex_ Srv s = None ->
  position (caller_of Srv s i) = Outside ->
  todo (caller_of Srv s i) = text :: rest ->
  exists n answer,
    run Srv respond (repeat (Runs i) n) s
    = mk_system Srv (snd (sendAndReceive Srv respond text (client Srv s))) None
        (set_caller i
           (mk_caller rest Outside
              (finished (caller_of Srv s i)
               ++ [(text, answer,
                    fst (sendAndReceive Srv respond text (client Srv s)))])%list)
           (callers Srv s)).
Proof.
  intros Hm Hpos Htodo.
  assert (Hrange : (i < List.length (callers Srv s))%nat).
  { apply in_range_when_busy. unfold caller_of in Htodo. rewrite Htodo.
    discriminate. }
  set (fin := finished (caller_of Srv s i)).
  set (s1 := mk_system Srv (client Srv s) (Some i)
               (set_caller i (mk_caller rest (HoldingLock text) fin)
                           (callers Srv s))).
  assert (E1 : next Srv respond (Runs i) s = s1).
  { unfold next. rewrite Hpos, Htodo, Hm. reflexivity. }
  assert (Hc1 : caller_of Srv s1 i = mk_caller rest (HoldingLock text) fin).
  { unfold caller_of, s1. cbn [callers].
    now rewrite nth_set_caller_same by exact Hrange. }
  assert (Hin : inside Srv s1 i) by (unfold inside; rewrite Hc1; discriminate).
  unfold sendAndReceive. unfold bind at 1 3.
  destruct (send Srv respond text (client Srv s)) as [[ok| | |] c1] eqn:Hsend;
    [destruct ok| | | ].
  - (* the write succeeded *)
    set (answer := skipn (List.length (rx (client Srv s))) (rx c1)).
    set (s2 := move Srv i (Receiving text answer "") c1 s1).
    assert (E2 : next Srv respond (Runs i) s1 = s2).
    { unfold next. rewrite Hc1. cbn [position]. unfold s1 at 1 2. cbn [client].
      rewrite Hsend. reflexivity. }
    destruct (reading_alone Srv respond (rx c1) s2 i text answer "" 99)
      as [n Hn]; [ | reflexivity | lia | ].
    { unfold s2, move, caller_of. cbn [callers].
      now rewrite nth_set_caller_same by exact (in_range_when_inside _ _ Hin). }
    exists (S (S n)), answer.
    change (repeat (Runs i) (S (S n)))
      with ([Runs i; Runs i] ++ repeat (Runs i) n)%list.
    rewrite run_app.
    assert (E : run Srv respond [Runs i; Runs i] s = s2).
    { cbn [run fold_left]. now rewrite E1, E2. }
    rewrite E, Hn. unfold s2. rewrite leave_after_move by exact Hin.
    cbn [client move]. unfold s1.
    rewrite (leave_after_taking s i text rest answer _ Hrange).
    unfold read. reflexivity.
  - (* the write failed *)
    exists 2%nat, [].
    assert (E2 : next Srv respond (Runs i) s1
                 = leave Srv i text []
                         (throw Srv (UrException send_failed_what) c1) s1).
    { unfold next. rewrite Hc1. cbn [position]. unfold s1 at 1 2. cbn [client].
      rewrite Hsend. reflexivity. }
    cbn [repeat run fold_left]. rewrite E1, E2. unfold s1.
    rewrite (leave_after_taking s i text rest [] _ Hrange). reflexivity.
  - unfold send, TCPSocket_write in Hsend.
    destruct (state_ (client Srv s)); [discriminate|].
    destruct (respond _ _) as [[? ?]|]; discriminate.
  - unfold send, TCPSocket_write in Hsend.
    destruct (state_ (client Srv s)); [discriminate|].
    destruct (respond _ _) as [[? ?]|]; discriminate.
  - unfold send, TCPSocket_write in Hsend.
    destruct (state_ (client Srv s)); [discriminate|].
    destruct (respond _ _) as [[? ?]|]; discriminate.
Qed.

End Uninterrupted.

Lemma uninterrupted_call_is_sendAndReceive_witness :
  let respond := TableServer.respond sample_answers in
  let s := start unit (connected_client true "5.9.0.1"
                         ((0, 0, 0, 0), (0, 0, 0, 0))) two_callers in
  let text := ("running" ++ Cxx.endl)%string in
  exists n answer,
    run unit respond (repeat (Runs 1) n) s
    = mk_system unit (snd (sendAndReceive unit respond text (client unit s))) None
        (set_caller 1
           (mk_caller [] Outside
              (finished (caller_of unit s 1)
               ++ [(text, answer,
                    fst (sendAndReceive unit respond text (client unit s)))])%list)
           (callers unit s)).
Proof.
  intros respond s text.
  apply (uninterrupted_call_is_sendAndReceive unit respond s 1 text []);
    reflexivity.
Defined.

(** ** Commands that request and then wait *)

Section RequestThenWait.

Variable Srv : Type.
Variable respond : Srv -> string -> option (Srv * list ascii).
Variable std_regex : string -> option (string -> bool).
Implicit Type c : DashboardClient Srv.

(** A wait that returns has written its query some number [k] of times,
    each under a count below the timeout; it returns [true] after at
    least one query and [false] once the count has reached the timeout. *)
Lemma waitForReply_loop_returns (command expected : string) (timeout : float) :
  forall fuel j c (r : bool) c',
    waitForReply_loop Srv respond std_regex fuel command expected timeout
                      (count_after j) c = (Ok r, c') ->
    exists k,
      tx c' = (tx c ++ repeat (command ++ Cxx.endl)%string k)%list
      /\ (forall i, (i < k)%nat ->
             PrimFloat.ltb (count_after (j + i)) timeout = true)
      /\ (if r then (1 <= k)%nat
          else PrimFloat.ltb (count_after (j + k)) timeout = false).
Proof.
  induction fuel as [|fuel IH]; intros j c r c' H; [discriminate|].
  cbn [waitForReply_loop] in H.
  destruct (PrimFloat.ltb (count_after j) timeout) eqn:Hlt.
  - unfold bind at 1 in H.
    destruct (sendAndReceive Srv respond (command ++ Cxx.endl) c)
      as [[response| | |] c1] eqn:Hex; try discriminate.
    apply sendAndReceive_returns in Hex as (_ & _ & Htx).
    unfold regex in H. destruct (std_regex expected) as [m|]; [|discriminate].
    unfold bind at 1 in H. unfold ret at 1 in H.
    destruct (m response).
    + injection H as <- <-. exists 1%nat.
      split; [exact Htx|]. split; [|lia].
      intros i Hi. replace (j + i)%nat with j by lia. exact Hlt.
    + change (PrimFloat.add (count_after j) time_step) with (count_after (S j)) in H.
      apply IH in H as (k & Hk & Hbelow & Hend).
      exists (S k). split; [|split].
      * rewrite Hk, Htx, <- app_assoc. reflexivity.
      * intros [|i] Hi; [now rewrite Nat.add_0_r|].
        replace (j + S i)%nat with (S j + i)%nat by lia. apply Hbelow. lia.
      * destruct r; [lia|].
        replace (j + S k)%nat with (S j + k)%nat by lia. exact Hend.
  - injection H as <- <-. exists 0%nat.
    split; [cbn; now rewrite app_nil_r|]. split; [intros i Hi; lia|].
    now rewrite Nat.add_0_r.
Qed.

Lemma append_empty (s : string) : (s ++ "")%string = s.
Proof. induction s as [|x s IH]; cbn; [reflexivity | now rewrite IH]. Qed.

(** The shape of the seven commands that send a request and then poll a
    status for the default 30 seconds. *)
Lemma request_then_wait_returns (a b request reply query expected : string)
      (fuel : nat) c (r : bool) c' :
  gated Srv a b false
    (and_then Srv (sendRequest Srv respond std_regex request reply)
       (waitForReply Srv respond std_regex fuel query expected default_timeout)) c
  = (Ok r, c') ->
  exists k,
    tx c' = (tx c ++ (request ++ Cxx.endl)%string
                  :: repeat (query ++ Cxx.endl)%string k)%list
    /\ (k <= 300)%nat
    /\ (r = true -> (1 <= k)%nat)
    /\ (r = false -> k = 300%nat).
Proof.
  intros H. apply gated_returns_only_from_body in H as [_ H].
  unfold and_then in H. unfold bind at 1 in H.
  destruct (sendRequest Srv respond std_regex request reply c)
    as [[ok| | |] c1] eqn:Hreq; try discriminate.
  apply sendRequest_returns in Hreq as [-> Htx].
  unfold waitForReply in H. change 0%float with (count_after 0) in H.
  apply waitForReply_loop_returns in H as (k & Hk & Hbelow & Hend).
  assert (P : polls default_timeout 300 = true) by (vm_compute; reflexivity).
  apply polls_spec in P as [Pbelow Pend].
  assert (Hle : (k <= 300)%nat).
  { destruct (Nat.le_gt_cases k 300) as [L|L]; [exact L|].
    specialize (Hbelow 300%nat L). cbn [Nat.add] in Hbelow. congruence. }
  exists k. split; [|split; [exact Hle|split]].
  - rewrite Hk, Htx, <- app_assoc. reflexivity.
  - intros ->. exact Hend.
  - intros ->. cbn [Nat.add] in Hend.
    destruct (Nat.eq_dec k 300) as [E|N]; [exact E|].
    rewrite Pbelow in Hend by lia. discriminate.
Qed.

(** X20.  The commands that send a request and then poll a status
    ([commandPowerOff], [commandBrakeRelease], [commandLoadProgram],
    [commandPlay], [commandPause], [commandStop],
    [commandRestartSafety]): when one returns, it has written its
    request once and then its status query [k] times, with [k] at most
    300; it returns [true] only after at least one query, and [false]
    only after all 300 polls of the 30-second default have gone without
    the expected status. *)
Theorem request_then_wait_commands (fuel : nat) (name : string) c (r : bool) c' :
  let outcome_of (request query : string) :=
    exists k,
      tx c' = (tx c ++ (request ++ Cxx.endl)%string
                    :: repeat (query ++ Cxx.endl)%string k)%list
      /\ (k <= 300)%nat
      /\ (r = true -> (1 <= k)%nat)
      /\ (r = false -> k = 300%nat) in
  (commandPowerOff Srv respond std_regex fuel c = (Ok r, c') ->
   outcome_of "power off" "robotmode")
  /\ (commandBrakeRelease Srv respond std_regex fuel c = (Ok r, c') ->
      outcome_of "brake release" "robotmode")
  /\ (commandLoadProgram Srv respond std_regex fuel name c = (Ok r, c') ->
      outcome_of ("load " ++ name) "programState")
  /\ (commandPlay Srv respond std_regex fuel c = (Ok r, c') ->
      outcome_of "play" "programState")
  /\ (commandPause Srv respond std_regex fuel c = (Ok r, c') ->
      outcome_of "pause" "programState")
  /\ (commandStop Srv respond std_regex fuel c = (Ok r, c') ->
      outcome_of "stop" "programState")
  /\ (commandRestartSafety Srv respond std_regex fuel c = (Ok r, c') ->
      outcome_of "restart safety" "robotmode").
Proof.
  intros outcome_of. subst outcome_of. cbv beta.
  repeat match goal with |- _ /\ _ => split end; intros H;
    try (apply request_then_wait_returns in H; exact H).
  (* the program name is sent with an empty literal appended *)
  unfold commandLoadProgram in H.
  apply request_then_wait_returns in H.
  destruct H as (k & Htx & Hrest). exists k. split; [|exact Hrest].
  rewrite Htx, append_empty. reflexivity.
Qed.

End RequestThenWait.

Lemma request_then_wait_commands_witness :
  let respond := TableServer.respond power_off_answers in
  let c := connected_client true "5.9.0.1" ((0, 0, 0, 0), (0, 0, 0, 0)) in
  let c' := mk_client Connected (Some standard_timeout) true "5.9.0.1" tt []
              [("power off" ++ Cxx.endl)%string; ("robotmode" ++ Cxx.endl)%string]
              ((0, 0, 0, 0), (0, 0, 0, 0)) in
  commandPowerOff unit respond Pattern.regex 5 c = (Ok true, c')
  /\ exists k,
      tx c' = (tx c ++ ("power off" ++ Cxx.endl)%string
                    :: repeat ("robotmode" ++ Cxx.endl)%string k)%list
      /\ (k <= 300)%nat
      /\ (true = true -> (1 <= k)%nat)
      /\ (true = false -> k = 300%nat).
Proof.
  intros respond c c'.
  assert (E : commandPowerOff unit respond Pattern.regex 5 c = (Ok true, c'))
    by (vm_compute; reflexivity).
  split; [exact E|].
  exact (proj1 (request_then_wait_commands unit respond Pattern.regex 5 "" c true c') E).
Defined.

(** ** The remote-control query *)

(** X21.  [commandIsInRemoteControl] reports a negative answer by its
    return value.  On an e-Series
    client above 5.6.0 with nothing unread, whatever line the server
    answers, the command returns whether that line, trimmed, matches
    [true]; a reply that does not match gives [false], not an
    exception, and the client has written the one request. *)
Theorem commandIsInRemoteControl_returns_the_match (Srv : Type)
        (respond : Srv -> string -> option (Srv * list ascii))
        (std_regex : string -> option (string -> bool))
        (m : string -> bool) (a : string) (p' : Srv) (c : DashboardClient Srv) :
  std_regex "true" = Some m ->
  version_lt (required "5.6.0" only_e_series c) (actual (polyscope_version_ c) c) ->
  quiescent c ->
  respond (peer c) ("is in remote control" ++ Cxx.endl) = Some (p', line a) ->
  ~ In Cxx.LF (list_ascii_of_string a) ->
  Cxx.size a + 1 < Cxx.npos ->
  commandIsInRemoteControl Srv respond std_regex c
  = (Ok (m (trimmed (a ++ Cxx.endl))),
     set_wire Srv p' []
              (tx c ++ [("is in remote control" ++ Cxx.endl)%string])%list c).
Proof.
  intros Hre Hgate Hq Hresp Hnl Hsz.
  unfold commandIsInRemoteControl. rewrite gated_passes by exact Hgate.
  unfold bind at 1.
  rewrite (sendAndReceive_line Srv respond _ a p' c Hq Hresp Hnl Hsz).
  unfold regex. rewrite Hre. reflexivity.
Qed.

Lemma commandIsInRemoteControl_returns_the_match_witness :
  let respond := TableServer.respond local_control_answers in
  let c := connected_client true "5.9.0.1" ((0, 0, 0, 0), (0, 0, 0, 0)) in
  commandIsInRemoteControl unit respond Pattern.regex c
  = (Ok false,
     set_wire unit tt []
              (tx c ++ [("is in remote control" ++ Cxx.endl)%string])%list c).
Proof.
  intros respond c.
  destruct (Pattern.regex "true") as [m|] eqn:Hre; [|discriminate].
  assert (Hm : m (trimmed ("false" ++ Cxx.endl)) = false).
  { injection Hre as <-. vm_compute. reflexivity. }
  assert (K := commandIsInRemoteControl_returns_the_match unit respond
                 Pattern.regex m "false" tt c Hre).
  rewrite Hm in K. apply K.
  - cbn. lia.
  - split; reflexivity.
  - reflexivity.
  - simpl. intuition discriminate.
  - vm_compute. reflexivity.
Defined.
